(** * Prospect research and qualification engine (sales-mcp, tools/research.js)

    A shallow embedding of the research tool: website resolver, platform
    classifier, contact extraction and quality scoring, fit scoring, and the
    single/batch orchestrator, followed by the properties the specification
    states about them.  The helpers of the e-mail tool that run without the
    language model (tools/email.js) and the server's own qualification
    score (index.js, config/targets.js) are embedded after them, with
    further properties of the code at the end of the file.

    Conventions of the embedding.
    - JavaScript strings are [string]s of 8-bit characters.  Case mapping and
      the regular-expression classes [\s], [\w], [\d] are the ASCII ones;
      characters above 127 are carried through unchanged.
    - JavaScript integers that stay far below 2^53 are [Z].  The two places
      where the source divides and rounds ([Math.round]) are evaluated on
      IEEE-754 binary64 numbers, as the engine does.
    - Network and DOM access (axios, cheerio) is replaced by explicit inputs:
      the outcome of each request and the result of each selector query. *)

From Stdlib Require Import ZArith Lia List Bool Ascii String Permutation Sorted.
From Stdlib Require Import Floats.PrimFloat Floats.FloatOps Floats.SpecFloat.
From Stdlib Require Import Numbers.Cyclic.Int63.Uint63.
Import ListNotations.

Open Scope string_scope.
Open Scope Z_scope.

(* ================================================================== *)
(** * JavaScript strings *)
(* ================================================================== *)

Module Js.

Definition code (c : ascii) : nat := nat_of_ascii c.

Definition between (lo hi : nat) (c : ascii) : bool :=
  (Nat.leb lo (code c) && Nat.leb (code c) hi)%bool.

Definition isUpperAZ (c : ascii) : bool := between 65 90 c.
Definition isLowerAZ (c : ascii) : bool := between 97 122 c.
Definition isDigit (c : ascii) : bool := between 48 57 c.
Definition isAlpha (c : ascii) : bool := (isUpperAZ c || isLowerAZ c)%bool.

(** [\s] (and the characters [trim] strips): TAB, LF, VT, FF, CR, SPACE. *)
Definition isSpace (c : ascii) : bool :=
  (between 9 13 c || Nat.eqb (code c) 32)%bool.

(** [\w] : letters, digits and underscore. *)
Definition isWord (c : ascii) : bool :=
  (isAlpha c || isDigit c || Nat.eqb (code c) 95)%bool.

Definition toLowerChar (c : ascii) : ascii :=
  if isUpperAZ c then ascii_of_nat (code c + 32) else c.

Definition toUpperChar (c : ascii) : ascii :=
  if isLowerAZ c then ascii_of_nat (code c - 32) else c.

Fixpoint mapChars (f : ascii -> ascii) (s : string) : string :=
  match s with
  | EmptyString => EmptyString
  | String c s' => String (f c) (mapChars f s')
  end.

Definition toLowerCase : string -> string := mapChars toLowerChar.
Definition toUpperCase : string -> string := mapChars toUpperChar.

Fixpoint filterChars (p : ascii -> bool) (s : string) : string :=
  match s with
  | EmptyString => EmptyString
  | String c s' => if p c then String c (filterChars p s') else filterChars p s'
  end.

Fixpoint forallChars (p : ascii -> bool) (s : string) : bool :=
  match s with
  | EmptyString => true
  | String c s' => (p c && forallChars p s')%bool
  end.

(** [hay.startsWith(needle)] *)
Fixpoint startsWith (needle hay : string) : bool :=
  match needle, hay with
  | EmptyString, _ => true
  | String a n', String b h' => (Ascii.eqb a b && startsWith n' h')%bool
  | String _ _, EmptyString => false
  end.

(** [hay.includes(needle)] *)
Fixpoint includes (hay needle : string) : bool :=
  (startsWith needle hay ||
   match hay with
   | EmptyString => false
   | String _ h' => includes h' needle
   end)%bool.

(** [s.slice(n)] for [0 <= n]. *)
Fixpoint drop (n : nat) (s : string) : string :=
  match n, s with
  | O, _ => s
  | S n', String _ s' => drop n' s'
  | S _, EmptyString => EmptyString
  end.

(** [s.slice(0, n)] for [0 <= n]. *)
Fixpoint take (n : nat) (s : string) : string :=
  match n, s with
  | S n', String c s' => String c (take n' s')
  | _, _ => EmptyString
  end.

Fixpoint trimStart (s : string) : string :=
  match s with
  | String c s' => if isSpace c then trimStart s' else s
  | EmptyString => EmptyString
  end.

(** Removes trailing white space: a character is kept when something that is
    kept follows it, or when it is not white space itself. *)
Fixpoint trimEnd (s : string) : string :=
  match s with
  | EmptyString => EmptyString
  | String c s' =>
      match trimEnd s' with
      | EmptyString => if isSpace c then EmptyString else String c EmptyString
      | t => String c t
      end
  end.

Definition trim (s : string) : string := trimEnd (trimStart s).

(** [s.split(sep)] for a one-character separator; the result is never empty
    ([''.split(sep)] is [['']]). *)
Fixpoint split (sep : ascii) (s : string) : list string :=
  match s with
  | EmptyString => [EmptyString]
  | String c s' =>
      if Ascii.eqb c sep then EmptyString :: split sep s'
      else match split sep s' with
           | w :: ws => String c w :: ws
           | [] => [String c EmptyString]
           end
  end.

(** [parts.join(sep)] *)
Fixpoint join (sep : string) (parts : list string) : string :=
  match parts with
  | [] => EmptyString
  | [w] => w
  | w :: ws => w ++ sep ++ join sep ws
  end.

(** [s.replace(pat, rep)] with a string pattern: the first occurrence only. *)
Fixpoint replaceFirst (pat rep s : string) : string :=
  if startsWith pat s then rep ++ drop (String.length pat) s
  else match s with
       | EmptyString => EmptyString
       | String c s' => String c (replaceFirst pat rep s')
       end.

(** Truthiness of a string value that may be [null]/[undefined]. *)
Definition truthy (o : option string) : bool :=
  match o with
  | Some (String _ _) => true
  | _ => false
  end.

(** [a || null] on a possibly absent string. *)
Definition orNull (o : option string) : option string :=
  if truthy o then o else None.

Definition nonEmpty (s : string) : bool :=
  match s with EmptyString => false | String _ _ => true end.

Definition zlen (s : string) : Z := Z.of_nat (String.length s).

End Js.

(* ================================================================== *)
(** * Regular expressions

    A backtracking matcher for the fragment of JavaScript regular
    expressions the source uses: character classes, sequence, ordered
    alternation, greedy and lazy bounded repetition, capturing groups and the
    end anchor.  Alternatives and repetition counts are tried in the order
    the language prescribes, so the first match found is the one
    [String.prototype.match] reports. *)
(* ================================================================== *)

Module Regex.

Inductive regex : Type :=
| Eps
| Cls (p : ascii -> bool)
| Seq (r1 r2 : regex)
| Alt (r1 r2 : regex)
| Rep (r : regex) (lo : nat) (hi : option nat) (greedy : bool)
| Grp (r : regex)
| Eos.

Definition under (hi : option nat) (n : nat) : bool :=
  match hi with
  | None => true
  | Some h => Nat.ltb n h
  end.

Definition consumed (s rest : string) : nat :=
  (String.length s - String.length rest)%nat.

(** [run r caps s k]: match [r] at the front of [s], then hand the captures
    and the remaining input to [k]; on failure of [k] the next way of
    matching [r] is tried. *)
Fixpoint run {A : Type} (r : regex) (caps : list string) (s : string)
         (k : list string -> string -> option A) {struct r} : option A :=
  match r with
  | Eps => k caps s
  | Eos => match s with EmptyString => k caps s | String _ _ => None end
  | Cls p =>
      match s with
      | String c s' => if p c then k caps s' else None
      | EmptyString => None
      end
  | Seq a b => run a caps s (fun caps1 s1 => run b caps1 s1 k)
  | Alt a b =>
      match run a caps s k with
      | Some x => Some x
      | None => run b caps s k
      end
  | Grp a =>
      run a caps s
          (fun caps1 s1 => k (caps1 ++ [Js.take (consumed s s1) s])%list s1)
  | Rep a lo hi greedy =>
      (fix loop (fuel n : nat) (caps0 : list string) (s0 : string)
           {struct fuel} : option A :=
         match fuel with
         | O => None
         | S fuel' =>
             let again (_ : unit) :=
               if under hi n then
                 run a caps0 s0
                     (fun caps1 s1 =>
                        if (Nat.ltb (String.length s1) (String.length s0)
                            || Nat.ltb n lo)%bool
                        then loop fuel' (S n) caps1 s1
                        else None)
               else None in
             if Nat.ltb n lo then again tt
             else if greedy then
               match again tt with
               | Some x => Some x
               | None => k caps0 s0
               end
             else
               match k caps0 s0 with
               | Some x => Some x
               | None => again tt
               end
         end) (S (String.length s) + lo)%nat O caps s
  end.

(** A match attempt at the front of the input. *)
Definition exec (r : regex) (s : string) : option (list string * string) :=
  run r [] s (fun caps rest => Some (caps, rest)).

Record found : Type := Found {
  index : nat;            (* where the match starts *)
  matched : string;       (* match[0] *)
  groups : list string    (* match[1], match[2], ... *)
}.

(** The leftmost match, as [s.match(r)] / [r.exec(s)] without the [g] flag. *)
Fixpoint searchFrom (r : regex) (i : nat) (s : string) : option found :=
  match exec r s with
  | Some (caps, rest) => Some (Found i (Js.take (consumed s rest) s) caps)
  | None =>
      match s with
      | EmptyString => None
      | String _ s' => searchFrom r (S i) s'
      end
  end.

Definition search (r : regex) (s : string) : option found := searchFrom r O s.

(** [r.test(s)] for an unanchored pattern. *)
Definition test (r : regex) (s : string) : bool :=
  match search r s with Some _ => true | None => false end.

(** [r.test(s)] for a pattern that starts with [^]. *)
Definition testAtStart (r : regex) (s : string) : bool :=
  match exec r s with Some _ => true | None => false end.

(** The successive matches of a [g] pattern: after a match the scan resumes
    where it ended (one character further after an empty match). *)
Fixpoint matchAllFrom (r : regex) (s : string) (skip : nat) {struct s}
  : list string :=
  match skip, s with
  | S n, String _ s' => matchAllFrom r s' n
  | S _, EmptyString => []
  | O, _ =>
      match exec r s with
      | Some (_, rest) =>
          let len := consumed s rest in
          Js.take len s ::
            match s with
            | String _ s' => matchAllFrom r s' (len - 1)%nat
            | EmptyString => []
            end
      | None =>
          match s with
          | String _ s' => matchAllFrom r s' O
          | EmptyString => []
          end
      end
  end.

(** [s.match(r)] with the [g] flag; the empty list stands for [null]. *)
Definition matchAll (r : regex) (s : string) : list string :=
  matchAllFrom r s O.

(** [s.replace(r, rep)] with the [g] flag. *)
Fixpoint replaceAllFrom (r : regex) (rep s : string) (skip : nat) {struct s}
  : string :=
  match skip, s with
  | S n, String _ s' => replaceAllFrom r rep s' n
  | S _, EmptyString => EmptyString
  | O, _ =>
      match exec r s with
      | Some (_, rest) =>
          let len := consumed s rest in
          rep ++
            match s with
            | String c s' =>
                if Nat.eqb len 0 then String c (replaceAllFrom r rep s' O)
                else replaceAllFrom r rep s' (len - 1)%nat
            | EmptyString => EmptyString
            end
      | None =>
          match s with
          | String c s' => String c (replaceAllFrom r rep s' O)
          | EmptyString => EmptyString
          end
      end
  end.

Definition replaceAll (r : regex) (rep s : string) : string :=
  replaceAllFrom r rep s O.

(** [s.replace(r, rep)] without the [g] flag: the leftmost match only. *)
Definition replaceOne (r : regex) (rep s : string) : string :=
  match search r s with
  | Some f =>
      Js.take (index f) s ++ rep
        ++ Js.drop (index f + String.length (matched f)) s
  | None => s
  end.

(** Building blocks. *)
Definition chr (c : ascii) : regex := Cls (Ascii.eqb c).

(** A character under the [i] flag: both sides are upper-cased. *)
Definition ichr (c : ascii) : regex :=
  Cls (fun x => Ascii.eqb (Js.toUpperChar x) (Js.toUpperChar c)).

Fixpoint lit (s : string) : regex :=
  match s with
  | EmptyString => Eps
  | String c EmptyString => chr c
  | String c s' => Seq (chr c) (lit s')
  end.

Fixpoint ilit (s : string) : regex :=
  match s with
  | EmptyString => Eps
  | String c EmptyString => ichr c
  | String c s' => Seq (ichr c) (ilit s')
  end.

Definition plus (r : regex) : regex := Rep r 1 None true.
Definition star (r : regex) : regex := Rep r 0 None true.
Definition lazyStar (r : regex) : regex := Rep r 0 None false.
Definition opt (r : regex) : regex := Rep r 0 (Some 1%nat) true.
Definition atLeast (n : nat) (r : regex) : regex := Rep r n None true.

Fixpoint seqs (rs : list regex) : regex :=
  match rs with
  | [] => Eps
  | [r] => r
  | r :: rs' => Seq r (seqs rs')
  end.

Fixpoint alts (rs : list regex) : regex :=
  match rs with
  | [] => Cls (fun _ => false)
  | [r] => r
  | r :: rs' => Alt r (alts rs')
  end.

Definition oneOf (chars : string) (c : ascii) : bool :=
  Js.includes chars (String c EmptyString).

(** [.] : any character but a line terminator. *)
Definition dot : regex :=
  Cls (fun c => negb (Nat.eqb (Js.code c) 10 || Nat.eqb (Js.code c) 13)).

End Regex.

(* ================================================================== *)
(** * JavaScript numbers: division and [Math.round] on binary64 *)
(* ================================================================== *)

Module JsNum.

(** The Number for an integer [0 <= z < 2^53] (exact in that range). *)
Definition ofZ (z : Z) : float := PrimFloat.of_uint63 (Uint63.of_Z z).

(** [Math.round]: the integer nearest to [x], ties going up.  A finite
    binary64 is [m * 2^e] exactly, so the result is computed on integers.
    Infinities and NaN, which are their own [Math.round], do not arise from
    the quotients below and are sent to 0. *)
Definition Math_round (x : float) : Z :=
  match Prim2SF x with
  | S754_finite sg m e =>
      let v := if sg then Z.neg m else Z.pos m in
      if 0 <=? e then v * 2 ^ e
      else (2 * v + 2 ^ (- e)) / 2 ^ (1 - e)
  | _ => 0
  end.

(** [Math.round((a / b) * c)] as the engine evaluates it. *)
Definition roundScaled (a b c : Z) : Z :=
  Math_round (PrimFloat.mul (PrimFloat.div (ofZ a) (ofZ b)) (ofZ c)).

End JsNum.

(* ================================================================== *)
(** * Website resolver ([findCompanyWebsite]) *)
(* ================================================================== *)

Module Resolver.

(** The alias table, in source order ([Object.entries] order). *)
Definition knownDomains : list (string * string) :=
  [ ("monday.com", "https://monday.com");
    ("airtable", "https://airtable.com");
    ("notion", "https://notion.so");
    ("zapier", "https://zapier.com");
    ("bubble", "https://bubble.io");
    ("webflow", "https://webflow.com");
    ("retool", "https://retool.com");
    ("hubspot", "https://hubspot.com");
    ("pipedrive", "https://pipedrive.com");
    ("salesforce", "https://salesforce.com");
    ("zoho crm", "https://zoho.com/crm");
    ("zoho", "https://zoho.com/crm");
    ("freshworks", "https://freshworks.com");
    ("insightly", "https://insightly.com");
    ("activecampaign", "https://activecampaign.com");
    ("copper", "https://copper.com");
    ("sugarcrm", "https://sugarcrm.com");
    ("zendesk sell", "https://zendesk.com/sell");
    ("asana", "https://asana.com");
    ("clickup", "https://clickup.com");
    ("shopify", "https://shopify.com");
    ("woocommerce", "https://woocommerce.com") ].

(** What a GET request ends in: a final HTTP status, or no response at all
    (connection error, or nothing within the request's timeout). *)
Inductive response : Type :=
| Status (code : Z)
| NoResponse.

(** [axios.get(url, { validateStatus })]: the promise resolves with the
    status when [validateStatus] accepts it and rejects otherwise. *)
Definition axiosGet (validateStatus : Z -> bool) (r : response) : option Z :=
  match r with
  | Status c => if validateStatus c then Some c else None
  | NoResponse => None
  end.

(** The first alias whose key occurs in the lower-cased name. *)
Definition knownWebsite (companyName : string) : option string :=
  let lowerName := Js.toLowerCase companyName in
  match find (fun kd => Js.includes lowerName (fst kd)) knownDomains with
  | Some kd => Some (snd kd)
  | None => None
  end.

(** [companyName.toLowerCase().replace(/[^a-z0-9]/g, '').replace(/\s+/g, '')] *)
Definition domainName (companyName : string) : string :=
  Regex.replaceAll (Regex.plus (Regex.Cls Js.isSpace)) ""
    (Regex.replaceAll
       (Regex.Cls (fun c => negb (Js.isLowerAZ c || Js.isDigit c))) ""
       (Js.toLowerCase companyName)).

Definition possibleDomains (domainName : string) : list string :=
  [ "https://" ++ domainName ++ ".com";
    "https://www." ++ domainName ++ ".com";
    "https://" ++ domainName ++ ".io";
    "https://www." ++ domainName ++ ".io" ].

(** The probing loop: a request that rejects is skipped by the inner
    [catch]; one that resolves is accepted only with status 200. *)
Fixpoint probeDomains (get : string -> response) (domains : list string)
  : option string :=
  match domains with
  | [] => None
  | domain :: rest =>
      match axiosGet (fun status => status <? 400) (get domain) with
      | Some status =>
          if status =? 200 then Some domain else probeDomains get rest
      | None => probeDomains get rest
      end
  end.

(** [findCompanyWebsite]; [None] is [null].  The source wraps the whole body
    in [try]/[catch] returning [null], so the function returns on every
    input. *)
Definition findCompanyWebsite (get : string -> response)
           (companyName : string) : option string :=
  match knownWebsite companyName with
  | Some domain => Some domain
  | None => probeDomains get (possibleDomains (domainName companyName))
  end.

End Resolver.

(* ================================================================== *)
(** * Content analyzer *)
(* ================================================================== *)

Module Analyzer.

(** The platform tags [detectPlatformType] can return. *)
Inductive PlatformKind : Type :=
| NoCode | Crm | ProjectManagement | Ecommerce | Automation | Analytics
| Communication | Unknown.

Definition kindName (k : PlatformKind) : string :=
  match k with
  | NoCode => "no-code"
  | Crm => "crm"
  | ProjectManagement => "project-management"
  | Ecommerce => "ecommerce"
  | Automation => "automation"
  | Analytics => "analytics"
  | Communication => "communication"
  | Unknown => "unknown"
  end.

(** The keyword table, in source order: [Object.entries(platforms)] visits
    the categories in this order. *)
Definition platforms : list (PlatformKind * list string) :=
  [ (NoCode, ["no-code"; "low-code"; "visual"; "drag-and-drop"; "app builder";
              "website builder"]);
    (Crm, ["crm"; "customer relationship"; "sales pipeline"; "lead management";
           "sales automation"; "contact management"; "deal tracking";
           "sales funnel"; "customer database"; "sales tracking";
           "prospect management"; "sales process"; "customer data";
           "sales performance"; "revenue tracking"]);
    (ProjectManagement, ["project management"; "task management";
                         "team collaboration"; "workflow"]);
    (Ecommerce, ["ecommerce"; "e-commerce"; "online store"; "shopping cart";
                 "payment processing"]);
    (Automation, ["automation"; "workflow"; "zapier"; "integration";
                  "business process"]);
    (Analytics, ["analytics"; "data visualization"; "reporting";
                 "business intelligence"]);
    (Communication, ["communication"; "messaging"; "chat";
                     "video conferencing"; "collaboration"]) ].

Record PlatformType : Type := {
  type : PlatformKind;
  confidence : Z;
  keywords_found : Z
}.

(** [(allText.match(new RegExp(keyword, 'gi')) || []).length].  The keywords
    of the table hold letters, spaces and hyphens only, so each pattern is
    the keyword read literally, case-insensitively. *)
Definition keywordMatches (allText keyword : string) : Z :=
  Z.of_nat (List.length (Regex.matchAll (Regex.ilit keyword) allText)).

(** The [reduce] over one category's keywords. *)
Definition categoryScore (allText : string) (keywords : list string) : Z :=
  fold_left (fun sum keyword => sum + keywordMatches allText keyword)
            keywords 0.

(** One turn of the loop over the categories: [(detectedType, maxScore)] is
    replaced only by a strictly larger score. *)
Definition detectStep (allText : string) (st : PlatformKind * Z)
           (entry : PlatformKind * list string) : PlatformKind * Z :=
  let score := categoryScore allText (snd entry) in
  if snd st <? score then (fst entry, score) else st.

Definition allTextOf (content title description : string) : string :=
  content ++ " " ++ title ++ " " ++ description.

Definition detectPlatformType (content title description : string)
  : PlatformType :=
  let allText := allTextOf content title description in
  let st := fold_left (detectStep allText) platforms (Unknown, 0) in
  {| type := fst st; confidence := snd st; keywords_found := snd st |}.

Record BusinessIndicators : Type := {
  has_customers : bool;
  customer_count : option string;
  has_funding : bool;
  has_team_page : bool;
  has_careers : bool;
  has_press : bool;
  has_case_studies : bool;
  growth_indicators : list string
}.

Record TechStack : Type := {
  frontend : list string;
  backend : list string;
  analytics : list string;
  hosting : list string
}.

Record PricingInfo : Type := {
  has_pricing : bool;
  pricing_model : option string;
  price_indicators : list string
}.

Record ContentAnalysis : Type := {
  has_api : bool;
  has_developers : bool;
  has_enterprise : bool;
  ca_has_pricing : bool
}.

(** What the analyzer reads off a fetched page: the text of the elements it
    selects and the number of elements each selector finds. *)
Record Page : Type := {
  titleText : string;                 (* $('title').text() *)
  metaDescription : option string;    (* meta[name="description"] content *)
  bodyText : string;                  (* $('body').text() *)
  careersLinks : nat;                 (* a[href*="careers"] *)
  pressLinks : nat;                   (* a[href*="press"] *)
  newsLinks : nat;                    (* a[href*="news"] *)
  pricingLinks : nat;                 (* a[href*="pricing"], a[href*="plans"] *)
  reactScripts : nat;
  vueScripts : nat;
  angularScripts : nat;
  gaScripts : nat;
  mixpanelScripts : nat;
  segmentScripts : nat;
  serverHeader : option string
}.

(** [/(\d+[\d,]{0,})\s{0,}(customers|users|companies|businesses)/gi]; the
    source writes each [{0,}] as a star. *)
Definition customerPattern : Regex.regex :=
  Regex.seqs
    [ Regex.Grp (Regex.Seq (Regex.plus (Regex.Cls Js.isDigit))
                   (Regex.star
                      (Regex.Cls (fun c => Js.isDigit c || Regex.oneOf "," c))));
      Regex.star (Regex.Cls Js.isSpace);
      Regex.Grp (Regex.alts [ Regex.ilit "customers"; Regex.ilit "users";
                              Regex.ilit "companies"; Regex.ilit "businesses" ]) ].

(** [cond ? xs.concat([tag]) : xs], the conditional [push]. *)
Definition pushIf (cond : bool) (tag : string) (xs : list string)
  : list string :=
  if cond then (xs ++ [tag])%list else xs.

Definition extractBusinessIndicators (content : string) (p : Page)
  : BusinessIndicators :=
  let customerMatches := Regex.matchAll customerPattern content in
  let funding := Js.includes content "funding" || Js.includes content "raised"
                 || Js.includes content "series" in
  let careers := Nat.ltb 0 (careersLinks p)
                 || Js.includes content "we're hiring" in
  let press := Nat.ltb 0 (pressLinks p) || Nat.ltb 0 (newsLinks p) in
  let cases := Js.includes content "case study"
               || Js.includes content "success story" in
  {| has_customers := match customerMatches with [] => false | _ => true end;
     customer_count := hd_error customerMatches;
     has_funding := funding;
     has_team_page := false;
     has_careers := careers;
     has_press := press;
     has_case_studies := cases;
     growth_indicators :=
       pushIf cases "case_studies"
         (pushIf press "press"
            (pushIf careers "hiring" (pushIf funding "funding" []))) |}.

Definition detectTechStack (p : Page) : TechStack :=
  {| frontend :=
       pushIf (Nat.ltb 0 (angularScripts p)) "Angular"
         (pushIf (Nat.ltb 0 (vueScripts p)) "Vue.js"
            (pushIf (Nat.ltb 0 (reactScripts p)) "React" []));
     backend := [];
     analytics :=
       pushIf (Nat.ltb 0 (segmentScripts p)) "Segment"
         (pushIf (Nat.ltb 0 (mixpanelScripts p)) "Mixpanel"
            (pushIf (Nat.ltb 0 (gaScripts p)) "Google Analytics" []));
     hosting :=
       match Js.orNull (serverHeader p) with
       | Some h =>
           let server := Js.toLowerCase h in
           pushIf (Js.includes server "apache") "Apache"
             (pushIf (Js.includes server "nginx") "Nginx" [])
       | None => []
       end |}.

Definition extractPricingInfo (content : string) (p : Page) : PricingInfo :=
  let monthly := Js.includes content "per month"
                 || Js.includes content "monthly" in
  let perUser := Js.includes content "per user"
                 || Js.includes content "per seat" in
  let enterprise := Js.includes content "enterprise"
                    && Js.includes content "contact" in
  {| has_pricing := Nat.ltb 0 (pricingLinks p);
     pricing_model :=
       if perUser then Some "per_user"
       else if monthly then Some "subscription" else None;
     price_indicators :=
       pushIf enterprise "enterprise_pricing"
         (pushIf perUser "per_user_pricing"
            (pushIf monthly "monthly_subscription" [])) |}.

(** The object [analyzeCompanyWebsite] returns.  Every field may be absent:
    the empty object is [emptyAnalysis].  [website] is read by the scorer but
    never written by the analyzer. *)
Record Analysis : Type := {
  title : option string;
  description : option string;
  website : option string;
  platform_type : option PlatformType;
  business_indicators : option BusinessIndicators;
  tech_stack : option TechStack;
  pricing_info : option PricingInfo;
  content_analysis : option ContentAnalysis
}.

Definition emptyAnalysis : Analysis :=
  {| title := None; description := None; website := None;
     platform_type := None; business_indicators := None; tech_stack := None;
     pricing_info := None; content_analysis := None |}.

(** The analysis of a page that was fetched and parsed. *)
Definition analyzePage (p : Page) : Analysis :=
  let title := Js.trim (titleText p) in
  let description :=
    match Js.orNull (metaDescription p) with Some d => d | None => "" end in
  let bodyText := Js.toLowerCase (bodyText p) in
  {| title := Some title;
     description := Some description;
     website := None;
     platform_type :=
       Some (detectPlatformType bodyText (Js.toLowerCase title)
               (Js.toLowerCase description));
     business_indicators := Some (extractBusinessIndicators bodyText p);
     tech_stack := Some (detectTechStack p);
     pricing_info := Some (extractPricingInfo bodyText p);
     content_analysis :=
       Some {| has_api := Js.includes bodyText "api"
                          || Js.includes bodyText "integration";
               has_developers := Js.includes bodyText "developer"
                                 || Js.includes bodyText "documentation";
               has_enterprise := Js.includes bodyText "enterprise"
                                 || Js.includes bodyText "business";
               ca_has_pricing := Js.includes bodyText "pricing"
                                 || Js.includes bodyText "plans" |} |}.

(** [analyzeCompanyWebsite]: no URL, a failed request or a failed parse all
    give the empty object.  [fetch url] is [None] when the request or the
    parse throws. *)
Definition analyzeCompanyWebsite (fetch : string -> option Page)
           (websiteUrl : option string) : Analysis :=
  match Js.orNull websiteUrl with
  | None => emptyAnalysis
  | Some url =>
      match fetch url with
      | Some p => analyzePage p
      | None => emptyAnalysis
      end
  end.

End Analyzer.

(* ================================================================== *)
(** * Arrays: [Array.prototype.sort] with a comparator *)
(* ================================================================== *)

Module JsArray.

Section Sort.
Context {A : Type}.
Variable compareFn : A -> A -> Z.

(** [x] goes in front of the first element it does not have to follow.  The
    elements already placed came after [x] in the input, so on a tie [x]
    stays first: the sort is stable, as the language requires. *)
Fixpoint insert (x : A) (l : list A) : list A :=
  match l with
  | [] => [x]
  | y :: l' => if compareFn x y <=? 0 then x :: y :: l' else y :: insert x l'
  end.

Definition sort (l : list A) : list A := fold_right insert [] l.

End Sort.

(** [arr.slice(0, n)] *)
Definition slice0 {A : Type} (n : nat) (l : list A) : list A := firstn n l.

End JsArray.

(* ================================================================== *)
(** * Contacts: extraction *)
(* ================================================================== *)

Module Contacts.

Record Deliverability : Type := {
  risk : string;
  reason : string
}.

Record EmailValidation : Type := {
  isValid : bool;
  deliverability : Deliverability
}.

Record QualityBreakdown : Type := {
  title_priority : Z;
  email_verification : Z;
  source_quality : Z;
  linkedin_profile : Z;
  recency : Z
}.

(** [maxScore] is absent and [breakdown] is the empty object on the
    research-needed placeholders. *)
Record QualityScore : Type := {
  score : Z;
  maxScore : option Z;
  percentage : Z;
  breakdown : option QualityBreakdown
}.

(** A contact object.  [None] stands for [null] or a missing property; an
    absent title is the empty string (both are falsy).  [extractedAt] is the
    instant the ISO timestamp denotes, in milliseconds.  The last four fields
    are the ones scoring adds. *)
Record Contact : Type := {
  name : string;
  title : string;
  email : option string;
  linkedin : option string;
  source : string;
  priority : string;
  verified : bool;
  note : option string;
  extractedAt : option Z;
  qualityScore : option QualityScore;
  emailValidation : option EmailValidation;
  recommendedForOutreach : option bool;
  outreachRisk : option string
}.

(** ** Title ranking *)

Definition calculateContactPriority (title : string) : string :=
  if negb (Js.nonEmpty title) then "low"
  else
    let titleLower := Js.toLowerCase title in
    if Js.includes titleLower "ceo" || Js.includes titleLower "founder"
    then "critical"
    else if Js.includes titleLower "cto" || Js.includes titleLower "cpo"
    then "high"
    else if Js.includes titleLower "vp"
            || Js.includes titleLower "vice president"
    then "high"
    else if Js.includes titleLower "director"
            || Js.includes titleLower "head of"
    then "medium"
    else "medium".

Definition calculateContactPriorityScore (title : string) : Z :=
  if negb (Js.nonEmpty title) then 9
  else
    let titleLower := Js.toLowerCase title in
    if Js.includes titleLower "ceo" then 1
    else if Js.includes titleLower "founder" then 2
    else if Js.includes titleLower "cto" then 3
    else if Js.includes titleLower "cpo" then 4
    else if Js.includes titleLower "vp" then 5
    else if Js.includes titleLower "director" then 6
    else if Js.includes titleLower "head" then 7
    else if Js.includes titleLower "manager" then 8
    else 9.

(** ** Names and titles *)

Definition capitalize (word : string) : string :=
  match word with
  | EmptyString => EmptyString
  | String c rest => String (Js.toUpperChar c) (Js.toLowerCase rest)
  end.

(** [cleanName]: every character outside [\w], [\s], hyphen, apostrophe and
    dot becomes a space, runs of white space become one space. *)
Definition cleanName (name : string) : string :=
  let keep c := Js.isWord c || Js.isSpace c || Regex.oneOf "-'." c in
  let s1 := Regex.replaceAll (Regex.Cls (fun c => negb (keep c))) " " name in
  let s2 := Regex.replaceAll (Regex.plus (Regex.Cls Js.isSpace)) " " s1 in
  Js.join " " (map capitalize (Js.split " " (Js.trim s2))).

Definition titleMap : list (string * string) :=
  [ ("ceo", "Chief Executive Officer");
    ("cto", "Chief Technology Officer");
    ("cpo", "Chief Product Officer");
    ("founder", "Founder");
    ("vp", "Vice President") ].

(** The lower-case keys an object literal inherits from [Object.prototype]
    (the other inherited names hold a capital letter, which a lower-cased
    title cannot match).  [titleMap[key]] finds a function or an object
    under them. *)
Definition inheritedKeys : list string := ["constructor"; "__proto__"].

(** [titleMap[lowerTitle] || title].  The result is a string except under an
    inherited key, where it is the inherited function or object: [None]
    stands for that value, on which every later [title.toLowerCase()]
    throws. *)
Definition normalizeTitle (title : string) : option string :=
  let lowerTitle := Js.toLowerCase title in
  match find (fun kv => String.eqb (fst kv) lowerTitle) titleMap with
  | Some kv => Some (snd kv)
  | None =>
      if existsb (String.eqb lowerTitle) inheritedKeys then None
      else Some title
  end.

(** ** One element of a team page *)

(** What [extractContactFromElement] reads off the element: the text of the
    first descendant each selector finds (the empty string when it finds
    none), the element's own text, two link targets, and the clock. *)
Record Element : Type := {
  nameTexts : list string;       (* one per entry of nameSelectors, in order *)
  text : string;                 (* $el.text() *)
  titleTexts : list string;      (* one per entry of titleSelectors, in order *)
  mailtoHref : option string;    (* href of the first a[href^="mailto:"] *)
  linkedinHref : option string;  (* href of the first a[href*="linkedin.com"] *)
  clock : Z                      (* new Date() when the element is read *)
}.

Definition firstWhere (p : string -> bool) (l : list string) : string :=
  match find p l with Some s => s | None => "" end.

Definition lf : ascii := ascii_of_nat 10.

(** The name: the first selector text of 3 to 49 characters, else the first
    line of the element's text that passes the filter. *)
Definition nameFromSelectors (el : Element) : string :=
  firstWhere (fun foundName =>
                Js.nonEmpty foundName
                && Nat.ltb 2 (String.length foundName)
                && Nat.ltb (String.length foundName) 50)
             (map Js.trim (nameTexts el)).

Definition nameLineOk (line : string) : bool :=
  let lowerLine := Js.toLowerCase line in
  negb (Js.includes lowerLine "press kit")
  && negb (Js.includes lowerLine "careers")
  && negb (Js.includes lowerLine "about")
  && negb (Js.includes lowerLine "contact")
  && negb (Js.includes lowerLine "menu")
  && negb (Js.includes lowerLine "navigation")
  && Nat.ltb 2 (String.length line)
  && Nat.ltb (String.length line) 50
  && negb (Js.includes line "@")
  && Regex.testAtStart
       (Regex.Seq
          (Regex.plus
             (Regex.Cls (fun c => Js.isAlpha c || Js.isSpace c
                                  || Regex.oneOf "-'." c)))
          Regex.Eos)
       line.

Definition nameFromText (el : Element) : string :=
  let lines := filter Js.nonEmpty
                 (map Js.trim (Js.split lf (Js.trim (text el)))) in
  firstWhere (fun _ => true) (filter nameLineOk lines).

Definition resolveName (el : Element) : string :=
  let name := nameFromSelectors el in
  if Js.nonEmpty name then name else nameFromText el.

Definition titleFromSelectors (el : Element) : string :=
  firstWhere (fun foundTitle =>
                Js.nonEmpty foundTitle && Nat.ltb 2 (String.length foundTitle))
             (map Js.trim (titleTexts el)).

Definition titleKeywords : list string :=
  ["ceo"; "founder"; "cto"; "cpo"; "vp"; "director"; "head of"; "chief";
   "president"; "manager"].

(** [keyword.charAt(0).toUpperCase() + keyword.slice(1)] *)
Definition upperFirst (keyword : string) : string :=
  match keyword with
  | EmptyString => EmptyString
  | String c rest => String (Js.toUpperChar c) rest
  end.

Definition titleOfKeyword (keyword : string) : string :=
  if String.eqb keyword "ceo" then "CEO"
  else if String.eqb keyword "founder" then "Founder"
  else if String.eqb keyword "cto" then "CTO"
  else if String.eqb keyword "cpo" then "CPO"
  else if String.eqb keyword "vp" then "VP"
  else upperFirst keyword.

(** The title: a selector text longer than 2 characters, else (when a name
    was found) the first keyword the element's text contains. *)
Definition resolveTitle (el : Element) (name : string) : string :=
  let title := titleFromSelectors el in
  if negb (Js.nonEmpty title) && Js.nonEmpty name then
    let elementText := Js.toLowerCase (text el) in
    match find (fun keyword => Js.includes elementText keyword) titleKeywords
    with
    | Some keyword => titleOfKeyword keyword
    | None => title
    end
  else title.

(** [/[a-zA-Z0-9._%+-]+@[a-zA-Z0-9.-]+\.[a-zA-Z]{2,}/] *)
Definition emailPattern : Regex.regex :=
  Regex.seqs
    [ Regex.plus (Regex.Cls (fun c => Js.isAlpha c || Js.isDigit c
                                      || Regex.oneOf "._%+-" c));
      Regex.chr "@";
      Regex.plus (Regex.Cls (fun c => Js.isAlpha c || Js.isDigit c
                                      || Regex.oneOf ".-" c));
      Regex.chr ".";
      Regex.atLeast 2 (Regex.Cls Js.isAlpha) ].

(** [/https?:\/\/(www\.)?/] *)
Definition urlPrefixPattern : Regex.regex :=
  Regex.seqs
    [ Regex.lit "http"; Regex.opt (Regex.chr "s"); Regex.lit "://";
      Regex.opt (Regex.Grp (Regex.lit "www.")) ].

(** [url.replace(/https?:\/\/(www\.)?/, '').split('/')[0]] *)
Definition domainOf (url : string) : string :=
  hd "" (Js.split "/" (Regex.replaceOne urlPrefixPattern "" url)).

(** First source of an address: the [mailto:] link. *)
Definition mailtoEmail (el : Element) : option string :=
  Js.orNull (option_map (Js.replaceFirst "mailto:" "") (mailtoHref el)).

(** Second source: an address written in the element's text. *)
Definition patternEmail (el : Element) : option string :=
  option_map Regex.matched (Regex.search emailPattern (text el)).

(** Third source: [first.last@domain], guessed from the name and the site. *)
Definition guessedEmail (name : string) (websiteUrl : option string)
  : option string :=
  let cleanNameForEmail :=
    filter (fun part => Nat.ltb 1 (String.length part))
      (Js.split " "
         (Regex.replaceAll
            (Regex.Cls (fun c => negb (Js.isLowerAZ c || Js.isSpace c))) ""
            (Js.toLowerCase name))) in
  if Nat.leb 2 (List.length cleanNameForEmail) then
    match Js.orNull (option_map domainOf (Js.orNull websiteUrl)) with
    | Some domain =>
        Some (hd "" cleanNameForEmail ++ "." ++ last cleanNameForEmail ""
                ++ "@" ++ domain)
    | None => None
    end
  else None.

Definition resolveEmail (el : Element) (name : string)
           (websiteUrl : option string) : option string :=
  match mailtoEmail el with
  | Some e => Some e
  | None =>
      match patternEmail el with
      | Some e => Some e
      | None =>
          if Js.nonEmpty name then guessedEmail name websiteUrl else None
      end
  end.

(** [extractContactFromElement]; [None] is [null]. *)
Definition extractContactFromElement (el : Element) (source : string)
           (websiteUrl : option string) : option Contact :=
  let name := resolveName el in
  let title := resolveTitle el name in
  let email := resolveEmail el name websiteUrl in
  let linkedin := Js.orNull (linkedinHref el) in
  if Js.nonEmpty name && Nat.ltb 2 (String.length name) then
    Some {| name := cleanName name;
            title := if Js.nonEmpty title then title else "Team Member";
            email := email;
            linkedin := linkedin;
            source := source;
            priority := calculateContactPriority title;
            verified := Js.truthy email;
            note := None;
            extractedAt := Some (clock el);
            qualityScore := None;
            emailValidation := None;
            recommendedForOutreach := None;
            outreachRisk := None |}
  else None.

(** ** Unstructured text *)

Definition executivePattern (titles : list string) : Regex.regex :=
  Regex.seqs
    [ Regex.Grp (Regex.seqs [ Regex.plus (Regex.Cls Js.isWord);
                              Regex.plus (Regex.Cls Js.isSpace);
                              Regex.plus (Regex.Cls Js.isWord) ]);
      Regex.lazyStar Regex.dot;
      Regex.Grp (Regex.alts (map Regex.ilit titles)) ].

(** The five patterns [/(\w+\s+\w+).*?(ceo|chief executive officer)/i], ... *)
Definition executivePatterns : list Regex.regex :=
  [ executivePattern ["ceo"; "chief executive officer"];
    executivePattern ["founder"];
    executivePattern ["cto"; "chief technology officer"];
    executivePattern ["cpo"; "chief product officer"];
    executivePattern ["vp"; "vice president"] ].

(** The contact pushed for one match.  The second group of an executive
    pattern is one of the pattern's titles in some letter case, so
    [normalizeTitle] is never asked for an inherited key here (lemma
    [captured_title_normalizes]); its [None] case has no contact to give. *)
Definition textContact (now : Z) (f : Regex.found) : list Contact :=
  let name := Js.trim (nth 0 (Regex.groups f) "") in
  let title := Js.trim (nth 1 (Regex.groups f) "") in
  if Nat.ltb 3 (String.length name) && Nat.ltb (String.length name) 30 then
    match normalizeTitle title with
    | Some normalized =>
        [ {| name := cleanName name;
             title := normalized;
             email := None;
             linkedin := None;
             source := "text_extraction";
             priority := calculateContactPriority title;
             verified := false;
             note := None;
             extractedAt := Some now;
             qualityScore := None;
             emailValidation := None;
             recommendedForOutreach := None;
             outreachRisk := None |} ]
    | None => []
    end
  else [].

(** [extractContactsFromText]; [now] is the clock while the text is read. *)
Definition extractContactsFromText (now : Z) (text : string) : list Contact :=
  let lines := filter Js.nonEmpty (map Js.trim (Js.split lf text)) in
  flat_map
    (fun line =>
       flat_map
         (fun pattern =>
            match Regex.search pattern line with
            | Some f => textContact now f
            | None => []
            end)
         executivePatterns)
    lines.

(** ** Contact pages *)

(** A [mailto:] link of a contact page: its target, its own text, the text
    of its parent, and the clock when it is read. *)
Record MailLink : Type := {
  href : string;
  linkText : string;
  parentText : string;
  linkClock : Z
}.

(** [/^(info|hello|contact|support|sales)@/i] *)
Definition genericAddress : Regex.regex :=
  Regex.Seq
    (Regex.Grp (Regex.alts (map Regex.ilit
                              ["info"; "hello"; "contact"; "support"; "sales"])))
    (Regex.chr "@").

Definition contactOfLink (l : MailLink) : list Contact :=
  let email := Js.replaceFirst "mailto:" "" (href l) in
  let context := if Js.nonEmpty (linkText l) then linkText l
                 else parentText l in
  if negb (Regex.testAtStart genericAddress email) then
    [ {| name := "Contact from website";
         title := "Team Member";
         email := Some email;
         linkedin := None;
         source := "contact_page";
         priority := "medium";
         verified := true;
         note := Some ("Found on contact page: " ++ context);
         extractedAt := Some (linkClock l);
         qualityScore := None;
         emailValidation := None;
         recommendedForOutreach := None;
         outreachRisk := None |} ]
  else [].

(** The loop over the contact URLs: the first page that can be fetched is
    the only one read. *)
Fixpoint firstFetched {P : Type} (fetch : string -> option P)
         (urls : list string) : option P :=
  match urls with
  | [] => None
  | url :: rest =>
      match fetch url with
      | Some p => Some p
      | None => firstFetched fetch rest
      end
  end.

Definition findContactInfoFromPages (fetch : string -> option (list MailLink))
           (websiteUrl : string) : list Contact :=
  let contactUrls := [ websiteUrl ++ "/contact"; websiteUrl ++ "/contact-us";
                       websiteUrl ++ "/contacts" ] in
  match firstFetched fetch contactUrls with
  | Some links => flat_map contactOfLink links
  | None => []
  end.

End Contacts.

(* ================================================================== *)
(** * Contacts: ranking, quality score, verification *)
(* ================================================================== *)

Module Scoring.
Import Contacts.

(** [prioritizeContacts]: ascending title rank, then the first five. *)
Definition prioritizeContacts (contacts : list Contact) : list Contact :=
  JsArray.slice0 5
    (JsArray.sort
       (fun a b =>
          let aPriority := calculateContactPriorityScore (title a) in
          let bPriority := calculateContactPriorityScore (title b) in
          aPriority - bPriority)
       contacts).

Definition msPerDay : Z := 1000 * 60 * 60 * 24.

Definition titlePoints (titleScore : Z) : Z :=
  if titleScore <=? 2 then 40
  else if titleScore <=? 4 then 35
  else if titleScore <=? 5 then 25
  else if titleScore <=? 6 then 15
  else 5.

Definition emailPoints (c : Contact) : Z :=
  if Js.truthy (email c) && verified c then 25
  else if Js.truthy (email c) then 15
  else 0.

Definition sourcePoints (c : Contact) : Z :=
  if String.eqb (source c) "website_team_page" then 20
  else if String.eqb (source c) "contact_page" then 15
  else if String.eqb (source c) "text_extraction" then 10
  else 5.

Definition linkedinPoints (c : Contact) : Z :=
  if Js.truthy (linkedin c) then 10 else 0.

(** [daysSinceExtracted <= n] compares the quotient of the elapsed
    milliseconds by 86400000 with a small integer; the binary64 quotient is
    on the same side of [n] as the exact one, so the comparison is made on
    the milliseconds. *)
Definition recencyPoints (now : Z) (c : Contact) : Z :=
  match extractedAt c with
  | Some t =>
      let elapsed := now - t in
      if elapsed <=? 1 * msPerDay then 5
      else if elapsed <=? 7 * msPerDay then 3
      else if elapsed <=? 30 * msPerDay then 1
      else 0
  | None => 0
  end.

(** [calculateContactQualityScore]; [now] is [Date.now()]. *)
Definition calculateContactQualityScore (now : Z) (contact : Contact)
  : QualityScore :=
  let maxScore := 100 in
  let titleScore := calculateContactPriorityScore (title contact) in
  let score := titlePoints titleScore + emailPoints contact
               + sourcePoints contact + linkedinPoints contact
               + recencyPoints now contact in
  {| score := Z.min score maxScore;
     maxScore := Some maxScore;
     percentage := JsNum.roundScaled (Z.min score maxScore) maxScore 100;
     breakdown :=
       Some {| title_priority := Z.min 40 (titlePoints titleScore);
               email_verification := emailPoints contact;
               source_quality := sourcePoints contact;
               linkedin_profile := linkedinPoints contact;
               recency := match extractedAt contact with
                          | Some _ => 5
                          | None => 0
                          end |} |}.

(** [/^[^\s@]+@[^\s@]+\.[^\s@]+$/] *)
Definition emailRegex : Regex.regex :=
  let plain := Regex.Cls (fun c => negb (Js.isSpace c || Regex.oneOf "@" c)) in
  Regex.seqs [ Regex.plus plain; Regex.chr "@"; Regex.plus plain;
               Regex.chr "."; Regex.plus plain; Regex.Eos ].

Definition validateEmailFormat (email : option string) : bool :=
  match Js.orNull email with
  | None => false
  | Some e => Regex.testAtStart emailRegex e
  end.

Definition businessProviders : list string :=
  ["gmail.com"; "outlook.com"; "hotmail.com"; "yahoo.com"].

Definition estimateEmailDeliverability (email companyWebsite : option string)
  : Deliverability :=
  match Js.orNull email with
  | None => {| risk := "high"; reason := "Invalid email format" |}
  | Some e =>
      if negb (validateEmailFormat email) then
        {| risk := "high"; reason := "Invalid email format" |}
      else
        let emailDomain := nth 1 (Js.split "@" e) "" in
        if match Js.orNull companyWebsite with
           | Some site => String.eqb emailDomain (domainOf site)
           | None => false
           end
        then {| risk := "low";
                reason := "Email domain matches company website" |}
        else if existsb (String.eqb emailDomain) businessProviders
        then {| risk := "medium"; reason := "Personal email provider" |}
        else {| risk := "low"; reason := "Custom business domain" |}
  end.

(** The object the [map] callback of [scoreAndVerifyContacts] builds: the
    contact's own properties, then the four computed ones. *)
Definition scoreContact (now : Z) (companyWebsite : option string)
           (contact : Contact) : Contact :=
  let qualityScore := calculateContactQualityScore now contact in
  let emailValidation := validateEmailFormat (email contact) in
  let deliverability :=
    estimateEmailDeliverability (email contact) companyWebsite in
  {| name := name contact;
     title := title contact;
     email := email contact;
     linkedin := linkedin contact;
     source := source contact;
     priority := priority contact;
     verified := verified contact;
     note := note contact;
     extractedAt := extractedAt contact;
     qualityScore := Some qualityScore;
     emailValidation := Some {| isValid := emailValidation;
                                deliverability := deliverability |};
     recommendedForOutreach :=
       Some ((60 <=? percentage qualityScore) && emailValidation);
     outreachRisk := Some (risk deliverability) |}.

(** The score a sorted element is compared by. *)
Definition scoreOf (c : Contact) : Z :=
  match qualityScore c with
  | Some q => score q
  | None => 0
  end.

(** [scoreAndVerifyContacts]: score every contact, then sort by descending
    quality score. *)
Definition scoreAndVerifyContacts (now : Z) (contacts : list Contact)
           (companyWebsite : option string) : list Contact :=
  JsArray.sort (fun a b => scoreOf b - scoreOf a)
               (map (scoreContact now companyWebsite) contacts).

End Scoring.

(* ================================================================== *)
(** * Contacts: [findKeyContacts] *)
(* ================================================================== *)

Module Finder.
Import Contacts Scoring.

(** A fetched team page: the body text, the elements the member selectors
    find (in the order the two nested loops visit them; an element found by
    several selectors is visited once per selector), and the clock while the
    text fallback runs. *)
Record TeamPage : Type := {
  pageText : string;
  members : list Element;
  textClock : Z
}.

(** The requests contact discovery makes; [None] is a request (or parse)
    that throws, which the handler around each request swallows. *)
Record Site : Type := {
  fetchTeam : string -> option TeamPage;
  fetchContact : string -> option (list MailLink)
}.

Definition teamPaths : list string :=
  ["/team"; "/about"; "/leadership"; "/about-us"; "/our-team"; "/founders";
   "/management"; "/executive-team"; "/people"; "/company/team";
   "/company/leadership"].

(** [websiteUrl.replace(/\/$/, '')] *)
Definition baseUrlOf (websiteUrl : string) : string :=
  Regex.replaceOne (Regex.Seq (Regex.chr "/") Regex.Eos) "" websiteUrl.

Definition contactKey (c : Contact) : string :=
  Js.toLowerCase (name c) ++ "-" ++ Js.toLowerCase (title c).

(** One visited element: the contact is kept when it has a name and a title
    and its key was not seen on this page. *)
Definition addMember (websiteUrl : string)
           (st : list string * list Contact) (el : Element)
  : list string * list Contact :=
  match extractContactFromElement el "website_team_page" (Some websiteUrl) with
  | Some c =>
      if Js.nonEmpty (name c) && Js.nonEmpty (title c)
         && negb (existsb (String.eqb (contactKey c)) (fst st))
      then (contactKey c :: fst st, (snd st ++ [c])%list)
      else st
  | None => st
  end.

Definition contactsOfPage (websiteUrl : string) (page : TeamPage)
  : list Contact :=
  let structured := snd (fold_left (addMember websiteUrl) (members page)
                                   ([], [])) in
  match structured with
  | [] => extractContactsFromText (textClock page)
                                  (Js.toLowerCase (pageText page))
  | _ => structured
  end.

(** The loop over the team URLs: it stops at the first page that yields a
    contact; a page that cannot be fetched is skipped. *)
Fixpoint teamContacts (site : Site) (websiteUrl : string)
         (teamUrls : list string) : list Contact :=
  match teamUrls with
  | [] => []
  | teamUrl :: rest =>
      match fetchTeam site teamUrl with
      | Some page =>
          match contactsOfPage websiteUrl page with
          | [] => teamContacts site websiteUrl rest
          | found => found
          end
      | None => teamContacts site websiteUrl rest
      end
  end.

(** Everything collected before ranking: nothing without a website. *)
Definition collectContacts (site : Site) (websiteUrl : option string)
  : list Contact :=
  match Js.orNull websiteUrl with
  | Some url =>
      let baseUrl := baseUrlOf url in
      (teamContacts site url (map (fun p => (baseUrl ++ p)%string) teamPaths)
         ++ findContactInfoFromPages (fetchContact site) url)%list
  | None => []
  end.

Definition noEmailFound : EmailValidation :=
  {| isValid := false;
     deliverability := {| risk := "high"; reason := "No email found" |} |}.

Definition ceoPlaceholder : Contact :=
  {| name := "CEO/Founder";
     title := "Chief Executive Officer";
     email := None;
     linkedin := None;
     source := "research_needed";
     priority := "critical";
     verified := false;
     note := Some "Research CEO contact via LinkedIn or company directory";
     extractedAt := None;
     qualityScore := Some {| score := 40; maxScore := None; percentage := 40;
                             breakdown := None |};
     emailValidation := Some noEmailFound;
     recommendedForOutreach := Some false;
     outreachRisk := Some "high" |}.

Definition ctoPlaceholder : Contact :=
  {| name := "CTO/VP Engineering";
     title := "Chief Technology Officer";
     email := None;
     linkedin := None;
     source := "research_needed";
     priority := "high";
     verified := false;
     note := Some "Research technical decision maker contact";
     extractedAt := None;
     qualityScore := Some {| score := 35; maxScore := None; percentage := 35;
                             breakdown := None |};
     emailValidation := Some noEmailFound;
     recommendedForOutreach := Some false;
     outreachRisk := Some "high" |}.

(** The contact the outer [catch] returns. *)
Definition researchFailedContact : Contact :=
  {| name := "Contact Research Needed";
     title := "Decision Maker";
     email := None;
     linkedin := None;
     source := "research_failed";
     priority := "high";
     verified := false;
     note := Some "Manual research required due to technical error";
     extractedAt := None;
     qualityScore := None;
     emailValidation := None;
     recommendedForOutreach := None;
     outreachRisk := None |}.

Definition percentageOf (c : Contact) : Z :=
  match qualityScore c with
  | Some q => percentage q
  | None => 0
  end.

(** The part of [findKeyContacts] after collection: rank, score, and add the
    two placeholders when nothing is left. *)
Definition finishContacts (now : Z) (websiteUrl : option string)
           (contacts : list Contact) : list Contact :=
  let prioritizedContacts := prioritizeContacts contacts in
  let scoredContacts :=
    scoreAndVerifyContacts now prioritizedContacts websiteUrl in
  let highQualityContacts :=
    filter (fun c => 60 <=? percentageOf c) scoredContacts in
  if Nat.eqb (List.length highQualityContacts) 0
     && Nat.eqb (List.length scoredContacts) 0
  then (scoredContacts ++ [ceoPlaceholder; ctoPlaceholder])%list
  else scoredContacts.

(** [findKeyContacts].  Every request of the body sits in a handler of its
    own and the remaining steps are total on string arguments, so the body
    of the outer [try] runs to its end; [onContactSearchError] is what the
    outer [catch] returns should the body throw all the same. *)
Definition findKeyContacts (site : Site) (now : Z)
           (websiteUrl : option string) : list Contact :=
  finishContacts now websiteUrl (collectContacts site websiteUrl).

Definition onContactSearchError : list Contact := [researchFailedContact].

End Finder.

(* ================================================================== *)
(** * Fit scorer ([scoreCompanyFit]) *)
(* ================================================================== *)

Module FitScorer.

(** [breakdown.platform_type] is set only when the analysis has a
    [platform_type]; the other five keys are always set. *)
Record Breakdown : Type := {
  platform_recognition : Z;
  platform_type : option Z;
  business_indicators : Z;
  technical_fit : Z;
  pricing_model : Z;
  growth_indicators : Z
}.

Record ScoringResult : Type := {
  total_score : Z;
  breakdown : Breakdown;
  max_possible : Z;
  percentage : Z
}.

Definition majorPlatforms : list (string * Z) :=
  [ ("bubble", 20); ("webflow", 20); ("airtable", 18); ("zapier", 18);
    ("notion", 15); ("outsystems", 18); ("adalo", 15); ("glide", 12);
    ("retool", 18); ("monday.com", 15) ].

Definition platformScore : list (string * Z) :=
  [ ("no-code", 30); ("crm", 25); ("project-management", 20);
    ("ecommerce", 20); ("automation", 25); ("analytics", 15) ].

Definition orEmpty (o : option string) : string :=
  match Js.orNull o with Some s => s | None => "" end.

(** The loop over [majorPlatforms]: the first entry found in the title or
    the website gives the boost. *)
Definition recognitionBoost (a : Analyzer.Analysis) : Z :=
  let companyName := Js.toLowerCase (orEmpty (Analyzer.title a)) in
  let websiteUrl := Js.toLowerCase (orEmpty (Analyzer.website a)) in
  match find (fun pb => Js.includes companyName (fst pb)
                        || Js.includes websiteUrl (fst pb)) majorPlatforms with
  | Some pb => snd pb
  | None => 0
  end.

(** [platformScore[type] || 5] *)
Definition typeScore (p : Analyzer.PlatformType) : Z :=
  match find (fun kv => String.eqb (fst kv)
                          (Analyzer.kindName (Analyzer.type p))) platformScore
  with
  | Some kv => if snd kv =? 0 then 5 else snd kv
  | None => 5
  end.

(** [obj?.flag] as a condition. *)
Definition flag {T : Type} (o : option T) (f : T -> bool) : bool :=
  match o with Some x => f x | None => false end.

Definition pts (cond : bool) (n : Z) : Z := if cond then n else 0.

Definition businessScore (a : Analyzer.Analysis) : Z :=
  let bi := Analyzer.business_indicators a in
  pts (flag bi Analyzer.has_customers) 10
  + pts (flag bi Analyzer.has_funding) 15
  + pts (flag bi Analyzer.has_careers) 10
  + pts (flag bi Analyzer.has_case_studies) 5.

Definition techScore (a : Analyzer.Analysis) : Z :=
  let ca := Analyzer.content_analysis a in
  pts (flag ca Analyzer.has_api) 15
  + pts (flag ca Analyzer.has_developers) 10
  + pts (flag ca Analyzer.has_enterprise) 5.

Definition pricingScore (a : Analyzer.Analysis) : Z :=
  let pi := Analyzer.pricing_info a in
  pts (flag pi Analyzer.has_pricing) 10
  + pts (flag pi (fun p => match Analyzer.pricing_model p with
                           | Some m => String.eqb m "subscription"
                           | None => false
                           end)) 5
  + pts (flag pi (fun p => existsb (String.eqb "enterprise_pricing")
                                   (Analyzer.price_indicators p))) 10.

(** [Math.min(growth_indicators?.length * 3 || 0, 10)] *)
Definition growthScore (a : Analyzer.Analysis) : Z :=
  Z.min
    (match Analyzer.business_indicators a with
     | Some bi => Z.of_nat (List.length (Analyzer.growth_indicators bi)) * 3
     | None => 0
     end)
    10.

Definition scoreCompanyFit (websiteAnalysis : Analyzer.Analysis)
  : ScoringResult :=
  let score0 := 0 in
  let score1 := score0 + recognitionBoost websiteAnalysis in
  let typePart := option_map typeScore
                             (Analyzer.platform_type websiteAnalysis) in
  let score2 := match typePart with Some t => score1 + t | None => score1 end in
  let score3 := score2 + Z.min (businessScore websiteAnalysis) 25 in
  let score4 := score3 + Z.min (techScore websiteAnalysis) 20 in
  let score5 := score4 + Z.min (pricingScore websiteAnalysis) 15 in
  let score := score5 + growthScore websiteAnalysis in
  {| total_score := score;
     breakdown :=
       {| platform_recognition := recognitionBoost websiteAnalysis;
          platform_type := typePart;
          business_indicators := Z.min (businessScore websiteAnalysis) 25;
          technical_fit := Z.min (techScore websiteAnalysis) 20;
          pricing_model := Z.min (pricingScore websiteAnalysis) 15;
          growth_indicators := growthScore websiteAnalysis |};
     max_possible := 120;
     percentage := JsNum.roundScaled score 120 100 |}.

End FitScorer.

(* ================================================================== *)
(** * Orchestrator ([researchCompany], [batchResearch]) *)
(* ================================================================== *)

Module Orchestrator.

Record Insights : Type := {
  strengths : list string;
  concerns : list string;
  recommendations : list string;
  email_hooks : list string
}.

Definition generateCompanyInsights (websiteAnalysis : Analyzer.Analysis)
           (scoring : FitScorer.ScoringResult) : Insights :=
  let b := FitScorer.breakdown scoring in
  let bi := Analyzer.business_indicators websiteAnalysis in
  let customers := FitScorer.flag bi Analyzer.has_customers in
  let api := FitScorer.flag (Analyzer.content_analysis websiteAnalysis)
                            Analyzer.has_api in
  let platformType := option_map Analyzer.type
                        (Analyzer.platform_type websiteAnalysis) in
  {| strengths :=
       Analyzer.pushIf api
         "API-first platform - technical integration feasible"
         (Analyzer.pushIf customers "Has established customer base"
            (Analyzer.pushIf
               (match FitScorer.platform_type b with
                | Some t => 20 <=? t
                | None => false
                end)
               "Strong platform type match for strategic guidance APIs" []));
     concerns :=
       Analyzer.pushIf (negb (FitScorer.flag bi Analyzer.has_funding))
         "No clear funding/growth indicators"
         (Analyzer.pushIf (FitScorer.technical_fit b <? 10)
            "Limited technical integration capabilities" []);
     recommendations :=
       if 80 <=? FitScorer.total_score scoring then
         [ "HIGH PRIORITY: Immediate outreach recommended";
           "Focus on strategic guidance and user success metrics" ]
       else if 60 <=? FitScorer.total_score scoring then
         [ "MEDIUM PRIORITY: Research more before outreach";
           "Investigate recent growth and funding status" ]
       else [ "LOW PRIORITY: Consider for nurture campaign" ];
     email_hooks :=
       (Analyzer.pushIf customers "user engagement and retention challenges" []
        ++ match platformType with
           | Some Analyzer.NoCode =>
               [ "user project completion rates";
                 "strategic guidance for non-technical users" ]
           | Some Analyzer.Crm =>
               [ "deal closure rates and sales strategy";
                 "user adoption and feature utilization" ]
           | _ => []
           end)%list |}.

(** Everything outside the process that one research run consults: the
    domain probes, the home page, the team and contact pages, the clock. *)
Record World : Type := {
  get : string -> Resolver.response;
  fetchPage : string -> option Analyzer.Page;
  site : Finder.Site;
  now : Z
}.

(** The [company] object: the name, the website, and the properties of the
    analysis spread into it ([gatherCompanyIntelligence] adds constants). *)
Record Company : Type := {
  name : string;
  website : option string;
  analysis : Analyzer.Analysis
}.

Record ResearchResult : Type := {
  company : Company;
  contacts : list Contacts.Contact;
  scoring : FitScorer.ScoringResult;
  insights : Insights;
  research_date : Z;
  recommendation : string
}.

(** [researchCompany(companyName, website)]; every callee handles its own
    failures, so a result is produced for every world. *)
Definition researchCompany (w : World) (companyName : string)
           (website : option string) : ResearchResult :=
  let companyWebsite :=
    match Js.orNull website with
    | Some url => Some url
    | None => Resolver.findCompanyWebsite (get w) companyName
    end in
  let websiteAnalysis :=
    Analyzer.analyzeCompanyWebsite (fetchPage w) companyWebsite in
  let contacts := Finder.findKeyContacts (site w) (now w) companyWebsite in
  let scoring := FitScorer.scoreCompanyFit websiteAnalysis in
  let insights := generateCompanyInsights websiteAnalysis scoring in
  {| company := {| name := companyName; website := companyWebsite;
                   analysis := websiteAnalysis |};
     contacts := contacts;
     scoring := scoring;
     insights := insights;
     research_date := now w;
     recommendation :=
       if 80 <=? FitScorer.total_score scoring then "HOT_PROSPECT"
       else if 60 <=? FitScorer.total_score scoring then "WARM_PROSPECT"
       else if 40 <=? FitScorer.total_score scoring then "COLD_PROSPECT"
       else "NOT_QUALIFIED" |}.

(** ** Batch research *)

(** An element of the input array. *)
Record Input : Type := {
  input_name : string;
  input_website : option string
}.

(** How the awaited [researchCompany] call ends for one company. *)
Inductive Attempt : Type :=
| Resolved (result : ResearchResult)
| Rejected (message : string).

(** An element of the output array: the result with its input, or the
    error record [{ input, error, recommendation: 'RESEARCH_FAILED' }]. *)
Inductive Entry : Type :=
| Researched (result : ResearchResult) (input : Input)
| Failed (input : Input) (error : string).

(** The callback of [batch.map]: the [try]/[catch] around one research. *)
Definition researchOne (research : Input -> Attempt) (company : Input)
  : Entry :=
  match research company with
  | Resolved result => Researched result company
  | Rejected message => Failed company message
  end.

(** [e.scoring?.total_score || 0] *)
Definition entryScore (e : Entry) : Z :=
  match e with
  | Researched result _ => FitScorer.total_score (scoring result)
  | Failed _ _ => 0
  end.


(** [arr.slice(start, end)] with the language's treatment of negative and
    oversized bounds. *)
Definition slice {A : Type} (start stop : Z) (l : list A) : list A :=
  let len := Z.of_nat (List.length l) in
  let rel k := if k <? 0 then Z.max (len + k) 0 else Z.min k len in
  let from := rel start in
  let count := Z.max (rel stop - from) 0 in
  firstn (Z.to_nat count) (skipn (Z.to_nat from) l).

(** The [for] loop over the chunks.  Each turn uses one unit of [fuel];
    [None] means the loop was still running when the fuel ran out. *)
Fixpoint chunkLoop (fuel : nat) (research : Input -> Attempt)
         (companies : list Input) (maxConcurrent : Z) (i : Z)
         (results : list Entry) : option (list Entry) :=
  if i <? Z.of_nat (List.length companies) then
    match fuel with
    | O => None
    | S fuel' =>
        let batch := slice i (i + maxConcurrent) companies in
        let batchResults := map (researchOne research) batch in
        chunkLoop fuel' research companies maxConcurrent (i + maxConcurrent)
                  (results ++ batchResults)%list
    end
  else Some results.

(** [batchResearch(companies, { maxConcurrent })], run for [fuel] chunks at
    most (the pause between chunks has no effect on the value). *)
Definition batchResearch (fuel : nat) (research : Input -> Attempt)
           (companies : list Input) (maxConcurrent : Z)
  : option (list Entry) :=
  option_map (JsArray.sort (fun a b =>
                              let scoreA := entryScore a in
                              let scoreB := entryScore b in
                              scoreB - scoreA))
             (chunkLoop fuel research companies maxConcurrent 0 []).


End Orchestrator.

(* ================================================================== *)
(** * Properties as the specification words them, and sample inputs *)
(* ================================================================== *)

Module Spec.
Import Contacts.

(** Adjacent elements are in non-decreasing order of [key]. *)
Fixpoint ascendingBy {A : Type} (key : A -> Z) (l : list A) : bool :=
  match l with
  | [] => true
  | x :: rest =>
      match rest with
      | [] => true
      | y :: _ => (key x <=? key y) && ascendingBy key rest
      end
  end.


(** The title-priority rank of a contact. *)
Definition rank (c : Contact) : Z := calculateContactPriorityScore (title c).

(** A probe the specification's resolver accepts: any status below 400. *)
Definition respondsBelow400 (get : string -> Resolver.response)
           (domain : string) : bool :=
  match get domain with
  | Resolver.Status c => c <? 400
  | Resolver.NoResponse => false
  end.

(** A probe the source accepts: status 200. *)
Definition responds200 (get : string -> Resolver.response)
           (domain : string) : bool :=
  match get domain with
  | Resolver.Status c => c =? 200
  | Resolver.NoResponse => false
  end.



(** The properties of a contact that scoring leaves alone. *)
Definition sameBase (a b : Contact) : Prop :=
  name a = name b /\ title a = title b /\ email a = email b
  /\ linkedin a = linkedin b /\ source a = source b
  /\ priority a = priority b /\ verified a = verified b
  /\ note a = note b /\ extractedAt a = extractedAt b.

(** A research-needed placeholder: its name, priority and fabricated score,
    no address, not recommended. *)
Definition isPlaceholder (c : Contact) (who prio : string) (points : Z)
  : Prop :=
  name c = who /\ priority c = prio
  /\ option_map score (qualityScore c) = Some points
  /\ email c = None /\ recommendedForOutreach c = Some false.

Definition twoPlaceholders (l : list Contact) : Prop :=
  exists ceo cto,
    l = [ceo; cto]
    /\ isPlaceholder ceo "CEO/Founder" "critical" 40
    /\ isPlaceholder cto "CTO/VP Engineering" "high" 35.

(** The integer nearest to [100 * total / 120]: its distance from the exact
    quotient is at most one half. *)
Definition nearestPercent (total p : Z) : Prop :=
  2 * Z.abs (120 * p - 100 * total) <= 120.


End Spec.

Module Samples.
Import Contacts.

Definition newline : string := String lf EmptyString.

(** A team-page card: an [h3] with a one-word name, a [.role] element
    reading CEO, no link and no address. *)
Definition ceoCard : Element :=
  {| nameTexts := [""; ""; "Madonna"];
     text := "Madonna" ++ newline ++ "CEO";
     titleTexts := [""; ""; "CEO"];
     mailtoHref := None;
     linkedinHref := None;
     clock := 1000 |}.

(** A card with a VP title, a [mailto:] link and a LinkedIn link. *)
Definition vpCard : Element :=
  {| nameTexts := [""; ""; "Jane Doe"];
     text := "Jane Doe" ++ newline ++ "VP Sales";
     titleTexts := [""; ""; "VP Sales"];
     mailtoHref := Some "mailto:jane@acme.com";
     linkedinHref := Some "https://linkedin.com/in/janedoe";
     clock := 1000 |}.

(** A card with a name and a title and no address anywhere. *)
Definition ctoCard : Element :=
  {| nameTexts := [""; ""; "Jane Doe"];
     text := "Jane Doe" ++ newline ++ "CTO";
     titleTexts := [""; ""; "CTO"];
     mailtoHref := None;
     linkedinHref := None;
     clock := 1000 |}.

(** A site whose [/team] page shows the CEO card and the VP card. *)
Definition acmeSite : Finder.Site :=
  {| Finder.fetchTeam := fun url =>
       if String.eqb url "https://acme.com/team"
       then Some {| Finder.pageText := "Madonna CEO Jane Doe VP Sales";
                    Finder.members := [ceoCard; vpCard];
                    Finder.textClock := 1000 |}
       else None;
     Finder.fetchContact := fun _ => None |}.

(** A site that answers no request. *)
Definition silentSite : Finder.Site :=
  {| Finder.fetchTeam := fun _ => None;
     Finder.fetchContact := fun _ => None |}.

(** A world in which nothing answers. *)
Definition silentWorld : Orchestrator.World :=
  {| Orchestrator.get := fun _ => Resolver.NoResponse;
     Orchestrator.fetchPage := fun _ => None;
     Orchestrator.site := silentSite;
     Orchestrator.now := 2000 |}.

(** Probes for the name Acme: the bare [.com] domain answers 204, the
    [www] one answers 200, the others do not answer. *)
Definition acmeProbe (url : string) : Resolver.response :=
  if String.eqb url "https://acme.com" then Resolver.Status 204
  else if String.eqb url "https://www.acme.com" then Resolver.Status 200
  else Resolver.NoResponse.


(** A page analysis scoring 5 + 25 + 20 + 10 + 9 = 69. *)
Definition analysis69 : Analyzer.Analysis :=
  {| Analyzer.title := Some "Chatter";
     Analyzer.description := Some "";
     Analyzer.website := None;
     Analyzer.platform_type :=
       Some {| Analyzer.type := Analyzer.Communication;
               Analyzer.confidence := 2; Analyzer.keywords_found := 2 |};
     Analyzer.business_indicators :=
       Some {| Analyzer.has_customers := false;
               Analyzer.customer_count := None;
               Analyzer.has_funding := true;
               Analyzer.has_team_page := false;
               Analyzer.has_careers := true;
               Analyzer.has_press := true;
               Analyzer.has_case_studies := false;
               Analyzer.growth_indicators := ["funding"; "hiring"; "press"] |};
     Analyzer.tech_stack := None;
     Analyzer.pricing_info :=
       Some {| Analyzer.has_pricing := true;
               Analyzer.pricing_model := None;
               Analyzer.price_indicators := [] |};
     Analyzer.content_analysis :=
       Some {| Analyzer.has_api := true; Analyzer.has_developers := false;
               Analyzer.has_enterprise := true;
               Analyzer.ca_has_pricing := true |} |}.

End Samples.

(* ================================================================== *)
(** * Email tool (tools/email.js): the helpers that do not call the model *)
(* ================================================================== *)

Module EmailTool.

Record ParsedEmail : Type := {
  subject : string;
  body : string
}.

Definition fallbackSubject : string :=
  "AI-powered strategic guidance for your business".

Definition newline : string := String Contacts.lf EmptyString.

(** The state of the loop of [parseEmailResponse]. *)
Record ParseState : Type := {
  st_subject : string;
  st_body : string;
  st_inBody : bool
}.

(** One turn of the loop over the lines. *)
Definition parseLine (st : ParseState) (line : string) : ParseState :=
  if Js.startsWith "Subject:" line then
    {| st_subject := Js.trim (Js.replaceFirst "Subject:" "" line);
       st_body := st_body st;
       st_inBody := st_inBody st |}
  else if negb (Js.nonEmpty (Js.trim line)) then
    {| st_subject := st_subject st; st_body := st_body st; st_inBody := true |}
  else if st_inBody st then
    {| st_subject := st_subject st;
       st_body := st_body st ++ line ++ newline;
       st_inBody := st_inBody st |}
  else st.

Definition parseLines (lines : list string) : ParseState :=
  fold_left parseLine lines
            {| st_subject := ""; st_body := ""; st_inBody := false |}.

(** [parseEmailResponse] *)
Definition parseEmailResponse (emailContent : string) : ParsedEmail :=
  let st := parseLines (Js.split Contacts.lf emailContent) in
  let subject := if Js.nonEmpty (st_subject st) then st_subject st
                 else fallbackSubject in
  let body := if Js.nonEmpty (Js.trim (st_body st)) then st_body st
              else emailContent in
  {| subject := subject; body := Js.trim body |}.

(** The insights [calculatePersonalizationScore] reads. *)
Record EmailInsights : Type := {
  platform_type : string;
  company_size : string;
  growth_stage : string;
  pain_points : list string;
  opportunities : list string;
  technical_fit : string;
  contact_quality : string;
  value_proposition : string
}.

Definition known (s : string) : bool := negb (String.eqb s "unknown").

Definition someOf (l : list string) : bool :=
  Nat.ltb 0 (List.length l).

Definition calculatePersonalizationScore (insights : EmailInsights) : Z :=
  let score :=
    FitScorer.pts (known (platform_type insights)) 10
    + FitScorer.pts (known (company_size insights)) 10
    + FitScorer.pts (known (growth_stage insights)) 10
    + FitScorer.pts (someOf (pain_points insights)) 15
    + FitScorer.pts (someOf (opportunities insights)) 10
    + FitScorer.pts (known (technical_fit insights)) 20
    + FitScorer.pts (known (contact_quality insights)) 15
    + FitScorer.pts (Js.nonEmpty (value_proposition insights)) 10 in
  Z.min score 100.

(** A number that may be missing; [0], [null] and [undefined] are falsy. *)
Definition given (n : option Z) : bool :=
  match n with
  | Some v => negb (v =? 0)
  | None => false
  end.

Definition valueOf (n : option Z) : Z :=
  match n with Some v => v | None => 0 end.

Definition determineCompanySize (employees revenue : option Z) : string :=
  if given employees then
    if 500 <=? valueOf employees then "enterprise"
    else if 100 <=? valueOf employees then "mid-market"
    else if 25 <=? valueOf employees then "small-business"
    else "startup"
  else if given revenue then
    if 100000000 <=? valueOf revenue then "enterprise"
    else if 10000000 <=? valueOf revenue then "mid-market"
    else if 1000000 <=? valueOf revenue then "small-business"
    else "startup"
  else "unknown".

(** [fundingStage] is [company.funding?.stage]. *)
Definition determineGrowthStage (fundingStage : option string)
           (employees : option Z) : string :=
  match Js.orNull fundingStage with
  | Some stage => Js.toLowerCase stage
  | None =>
      if given employees then
        if 500 <=? valueOf employees then "mature"
        else if 100 <=? valueOf employees then "growth"
        else if 25 <=? valueOf employees then "early-growth"
        else "startup"
      else "unknown"
  end.

Definition determineContactQuality (title : string) : string :=
  let titleLower := Js.toLowerCase title in
  if Js.includes titleLower "ceo" || Js.includes titleLower "founder"
  then "executive"
  else if Js.includes titleLower "cto" || Js.includes titleLower "cpo"
          || Js.includes titleLower "vp"
  then "senior"
  else if Js.includes titleLower "director" || Js.includes titleLower "head"
  then "management"
  else if Js.includes titleLower "manager" then "mid-level"
  else "unknown".

(** [s.replace(/[^a-z0-9]/gi, '_').toLowerCase()] *)
Definition fileNamePart (s : string) : string :=
  Js.toLowerCase
    (Regex.replaceAll
       (Regex.Cls (fun c => negb (Js.isAlpha c || Js.isDigit c))) "_" s).

(** [getDraftFileName]; [isoTimestamp] is the [toISOString()] of the
    draft's date. *)
Definition getDraftFileName (company : string) (recipient_name : option string)
           (isoTimestamp : string) : string :=
  let company' := fileNamePart company in
  let recipient :=
    fileNamePart (match Js.orNull recipient_name with
                  | Some r => r
                  | None => "recipient"
                  end) in
  let timestamp :=
    Regex.replaceAll (Regex.Cls (Regex.oneOf ":.")) "-" isoTimestamp in
  company' ++ "__" ++ recipient ++ "__" ++ timestamp ++ ".json".

End EmailTool.

(* ================================================================== *)
(** * The server's own qualification score (index.js, config/targets.js) *)
(* ================================================================== *)

Module Qualifier.

(** [TARGET_PLATFORMS]: the keywords of each platform, in source order. *)
Definition TARGET_PLATFORMS : list (string * list string) :=
  [ ("no-code", ["no-code"; "low-code"; "visual"; "drag-and-drop"; "builder";
                 "app builder"]);
    ("crm", ["crm"; "customer relationship"; "sales management";
             "lead management"]);
    ("project-management", ["project management"; "task management";
                            "workflow"; "collaboration"]);
    ("e-commerce", ["e-commerce"; "online store"; "marketplace";
                    "shopping cart"]);
    ("automation", ["automation"; "workflow automation"; "integration";
                    "zapier"]) ].

(** [QUALIFICATION_SCORING.platform_type.weights] *)
Definition platformWeights : list (string * Z) :=
  [ ("no-code", 30); ("crm", 25); ("project-management", 20);
    ("e-commerce", 20); ("automation", 15); ("other", 5) ].

(** [QUALIFICATION_TIERS]: name and [min_score], in source order. *)
Definition QUALIFICATION_TIERS : list (string * Z) :=
  [ ("hot", 80); ("warm", 60); ("cold", 40); ("not_qualified", 0) ].

Record CompanyData : Type := {
  platformType : string;
  revenue : option Z;
  employees : option Z;
  funding : bool;                   (* whether [funding] is set *)
  description : option string;
  website : option string;
  techStack : list string;
  growthIndicators : list string
}.

Definition determinePlatformType (companyData : CompanyData) : string :=
  let text := Js.toLowerCase (FitScorer.orEmpty (description companyData)
                              ++ " " ++ FitScorer.orEmpty (website companyData)) in
  match find (fun pc => existsb (fun keyword => Js.includes text keyword)
                                (snd pc)) TARGET_PLATFORMS with
  | Some pc => fst pc
  | None => "other"
  end.

(** [companyData.platformType = determinePlatformType(companyData)] *)
Definition withPlatformType (companyData : CompanyData) : CompanyData :=
  {| platformType := determinePlatformType companyData;
     revenue := revenue companyData;
     employees := employees companyData;
     funding := funding companyData;
     description := description companyData;
     website := website companyData;
     techStack := techStack companyData;
     growthIndicators := growthIndicators companyData |}.

Record ScoreBreakdown : Type := {
  b_platformType : Z;
  b_companySize : Z;
  b_growthIndicators : Z;
  b_technicalFit : Z
}.

Record ScoreData : Type := {
  score : Z;
  tier : string;
  breakdown : ScoreBreakdown
}.

(** [weights[platformType] || 5], for a platform type that
    [determinePlatformType] can return. *)
Definition platformScore (platformType : string) : Z :=
  match find (fun kv => String.eqb (fst kv) platformType) platformWeights with
  | Some kv => if snd kv =? 0 then 5 else snd kv
  | None => 5
  end.

Definition revenueScore (revenue : option Z) : Z :=
  if EmailTool.given revenue then
    let r := EmailTool.valueOf revenue in
    if (10000000 <=? r) && (r <=? 50000000) then 25
    else if (5000000 <=? r) && (r <? 10000000) then 20
    else if (1000000 <=? r) && (r <? 5000000) then 15
    else if (500000 <=? r) && (r <? 1000000) then 10
    else 0
  else 0.

Definition sizeScore (revenue employees : option Z) : Z :=
  let sizeScore := revenueScore revenue in
  if EmailTool.given employees then
    let e := EmailTool.valueOf employees in
    if (50 <=? e) && (e <=? 500) then Z.max sizeScore 25
    else if (25 <=? e) && (e <? 50) then Z.max sizeScore 20
    else if (10 <=? e) && (e <? 25) then Z.max sizeScore 15
    else if 500 <? e then Z.max sizeScore 15
    else sizeScore
  else sizeScore.

Definition has (l : list string) (x : string) : bool :=
  existsb (String.eqb x) l.

Definition growthScore (companyData : CompanyData) : Z :=
  FitScorer.pts (funding companyData) 20
  + FitScorer.pts (has (growthIndicators companyData) "hiring") 15
  + FitScorer.pts (has (growthIndicators companyData) "product_launches") 12.

Definition techScore (companyData : CompanyData) : Z :=
  FitScorer.pts (has (techStack companyData) "api") 15
  + FitScorer.pts (has (techStack companyData) "integration") 12
  + FitScorer.pts (negb (String.eqb (platformType companyData) "other")) 10.

(** The loop over [QUALIFICATION_TIERS]: the first tier whose [min_score]
    the total reaches. *)
Definition tierOf (totalScore : Z) : string :=
  match find (fun tc => snd tc <=? totalScore) QUALIFICATION_TIERS with
  | Some tc => fst tc
  | None => "not_qualified"
  end.

Definition calculateQualificationScore (companyData : CompanyData)
  : ScoreData :=
  let totalScore :=
    platformScore (platformType companyData)
    + sizeScore (revenue companyData) (employees companyData)
    + growthScore companyData
    + techScore companyData in
  {| score := totalScore;
     tier := tierOf totalScore;
     breakdown :=
       {| b_platformType := platformScore (platformType companyData);
          b_companySize :=
            sizeScore (revenue companyData) (employees companyData);
          b_growthIndicators := growthScore companyData;
          b_technicalFit := techScore companyData |} |}.

End Qualifier.

(* ================================================================== *)
(** * The dashboard server's view of a research result (api-server.js) *)
(* ================================================================== *)

Module ApiServer.

(** [researchResult.contacts.length > 0 ? 'Generate email' : 'Find contacts'] *)
Definition nextAction (researchResult : Orchestrator.ResearchResult)
  : string :=
  if Nat.ltb 0 (List.length (Orchestrator.contacts researchResult))
  then "Generate email" else "Find contacts".

End ApiServer.

(* ================================================================== *)
(** * The matcher on simple patterns, as functions of the input *)
(* ================================================================== *)

Module RegexSpec.

Section Repetition.
Context {A : Type}.
Variable runBody :
  list string -> string -> (list string -> string -> option A) -> option A.
Variables (lo : nat) (hi : option nat) (greedy : bool).
Variable k : list string -> string -> option A.

(** The loop of a repetition, with the matcher of its body as a parameter. *)
Fixpoint repLoop (fuel n : nat) (caps0 : list string) (s0 : string)
         {struct fuel} : option A :=
  match fuel with
  | O => None
  | S fuel' =>
      let again (_ : unit) :=
        if Regex.under hi n then
          runBody caps0 s0
                  (fun caps1 s1 =>
                     if (Nat.ltb (String.length s1) (String.length s0)
                         || Nat.ltb n lo)%bool
                     then repLoop fuel' (S n) caps1 s1
                     else None)
        else None in
      if Nat.ltb n lo then again tt
      else if greedy then
        match again tt with
        | Some x => Some x
        | None => k caps0 s0
        end
      else
        match k caps0 s0 with
        | Some x => Some x
        | None => again tt
        end
  end.

End Repetition.

(** A greedy, unbounded repetition of one character class, by recursion on
    the input: take the character if the class has it and try the rest;
    failing that, stop here if [lo] characters were taken. *)
Fixpoint greedyCls {A : Type} (p : ascii -> bool) (lo : nat)
         (k : list string -> string -> option A) (caps : list string)
         (n : nat) (s : string) : option A :=
  let stop := if Nat.ltb n lo then None else k caps s in
  match s with
  | String c s' =>
      if p c then
        match greedyCls p lo k caps (S n) s' with
        | Some x => Some x
        | None => stop
        end
      else stop
  | EmptyString => stop
  end.

(** A pattern without a capturing group. *)
Fixpoint groupFree (r : Regex.regex) : bool :=
  match r with
  | Regex.Eps | Regex.Eos | Regex.Cls _ => true
  | Regex.Seq a b | Regex.Alt a b => groupFree a && groupFree b
  | Regex.Rep a _ _ _ => groupFree a
  | Regex.Grp _ => false
  end.

(** The titles the executive patterns look for. *)
Definition executiveTitles : list string :=
  [ "ceo"; "chief executive officer"; "founder"; "cto";
    "chief technology officer"; "cpo"; "chief product officer"; "vp";
    "vice president" ].

(** Every character of class [q] replaced by [rep]. *)
Fixpoint substChars (q : ascii -> bool) (rep : string) (s : string) : string :=
  match s with
  | EmptyString => EmptyString
  | String c s' =>
      if q c then rep ++ substChars q rep s' else String c (substChars q rep s')
  end.

(** [s] starts with [w], letter case apart. *)
Fixpoint istartsWith (w s : string) : bool :=
  match w, s with
  | EmptyString, _ => true
  | String a w', String b s' =>
      Ascii.eqb (Js.toUpperChar b) (Js.toUpperChar a) && istartsWith w' s'
  | String _ _, EmptyString => false
  end.

(** A character an address may hold on either side of its [@]. *)
Definition plain (c : ascii) : bool :=
  negb (Js.isSpace c || Regex.oneOf "@" c).

(** [local@label.rest]: three non-empty runs of plain characters. *)
Definition emailShape (e : string) : Prop :=
  exists a b c,
    e = a ++ "@" ++ b ++ "." ++ c
    /\ a <> "" /\ b <> "" /\ c <> ""
    /\ Js.forallChars plain a = true
    /\ Js.forallChars plain b = true
    /\ Js.forallChars plain c = true.

End RegexSpec.

(* ================================================================== *)
(** * The words of the claims where they need definitions of their own *)
(* ================================================================== *)

Module Wording.

(** ** Rounding to a percentage *)

(** The quotient [n / d] rounded to the nearest integer, a tie going up,
    for [0 <= n] and [0 < d]. *)
Definition roundHalfUp (n d : Z) : Z := (2 * n + d) / (2 * d).

(** [round(total / 120 * 100)] *)
Definition percentOf (total : Z) : Z := roundHalfUp (100 * total) 120.

(** ** Counting the occurrences of a keyword *)




(** ** The fixed title-priority table *)

Definition rankTable : list (string * Z) :=
  [ ("ceo", 1); ("founder", 2); ("cto", 3); ("cpo", 4); ("vp", 5);
    ("director", 6); ("head", 7); ("manager", 8) ].

Definition unknownRank : Z := 9.

Definition startsWithLetter (s : string) : bool :=
  match s with
  | String c _ => Js.isAlpha c
  | EmptyString => false
  end.

(** [keyword] stands in [text] as a word of its own: somewhere it occurs
    with no letter right before it and none right after.  [afterLetter]
    says whether the character in front of [text] is a letter. *)
Fixpoint hasWord (keyword text : string) (afterLetter : bool) : bool :=
  (negb afterLetter && Js.startsWith keyword text
   && negb (startsWithLetter (Js.drop (String.length keyword) text)))
  || match text with
     | EmptyString => false
     | String c rest => hasWord keyword rest (Js.isAlpha c)
     end.

(** The rank the table gives a title: that of the first keyword of the
    table, hence the best ranked one, among those the title has as a word;
    9 when it has none. *)
Definition tableRank (title : string) : Z :=
  match find (fun kv => hasWord (fst kv) (Js.toLowerCase title) false)
             rankTable with
  | Some kv => snd kv
  | None => unknownRank
  end.

Definition rankOf (c : Contacts.Contact) : Z := tableRank (Contacts.title c).

(** A title in which every keyword of the table that occurs at all stands
    as a word: none shows up only inside a longer word, as cto does in
    director. *)
Definition plainTitle (title : string) : bool :=
  forallb (fun kv =>
             implb (Js.includes (Js.toLowerCase title) (fst kv))
                   (hasWord (fst kv) (Js.toLowerCase title) false))
          rankTable.

Definition plain (c : Contacts.Contact) : bool :=
  plainTitle (Contacts.title c).

End Wording.

(* ================================================================== *)
(** * Vocabulary for the further properties *)
(* ================================================================== *)

Module Props.

(** How qualified a recommendation is: 3 for hot down to 0. *)
Definition tierRank (recommendation : string) : Z :=
  if String.eqb recommendation "HOT_PROSPECT" then 3
  else if String.eqb recommendation "WARM_PROSPECT" then 2
  else if String.eqb recommendation "COLD_PROSPECT" then 1
  else 0.

(** The structured contacts of a team page: what the loop over the member
    elements has collected before the text fallback is considered. *)
Definition structuredContacts (websiteUrl : string) (page : Finder.TeamPage)
  : list Contacts.Contact :=
  snd (fold_left (Finder.addMember websiteUrl) (Finder.members page) ([], [])).

Definition b2z (b : bool) : Z := if b then 1 else 0.

(** The characters of a domain token. *)
Definition tokenChar (c : ascii) : bool := Js.isLowerAZ c || Js.isDigit c.

(** The characters of a draft file name outside its separators. *)
Definition fileChar (c : ascii) : bool :=
  Js.isLowerAZ c || Js.isDigit c || Regex.oneOf "_" c.

(** White space, if any, is the space character. *)
Definition singleSpaced (c : ascii) : bool :=
  negb (Js.isSpace c) || Ascii.eqb c " ".

(** The characters of a cleaned name. *)
Definition nameChar (c : ascii) : bool :=
  Js.isWord c || Regex.oneOf " -'." c.

(** A word as [cleanName] leaves it: no lower-case letter in front, no
    upper-case letter behind. *)
Definition capitalised (w : string) : bool :=
  match w with
  | EmptyString => true
  | String c rest =>
      negb (Js.isLowerAZ c)
      && Js.forallChars (fun d => negb (Js.isUpperAZ d)) rest
  end.

(** Text of 7-bit characters, on which the byte-wise case mapping of [Js]
    is the one of the language. *)
Definition asciiText (s : string) : bool :=
  Js.forallChars (fun c => Nat.ltb (Js.code c) 128) s.

(** The characters of an ISO 8601 timestamp as [toISOString] prints it. *)
Definition isoChar (c : ascii) : bool :=
  Js.isDigit c || Regex.oneOf "-:.TZ+" c.

(** The characters of a draft file name before its extension. *)
Definition stemChar (c : ascii) : bool :=
  Js.isAlpha c || Js.isDigit c || Regex.oneOf "_-+" c.

(** A line of an e-mail body: on one line, not blank, and not a subject
    line. *)
Definition bodyLine (l : string) : bool :=
  Js.forallChars (fun c => negb (Ascii.eqb c Contacts.lf)) l
  && Js.nonEmpty (Js.trim l)
  && negb (Js.startsWith "Subject:" l).

End Props.

(* ================================================================== *)
(** * More sample inputs *)
(* ================================================================== *)

Module Cases.

(** The home page of a chat product: a title, a body that mentions chat, an
    API, enterprise use and funding, and one link each to a careers page, a
    press page and a pricing page. *)
Definition chatterPage : Analyzer.Page :=
  {| Analyzer.titleText := "Chatter";
     Analyzer.metaDescription := None;
     Analyzer.bodyText :=
       "Team chat with an API. Enterprise ready. Funding news.";
     Analyzer.careersLinks := 1;
     Analyzer.pressLinks := 1;
     Analyzer.newsLinks := 0;
     Analyzer.pricingLinks := 1;
     Analyzer.reactScripts := 0;
     Analyzer.vueScripts := 0;
     Analyzer.angularScripts := 0;
     Analyzer.gaScripts := 0;
     Analyzer.mixpanelScripts := 0;
     Analyzer.segmentScripts := 0;
     Analyzer.serverHeader := None |}.

(** A world in which [https://chatter.com] answers with that page and
    nothing else answers. *)
Definition chatterWorld : Orchestrator.World :=
  {| Orchestrator.get := fun url =>
       if String.eqb url "https://chatter.com" then Resolver.Status 200
       else Resolver.NoResponse;
     Orchestrator.fetchPage := fun url =>
       if String.eqb url "https://chatter.com" then Some chatterPage
       else None;
     Orchestrator.site := Samples.silentSite;
     Orchestrator.now := 2000 |}.


End Cases.

(* ================================================================== *)
(** * Facts about the array sort *)
(* ================================================================== *)

Section SortFacts.
Context {A : Type}.
Variable compareFn : A -> A -> Z.

Lemma insert_perm (x : A) (l : list A) :
  Permutation (JsArray.insert compareFn x l) (x :: l).
Proof.
  induction l as [|y l IH]; simpl.
  - apply Permutation_refl.
  - destruct (compareFn x y <=? 0).
    + apply Permutation_refl.
    + eapply perm_trans; [apply perm_skip, IH | apply perm_swap].
Qed.

Lemma sort_perm (l : list A) : Permutation (JsArray.sort compareFn l) l.
Proof.
  induction l as [|x l IH]; simpl.
  - constructor.
  - eapply perm_trans; [apply insert_perm | apply perm_skip, IH].
Qed.

Lemma sort_length (l : list A) :
  List.length (JsArray.sort compareFn l) = List.length l.
Proof. apply Permutation_length, sort_perm. Qed.

Lemma sort_In (l : list A) (x : A) :
  In x (JsArray.sort compareFn l) <-> In x l.
Proof.
  split; apply Permutation_in; [| apply Permutation_sym]; apply sort_perm.
Qed.

(** A comparator that is a difference of keys orders any two elements and
    does so transitively; that is all sortedness needs. *)
Hypothesis compare_total : forall a b, compareFn a b <= 0 \/ compareFn b a <= 0.
Hypothesis compare_trans :
  forall a b c, compareFn a b <= 0 -> compareFn b c <= 0 -> compareFn a c <= 0.

Let inOrder (a b : A) : Prop := compareFn a b <= 0.

Lemma insert_sorted (x : A) (l : list A) :
  StronglySorted inOrder l ->
  StronglySorted inOrder (JsArray.insert compareFn x l).
Proof.
  induction 1 as [|y l Hs IH Hall]; simpl.
  - repeat constructor.
  - destruct (compareFn x y <=? 0) eqn:E.
    + apply Z.leb_le in E. constructor.
      * constructor; assumption.
      * constructor; [exact E|].
        eapply Forall_impl; [|exact Hall].
        intros z Hz. eapply compare_trans; eassumption.
    + apply Z.leb_gt in E. constructor; [exact IH|].
      assert (Hyx : inOrder y x).
      { destruct (compare_total x y) as [H|H]; [unfold inOrder; lia | exact H]. }
      eapply Permutation_Forall.
      * apply Permutation_sym, insert_perm.
      * constructor; assumption.
Qed.

Lemma sort_sorted (l : list A) :
  StronglySorted inOrder (JsArray.sort compareFn l).
Proof.
  induction l as [|x l IH]; simpl.
  - constructor.
  - apply insert_sorted, IH.
Qed.

End SortFacts.

Section SortStable.
Context {A : Type}.
Variable compareFn : A -> A -> Z.
Variable key : A -> Z.
Hypothesis compare_ties : forall a b, key a = key b -> compareFn a b <= 0.



End SortStable.


Lemma StronglySorted_weaken {A : Type} (R S : A -> A -> Prop) (l : list A) :
  (forall a b, R a b -> S a b) -> StronglySorted R l -> StronglySorted S l.
Proof.
  intros HRS. induction 1 as [|x l Hs IH Hall]; constructor.
  - exact IH.
  - eapply Forall_impl; [|exact Hall]. intros b. apply HRS.
Qed.

Lemma firstn_Forall {A : Type} (P : A -> Prop) (n : nat) (l : list A) :
  Forall P l -> Forall P (firstn n l).
Proof.
  intros H. revert n. induction H as [|x l Hx Hl IH]; intros [|n]; simpl;
    constructor; auto.
Qed.

Lemma firstn_sorted {A : Type} (R : A -> A -> Prop) (n : nat) (l : list A) :
  StronglySorted R l -> StronglySorted R (firstn n l).
Proof.
  intros H. revert n. induction H as [|x l Hs IH Hall]; intros [|n]; simpl;
    try constructor.
  - apply IH.
  - apply firstn_Forall, Hall.
Qed.

(* ================================================================== *)
(** * The recommendation tier *)
(* ================================================================== *)

(** Once the comparisons are settled, each of the four equivalences is
    either between two false sides or between two true ones. *)
Ltac tier_decided :=
  repeat split; intros; try lia; try discriminate; reflexivity.

(** C1.  In every result of [researchCompany] the recommendation is decided
    by [total_score] alone, the thresholds being tried from the highest:
    HOT_PROSPECT exactly when the score is at least 80, WARM_PROSPECT exactly
    when it is in 60..79, COLD_PROSPECT exactly when it is in 40..59 and
    NOT_QUALIFIED exactly when it is below 40; a score on a boundary gets the
    higher tier. *)
Theorem recommendation_by_threshold :
  forall (w : Orchestrator.World) (companyName : string)
         (website : option string),
    (Orchestrator.recommendation
       (Orchestrator.researchCompany w companyName website) = "HOT_PROSPECT"
     <-> 80 <= FitScorer.total_score
                 (Orchestrator.scoring
                    (Orchestrator.researchCompany w companyName website)))
    /\ (Orchestrator.recommendation
          (Orchestrator.researchCompany w companyName website) = "WARM_PROSPECT"
        <-> 60 <= FitScorer.total_score
                    (Orchestrator.scoring
                       (Orchestrator.researchCompany w companyName website))
                < 80)
    /\ (Orchestrator.recommendation
          (Orchestrator.researchCompany w companyName website) = "COLD_PROSPECT"
        <-> 40 <= FitScorer.total_score
                    (Orchestrator.scoring
                       (Orchestrator.researchCompany w companyName website))
                < 60)
    /\ (Orchestrator.recommendation
          (Orchestrator.researchCompany w companyName website) = "NOT_QUALIFIED"
        <-> FitScorer.total_score
              (Orchestrator.scoring
                 (Orchestrator.researchCompany w companyName website)) < 40).
Proof.
  intros w companyName website.
  unfold Orchestrator.researchCompany.
  cbn [Orchestrator.recommendation Orchestrator.scoring].
  set (s := FitScorer.total_score _).
  destruct (80 <=? s) eqn:E80; [apply Z.leb_le in E80 | apply Z.leb_gt in E80];
    [tier_decided|].
  destruct (60 <=? s) eqn:E60; [apply Z.leb_le in E60 | apply Z.leb_gt in E60];
    [tier_decided|].
  destruct (40 <=? s) eqn:E40; [apply Z.leb_le in E40 | apply Z.leb_gt in E40];
    tier_decided.
Qed.

(* ================================================================== *)
(** * The fit score *)
(* ================================================================== *)

Section FitBounds.
Import FitScorer.

Lemma pts_bounds (cond : bool) (n : Z) : 0 <= n -> 0 <= pts cond n <= n.
Proof. destruct cond; simpl; lia. Qed.

Lemma recognitionBoost_bounds (a : Analyzer.Analysis) :
  0 <= recognitionBoost a <= 20.
Proof.
  unfold recognitionBoost.
  destruct (find _ majorPlatforms) as [pb|] eqn:E; [|lia].
  apply find_some in E. destruct E as [Hin _].
  simpl in Hin.
  repeat (destruct Hin as [<-|Hin]; [simpl; lia|]).
  contradiction.
Qed.

Lemma typeScore_bounds (p : Analyzer.PlatformType) : 5 <= typeScore p <= 30.
Proof.
  unfold typeScore. destruct (Analyzer.type p); vm_compute; split; discriminate.
Qed.

(** Replaces every conditional award by a number within its bounds. *)
Ltac bound_awards :=
  repeat match goal with
         | |- context [pts ?c ?n] =>
             let H := fresh in
             assert (H : 0 <= pts c n <= n) by (apply pts_bounds; lia);
             generalize dependent (pts c n); intros
         end.

Lemma businessScore_nonneg (a : Analyzer.Analysis) : 0 <= businessScore a.
Proof. unfold businessScore. bound_awards. lia. Qed.

Lemma techScore_nonneg (a : Analyzer.Analysis) : 0 <= techScore a.
Proof. unfold techScore. bound_awards. lia. Qed.

Lemma pricingScore_nonneg (a : Analyzer.Analysis) : 0 <= pricingScore a.
Proof. unfold pricingScore. bound_awards. lia. Qed.

Lemma growthScore_bounds (a : Analyzer.Analysis) : 0 <= growthScore a <= 10.
Proof.
  unfold growthScore. destruct (Analyzer.business_indicators a); lia.
Qed.

End FitBounds.

(** The 121 possible totals, each checked on the binary64 evaluation. *)
Lemma percent_table :
  forallb (fun n =>
             let s := Z.of_nat n in
             let p := JsNum.roundScaled s 120 100 in
             (2 * Z.abs (120 * p - 100 * s) <=? 120)
             && (if s =? 69 then p =? 57 else p =? (200 * s + 120) / 240))
          (seq 0 121) = true.
Proof. vm_compute. reflexivity. Qed.

Lemma percent_nearest (s : Z) :
  0 <= s <= 120 ->
  Spec.nearestPercent s (JsNum.roundScaled s 120 100)
  /\ (s <> 69 -> JsNum.roundScaled s 120 100 = (200 * s + 120) / 240)
  /\ (s = 69 -> JsNum.roundScaled s 120 100 = 57).
Proof.
  intros Hs.
  pose proof percent_table as T. rewrite forallb_forall in T.
  specialize (T (Z.to_nat s)).
  rewrite Z2Nat.id in T by lia.
  assert (Hin : In (Z.to_nat s) (seq 0 121)) by (apply in_seq; lia).
  apply T in Hin. cbv zeta in Hin.
  apply andb_prop in Hin. destruct Hin as [H1 H2].
  apply Z.leb_le in H1.
  split; [exact H1|].
  destruct (s =? 69) eqn:E.
  - apply Z.eqb_eq in E. apply Z.eqb_eq in H2. split; intros; [lia | exact H2].
  - apply Z.eqb_neq in E. apply Z.eqb_eq in H2. split; intros; [exact H2 | lia].
Qed.

(** The factors of the fit score: the total lies in 0..120, no factor of
    the breakdown exceeds its cap, and the total is their sum. *)
Lemma fit_score_parts (a : Analyzer.Analysis) :
  0 <= FitScorer.total_score (FitScorer.scoreCompanyFit a) <= 120
  /\ FitScorer.platform_recognition
       (FitScorer.breakdown (FitScorer.scoreCompanyFit a)) <= 20
  /\ (forall t,
         FitScorer.platform_type
           (FitScorer.breakdown (FitScorer.scoreCompanyFit a)) = Some t ->
         t <= 30)
  /\ FitScorer.business_indicators
       (FitScorer.breakdown (FitScorer.scoreCompanyFit a)) <= 25
  /\ FitScorer.technical_fit
       (FitScorer.breakdown (FitScorer.scoreCompanyFit a)) <= 20
  /\ FitScorer.pricing_model
       (FitScorer.breakdown (FitScorer.scoreCompanyFit a)) <= 15
  /\ FitScorer.growth_indicators
       (FitScorer.breakdown (FitScorer.scoreCompanyFit a)) <= 10
  /\ FitScorer.total_score (FitScorer.scoreCompanyFit a)
     = FitScorer.platform_recognition
         (FitScorer.breakdown (FitScorer.scoreCompanyFit a))
       + match FitScorer.platform_type
                 (FitScorer.breakdown (FitScorer.scoreCompanyFit a)) with
         | Some t => t
         | None => 0
         end
       + FitScorer.business_indicators
           (FitScorer.breakdown (FitScorer.scoreCompanyFit a))
       + FitScorer.technical_fit
           (FitScorer.breakdown (FitScorer.scoreCompanyFit a))
       + FitScorer.pricing_model
           (FitScorer.breakdown (FitScorer.scoreCompanyFit a))
       + FitScorer.growth_indicators
           (FitScorer.breakdown (FitScorer.scoreCompanyFit a)).
Proof.
  pose proof (recognitionBoost_bounds a) as Hr.
  pose proof (businessScore_nonneg a) as Hb.
  pose proof (techScore_nonneg a) as Ht.
  pose proof (pricingScore_nonneg a) as Hp.
  pose proof (growthScore_bounds a) as Hg.
  assert (Hty : forall t,
             option_map FitScorer.typeScore (Analyzer.platform_type a) = Some t ->
             5 <= t <= 30).
  { intros t. destruct (Analyzer.platform_type a) as [p|]; simpl;
      [intros [= <-]; apply typeScore_bounds | discriminate]. }
  assert (Htot : 0 <= FitScorer.total_score (FitScorer.scoreCompanyFit a) <= 120).
  { unfold FitScorer.scoreCompanyFit. cbn [FitScorer.total_score].
    destruct (option_map FitScorer.typeScore (Analyzer.platform_type a))
      as [t|] eqn:E; [specialize (Hty t eq_refl)|]; lia. }
  split; [exact Htot|].
  unfold FitScorer.scoreCompanyFit in *.
  cbn [FitScorer.total_score FitScorer.breakdown FitScorer.percentage
       FitScorer.platform_recognition FitScorer.platform_type
       FitScorer.business_indicators FitScorer.technical_fit
       FitScorer.pricing_model FitScorer.growth_indicators] in *.
  repeat split; try lia.
  - intros t E. apply Hty in E. lia.
  - destruct (option_map FitScorer.typeScore (Analyzer.platform_type a)); lia.
Qed.

(** C2.  For every analysis object, the empty one included, the total lies
    in 0..120, no factor of the breakdown exceeds its cap (20, 30, 25, 20,
    15, 10; [platform_type] is set only when the analysis has one) and the
    total is the sum of the factors.  The percentage is
    [round(total / 120 * 100)] for every total but 69: there the quotient is
    57.5, which rounds to 58, and the code, which divides before it
    multiplies, returns 57.  The home page of the sample world is analysed
    to that total, and researching the company returns 57 percent. *)
Theorem fit_percentage_misses_at_69 :
  (forall a : Analyzer.Analysis,
      0 <= FitScorer.total_score (FitScorer.scoreCompanyFit a) <= 120
      /\ FitScorer.platform_recognition
           (FitScorer.breakdown (FitScorer.scoreCompanyFit a)) <= 20
      /\ (forall t,
             FitScorer.platform_type
               (FitScorer.breakdown (FitScorer.scoreCompanyFit a)) = Some t ->
             t <= 30)
      /\ FitScorer.business_indicators
           (FitScorer.breakdown (FitScorer.scoreCompanyFit a)) <= 25
      /\ FitScorer.technical_fit
           (FitScorer.breakdown (FitScorer.scoreCompanyFit a)) <= 20
      /\ FitScorer.pricing_model
           (FitScorer.breakdown (FitScorer.scoreCompanyFit a)) <= 15
      /\ FitScorer.growth_indicators
           (FitScorer.breakdown (FitScorer.scoreCompanyFit a)) <= 10
      /\ FitScorer.total_score (FitScorer.scoreCompanyFit a)
         = FitScorer.platform_recognition
             (FitScorer.breakdown (FitScorer.scoreCompanyFit a))
           + match FitScorer.platform_type
                     (FitScorer.breakdown (FitScorer.scoreCompanyFit a)) with
             | Some t => t
             | None => 0
             end
           + FitScorer.business_indicators
               (FitScorer.breakdown (FitScorer.scoreCompanyFit a))
           + FitScorer.technical_fit
               (FitScorer.breakdown (FitScorer.scoreCompanyFit a))
           + FitScorer.pricing_model
               (FitScorer.breakdown (FitScorer.scoreCompanyFit a))
           + FitScorer.growth_indicators
               (FitScorer.breakdown (FitScorer.scoreCompanyFit a))
      /\ (FitScorer.total_score (FitScorer.scoreCompanyFit a) <> 69 ->
          FitScorer.percentage (FitScorer.scoreCompanyFit a)
          = Wording.percentOf
              (FitScorer.total_score (FitScorer.scoreCompanyFit a)))
      /\ (FitScorer.total_score (FitScorer.scoreCompanyFit a) = 69 ->
          FitScorer.percentage (FitScorer.scoreCompanyFit a) = 57))
  /\ Wording.percentOf 69 = 58
  /\ FitScorer.total_score
       (FitScorer.scoreCompanyFit (Analyzer.analyzePage Cases.chatterPage))
     = 69
  /\ FitScorer.percentage
       (FitScorer.scoreCompanyFit (Analyzer.analyzePage Cases.chatterPage))
     = 57
  /\ FitScorer.percentage
       (Orchestrator.scoring
          (Orchestrator.researchCompany Cases.chatterWorld "Chatter" None))
     = 57.
Proof.
  split.
  - intros a.
    destruct (fit_score_parts a) as [Htot [H1 [H2 [H3 [H4 [H5 [H6 H7]]]]]]].
    repeat (split; [assumption|]).
    assert (P : FitScorer.percentage (FitScorer.scoreCompanyFit a)
                = JsNum.roundScaled
                    (FitScorer.total_score (FitScorer.scoreCompanyFit a))
                    120 100) by reflexivity.
    destruct (percent_nearest _ Htot) as [_ [N E]].
    split; intros H; rewrite P.
    + rewrite (N H). unfold Wording.percentOf, Wording.roundHalfUp.
      f_equal; lia.
    + exact (E H).
  - repeat split; vm_compute; reflexivity.
Qed.

(* ================================================================== *)
(** * Scoring and verifying contacts *)
(* ================================================================== *)

Section ScoredContacts.
Import Contacts Scoring.

Lemma validateEmailFormat_spec (o : option string) :
  validateEmailFormat o = true
  <-> exists e, o = Some e /\ Regex.testAtStart emailRegex e = true.
Proof.
  unfold validateEmailFormat. split.
  - destruct o as [[|c e]|]; simpl; try discriminate.
    intros H. exists (String c e). split; [reflexivity | exact H].
  - intros [e [-> H]]. destruct e as [|c e]; [discriminate H | exact H].
Qed.

Lemma scored_In (now : Z) (contacts : list Contact) (site : option string)
      (c : Contact) :
  In c (scoreAndVerifyContacts now contacts site) ->
  exists c0, In c0 contacts /\ c = scoreContact now site c0.
Proof.
  unfold scoreAndVerifyContacts. intros H.
  apply sort_In in H. apply in_map_iff in H.
  destruct H as [c0 [E Hin]]. exists c0. split; [exact Hin | symmetry; exact E].
Qed.

Lemma scoreContact_sameBase (now : Z) (site : option string) (c : Contact) :
  Spec.sameBase c (scoreContact now site c).
Proof. unfold Spec.sameBase, scoreContact. simpl. repeat split. Qed.

Lemma map_Forall2 {A B : Type} (f : A -> B) (R : A -> B -> Prop) (l : list A) :
  (forall x, R x (f x)) -> Forall2 R l (map f l).
Proof. intros H. induction l; simpl; constructor; auto. Qed.

End ScoredContacts.

(** C3.  On every contact [scoreAndVerifyContacts] returns,
    [recommendedForOutreach] is a boolean that is true exactly when the
    quality percentage is at least 60 and the contact has an address the
    format pattern accepts; it is false when the address is null. *)
Theorem recommended_iff_quality_and_format :
  forall (now : Z) (contacts : list Contacts.Contact)
         (companyWebsite : option string),
    Forall
      (fun c =>
         exists q b,
           Contacts.qualityScore c = Some q
           /\ Contacts.recommendedForOutreach c = Some b
           /\ (b = true
               <-> 60 <= Contacts.percentage q
                   /\ exists e, Contacts.email c = Some e
                                /\ Regex.testAtStart Scoring.emailRegex e
                                   = true)
           /\ (Contacts.email c = None -> b = false))
      (Scoring.scoreAndVerifyContacts now contacts companyWebsite).
Proof.
  intros now contacts companyWebsite.
  apply Forall_forall. intros c Hc.
  apply scored_In in Hc. destruct Hc as [c0 [_ ->]].
  unfold Scoring.scoreContact.
  cbn [Contacts.qualityScore Contacts.recommendedForOutreach Contacts.email].
  eexists. eexists. split; [reflexivity|]. split; [reflexivity|].
  split.
  - rewrite andb_true_iff, Z.leb_le, validateEmailFormat_spec. reflexivity.
  - intros ->. apply andb_false_r.
Qed.

(** C10.  [scoreAndVerifyContacts] returns as many contacts as it is given;
    they are the scored inputs in some order, and every property of an input
    other than the four computed ones ([qualityScore], [emailValidation],
    [recommendedForOutreach], [outreachRisk]) is unchanged on its output. *)
Theorem scoring_preserves_contacts :
  forall (now : Z) (contacts : list Contacts.Contact)
         (companyWebsite : option string),
    List.length (Scoring.scoreAndVerifyContacts now contacts companyWebsite)
    = List.length contacts
    /\ exists inputs,
         Permutation contacts inputs
         /\ Scoring.scoreAndVerifyContacts now contacts companyWebsite
            = map (Scoring.scoreContact now companyWebsite) inputs
         /\ Forall2 Spec.sameBase inputs
              (Scoring.scoreAndVerifyContacts now contacts companyWebsite).
Proof.
  intros now contacts companyWebsite.
  unfold Scoring.scoreAndVerifyContacts.
  split.
  - rewrite sort_length. apply length_map.
  - destruct (Permutation_map_inv _ _
                (sort_perm (fun a b => Scoring.scoreOf b - Scoring.scoreOf a)
                   (map (Scoring.scoreContact now companyWebsite) contacts)))
      as [inputs [E P]].
    exists inputs. split; [exact P|]. split; [exact E|].
    rewrite E. apply map_Forall2. intros x. apply scoreContact_sameBase.
Qed.

(* ================================================================== *)
(** * The contact list of [findKeyContacts] *)
(* ================================================================== *)

Section ContactList.
Import Contacts Scoring Finder.

Lemma prioritize_length (contacts : list Contact) :
  (List.length (prioritizeContacts contacts) <= 5)%nat.
Proof. unfold prioritizeContacts, JsArray.slice0. apply firstn_le_length. Qed.

Lemma prioritize_sorted (contacts : list Contact) :
  StronglySorted (fun a b => Spec.rank a <= Spec.rank b)
                 (prioritizeContacts contacts).
Proof.
  unfold prioritizeContacts, JsArray.slice0.
  apply firstn_sorted.
  eapply StronglySorted_weaken; [| apply sort_sorted].
  - unfold Spec.rank. intros a b H. cbv zeta in H. lia.
  - intros a b. cbv zeta. lia.
  - intros a b c. cbv zeta. lia.
Qed.

Lemma scored_sorted (now : Z) (contacts : list Contact)
      (site : option string) :
  StronglySorted (fun a b => scoreOf b <= scoreOf a)
                 (scoreAndVerifyContacts now contacts site).
Proof.
  unfold scoreAndVerifyContacts.
  eapply StronglySorted_weaken; [| apply sort_sorted].
  - intros a b H. simpl in H. lia.
  - intros a b. simpl. lia.
  - intros a b c. simpl. lia.
Qed.

(** The two outcomes of the last step of [findKeyContacts]. *)
Lemma finishContacts_cases (now : Z) (websiteUrl : option string)
      (contacts : list Contact) :
  (scoreAndVerifyContacts now (prioritizeContacts contacts) websiteUrl = []
   /\ finishContacts now websiteUrl contacts = [ceoPlaceholder; ctoPlaceholder])
  \/ (scoreAndVerifyContacts now (prioritizeContacts contacts) websiteUrl <> []
      /\ finishContacts now websiteUrl contacts
         = scoreAndVerifyContacts now (prioritizeContacts contacts) websiteUrl).
Proof.
  unfold finishContacts.
  destruct (scoreAndVerifyContacts now (prioritizeContacts contacts) websiteUrl)
    as [|c l] eqn:E.
  - left. split; reflexivity.
  - right. split; [discriminate|].
    rewrite andb_false_r. reflexivity.
Qed.

(** Nothing is left after ranking and scoring exactly when nothing was
    collected. *)
Lemma scored_empty_iff (now : Z) (websiteUrl : option string)
      (contacts : list Contact) :
  scoreAndVerifyContacts now (prioritizeContacts contacts) websiteUrl = []
  <-> contacts = [].
Proof.
  split.
  - intros H. apply (f_equal (@List.length Contact)) in H.
    unfold scoreAndVerifyContacts, prioritizeContacts, JsArray.slice0 in H.
    rewrite sort_length, length_map, length_firstn, sort_length in H.
    simpl in H. destruct contacts; [reflexivity | simpl in H; lia].
  - intros ->. reflexivity.
Qed.

End ContactList.

(** C5.  When contact extraction runs to its end and nothing is left after
    ranking and scoring, [findKeyContacts] returns exactly two placeholders:
    "CEO/Founder" (critical, score 40) and "CTO/VP Engineering" (high,
    score 35), both without an address and not recommended for outreach. *)
Theorem placeholders_when_no_contacts :
  forall (site : Finder.Site) (now : Z) (websiteUrl : option string),
    Scoring.scoreAndVerifyContacts now
      (Scoring.prioritizeContacts (Finder.collectContacts site websiteUrl))
      websiteUrl = [] ->
    Spec.twoPlaceholders (Finder.findKeyContacts site now websiteUrl).
Proof.
  intros site now websiteUrl H.
  unfold Finder.findKeyContacts.
  destruct (finishContacts_cases now websiteUrl
              (Finder.collectContacts site websiteUrl)) as [[_ E]|[N _]].
  - rewrite E. exists Finder.ceoPlaceholder, Finder.ctoPlaceholder.
    unfold Spec.isPlaceholder. simpl. repeat split.
  - contradiction.
Qed.

Lemma placeholders_when_no_contacts_witness :
  Scoring.scoreAndVerifyContacts 2000
    (Scoring.prioritizeContacts
       (Finder.collectContacts Samples.silentSite None)) None = []
  /\ Spec.twoPlaceholders
       (Finder.findKeyContacts Samples.silentSite 2000 None).
Proof.
  split.
  - reflexivity.
  - apply (placeholders_when_no_contacts Samples.silentSite 2000 None).
    reflexivity.
Defined.

Section TableRank.
Import Contacts.

(** A keyword that stands as a word in a text occurs in it. *)
Lemma hasWord_includes (keyword text : string) :
  forall afterLetter,
    Wording.hasWord keyword text afterLetter = true ->
    Js.includes text keyword = true.
Proof.
  induction text as [|c text IH]; intros afterLetter H.
  - simpl in H. rewrite orb_false_r in H.
    apply andb_prop in H. destruct H as [H _].
    apply andb_prop in H. destruct H as [_ H].
    simpl. rewrite H. reflexivity.
  - change (Wording.hasWord keyword (String c text) afterLetter)
      with ((negb afterLetter && Js.startsWith keyword (String c text)
             && negb (Wording.startsWithLetter
                        (Js.drop (String.length keyword) (String c text))))
            || Wording.hasWord keyword text (Js.isAlpha c)) in H.
    change (Js.includes (String c text) keyword)
      with (Js.startsWith keyword (String c text) || Js.includes text keyword).
    apply orb_prop in H. destruct H as [H|H].
    + apply andb_prop in H. destruct H as [H _].
      apply andb_prop in H. destruct H as [_ H].
      rewrite H. reflexivity.
    + rewrite (IH _ H). apply orb_true_r.
Qed.

Lemma plain_keyword (keyword text : string) :
  implb (Js.includes text keyword) (Wording.hasWord keyword text false) = true ->
  Wording.hasWord keyword text false = Js.includes text keyword.
Proof.
  destruct (Wording.hasWord keyword text false) eqn:W.
  - intros _. symmetry. exact (hasWord_includes _ _ _ W).
  - destruct (Js.includes text keyword); [discriminate | reflexivity].
Qed.

(** On a title whose keywords stand as words, the key the ranking step
    sorts by is the rank of the fixed table. *)
Lemma rank_of_plain_title (title : string) :
  Wording.plainTitle title = true ->
  calculateContactPriorityScore title = Wording.tableRank title.
Proof.
  intros H. unfold Wording.plainTitle in H.
  cbn [forallb Wording.rankTable fst] in H.
  repeat (apply andb_prop in H; let K := fresh "K" in destruct H as [K H]).
  repeat match goal with
         | K : implb _ _ = true |- _ => apply plain_keyword in K
         end.
  unfold Wording.tableRank. cbn [find Wording.rankTable fst snd].
  repeat match goal with
         | K : Wording.hasWord _ _ false = _ |- _ => rewrite K; clear K
         end.
  unfold calculateContactPriorityScore.
  destruct title as [|c t]; [reflexivity|].
  change (Js.nonEmpty (String c t)) with true. cbv iota beta.
  change (negb true) with false. cbv iota zeta.
  repeat match goal with
         | |- context [if Js.includes ?t ?k then _ else _] =>
             destruct (Js.includes t k)
         end; reflexivity.
Qed.

Lemma prioritize_sorted_by_table (contacts : list Contact) :
  StronglySorted
    (fun a b => Wording.plain a = true -> Wording.plain b = true ->
                Wording.rankOf a <= Wording.rankOf b)
    (Scoring.prioritizeContacts contacts).
Proof.
  eapply StronglySorted_weaken; [|apply prioritize_sorted].
  intros a b H Pa Pb. unfold Spec.rank in H. unfold Wording.rankOf.
  rewrite <- (rank_of_plain_title _ Pa), <- (rank_of_plain_title _ Pb).
  exact H.
Qed.

End TableRank.

(** C4, as amended.  Every list [findKeyContacts] returns has at most five
    entries (the list of the outer [catch] has one).  The ranking step
    leaves at most five contacts; among those of them whose titles have
    their keywords as words of their own, they stand in ascending order of
    the fixed title rank (ceo 1, founder 2, cto 3, cpo 4, vp 5, director 6,
    head 7, manager 8, unknown 9).  The returned list is either the two
    placeholders or those contacts, scored, in some order, and it is in
    descending order of quality score. *)
Theorem contact_list_bounded_and_ordered :
  forall (site : Finder.Site) (now : Z) (websiteUrl : option string),
    (List.length (Finder.findKeyContacts site now websiteUrl) <= 5)%nat
    /\ (List.length Finder.onContactSearchError <= 5)%nat
    /\ (List.length
          (Scoring.prioritizeContacts (Finder.collectContacts site websiteUrl))
        <= 5)%nat
    /\ StronglySorted
         (fun a b => Wording.plain a = true -> Wording.plain b = true ->
                     Wording.rankOf a <= Wording.rankOf b)
         (Scoring.prioritizeContacts (Finder.collectContacts site websiteUrl))
    /\ StronglySorted (fun a b => Scoring.scoreOf b <= Scoring.scoreOf a)
         (Finder.findKeyContacts site now websiteUrl)
    /\ (Finder.findKeyContacts site now websiteUrl
        = [Finder.ceoPlaceholder; Finder.ctoPlaceholder]
        \/ Permutation
             (Finder.findKeyContacts site now websiteUrl)
             (map (Scoring.scoreContact now websiteUrl)
                (Scoring.prioritizeContacts
                   (Finder.collectContacts site websiteUrl)))).
Proof.
  intros site now websiteUrl.
  unfold Finder.findKeyContacts.
  set (cs := Finder.collectContacts site websiteUrl).
  pose proof (prioritize_length cs) as Hlen.
  split; [|split; [simpl; lia|split; [exact Hlen|split;
    [apply prioritize_sorted_by_table|]]]].
  - destruct (finishContacts_cases now websiteUrl cs) as [[_ E]|[_ E]];
      rewrite E.
    + simpl. lia.
    + unfold Scoring.scoreAndVerifyContacts.
      rewrite sort_length, length_map. exact Hlen.
  - destruct (finishContacts_cases now websiteUrl cs) as [[_ E]|[_ E]];
      rewrite E.
    + split; [|left; reflexivity].
      apply SSorted_cons;
        [apply SSorted_cons; [apply SSorted_nil | apply Forall_nil]
        | apply Forall_cons; [vm_compute; discriminate | apply Forall_nil]].
    + split; [apply scored_sorted|right].
      unfold Scoring.scoreAndVerifyContacts. apply sort_perm.
Qed.

(** C4, as stated, fails: on a team page showing a CEO without an address
    and a VP with an address and a LinkedIn link, the VP (rank 5, score 85)
    is returned ahead of the CEO (rank 1, score 65).  Both titles have
    their keyword as a word, and the fixed table ranks them 5 and 1. *)
Lemma contact_list_not_in_rank_order :
  map (fun c => (Contacts.name c, Spec.rank c, Scoring.scoreOf c))
      (Finder.findKeyContacts Samples.acmeSite 2000 (Some "https://acme.com"))
  = [("Jane Doe", 5, 85); ("Madonna", 1, 65)]
  /\ Spec.ascendingBy Spec.rank
       (Finder.findKeyContacts Samples.acmeSite 2000 (Some "https://acme.com"))
     = false
  /\ map (fun c => (Wording.plain c, Wording.rankOf c))
         (Finder.findKeyContacts Samples.acmeSite 2000
            (Some "https://acme.com"))
     = [(true, 5); (true, 1)]
  /\ Spec.ascendingBy Wording.rankOf
       (Finder.findKeyContacts Samples.acmeSite 2000 (Some "https://acme.com"))
     = false.
Proof. repeat split; vm_compute; reflexivity. Qed.

(* ================================================================== *)
(** * Literal patterns *)
(* ================================================================== *)

Lemma run_seq {A : Type} (a b : Regex.regex) (caps : list string) (s : string)
      (k : list string -> string -> option A) :
  Regex.run (Regex.Seq a b) caps s k
  = Regex.run a caps s (fun caps1 s1 => Regex.run b caps1 s1 k).
Proof. reflexivity. Qed.

Lemma run_cls {A : Type} (p : ascii -> bool) (caps : list string) (s : string)
      (k : list string -> string -> option A) :
  Regex.run (Regex.Cls p) caps s k
  = match s with
    | String c s' => if p c then k caps s' else None
    | EmptyString => None
    end.
Proof. reflexivity. Qed.

(** A keyword under the [i] flag matches exactly where the input starts
    with it, letter case apart, and consumes its length. *)
Lemma run_ilit {A : Type} (kw : string) :
  forall (caps : list string) (s : string)
         (k : list string -> string -> option A),
    Regex.run (Regex.ilit kw) caps s k
    = if RegexSpec.istartsWith kw s
      then k caps (Js.drop (String.length kw) s) else None.
Proof.
  induction kw as [|c kw IH]; intros caps s k; [reflexivity|].
  destruct kw as [|c2 kw].
  - change (Regex.ilit (String c "")) with (Regex.ichr c).
    unfold Regex.ichr. rewrite run_cls.
    destruct s as [|d s]; [reflexivity|]. simpl.
    rewrite andb_true_r. reflexivity.
  - change (Regex.ilit (String c (String c2 kw)))
      with (Regex.Seq (Regex.ichr c) (Regex.ilit (String c2 kw))).
    rewrite run_seq. unfold Regex.ichr. rewrite run_cls.
    destruct s as [|d s]; [reflexivity|].
    change (RegexSpec.istartsWith (String c (String c2 kw)) (String d s))
      with (Ascii.eqb (Js.toUpperChar d) (Js.toUpperChar c)
            && RegexSpec.istartsWith (String c2 kw) s).
    change (Js.drop (String.length (String c (String c2 kw))) (String d s))
      with (Js.drop (String.length (String c2 kw)) s).
    destruct (Ascii.eqb (Js.toUpperChar d) (Js.toUpperChar c));
      [apply IH | reflexivity].
Qed.

Lemma length_drop (n : nat) (s : string) :
  String.length (Js.drop n s) = (String.length s - n)%nat.
Proof.
  revert s. induction n as [|n IH]; intros s; simpl; [lia|].
  destruct s as [|c s]; simpl; [reflexivity | apply IH].
Qed.

(* ================================================================== *)
(** * Platform classification *)
(* ================================================================== *)

Section Classification.
Import Analyzer.
Variable allText : string.





End Classification.

Section Counting.

Lemma istartsWith_length (kw s : string) :
  RegexSpec.istartsWith kw s = true ->
  (String.length kw <= String.length s)%nat.
Proof.
  revert s. induction kw as [|a kw IH]; intros [|b s] H; simpl in *;
    try lia; try discriminate.
  apply andb_prop in H. destruct H as [_ H]. apply IH in H. lia.
Qed.






End Counting.


(* ================================================================== *)
(** * Website resolution by probing *)
(* ================================================================== *)

Lemma probeDomains_find (get : string -> Resolver.response)
      (domains : list string) :
  Resolver.probeDomains get domains = find (Spec.responds200 get) domains.
Proof.
  induction domains as [|d ds IH]; [reflexivity|].
  simpl. unfold Spec.responds200, Resolver.axiosGet.
  destruct (get d) as [c|]; [|exact IH].
  destruct (c <? 400) eqn:E4, (c =? 200) eqn:E2; try exact IH; try reflexivity.
  apply Z.ltb_ge in E4. apply Z.eqb_eq in E2. lia.
Qed.

(** C8, as amended.  When no alias matches, the resolver probes
    [https://{token}.com], [https://www.{token}.com], [https://{token}.io],
    [https://www.{token}.io] in this order and returns the first whose
    request ends with status 200 (a request that fails, times out or ends
    with any other status is passed over); when none does it returns null.
    It returns on every input. *)
Theorem resolver_first_status_200 :
  forall (get : string -> Resolver.response) (companyName : string),
    Resolver.knownWebsite companyName = None ->
    Resolver.possibleDomains (Resolver.domainName companyName)
    = [ "https://" ++ Resolver.domainName companyName ++ ".com";
        "https://www." ++ Resolver.domainName companyName ++ ".com";
        "https://" ++ Resolver.domainName companyName ++ ".io";
        "https://www." ++ Resolver.domainName companyName ++ ".io" ]
    /\ Resolver.findCompanyWebsite get companyName
       = find (Spec.responds200 get)
              (Resolver.possibleDomains (Resolver.domainName companyName))
    /\ ((forall d,
            In d (Resolver.possibleDomains (Resolver.domainName companyName)) ->
            Spec.responds200 get d = false) ->
        Resolver.findCompanyWebsite get companyName = None).
Proof.
  intros get companyName Hno.
  assert (E : Resolver.findCompanyWebsite get companyName
              = find (Spec.responds200 get)
                     (Resolver.possibleDomains
                        (Resolver.domainName companyName))).
  { unfold Resolver.findCompanyWebsite. rewrite Hno. apply probeDomains_find. }
  split; [reflexivity|]. split; [exact E|].
  intros Hall. rewrite E.
  destruct (find _ _) as [d|] eqn:F; [|reflexivity].
  apply find_some in F. destruct F as [Hin Hd].
  rewrite (Hall d Hin) in Hd. discriminate.
Qed.

Lemma resolver_first_status_200_witness :
  Resolver.knownWebsite "Acme" = None
  /\ Resolver.findCompanyWebsite Samples.acmeProbe "Acme"
     = find (Spec.responds200 Samples.acmeProbe)
            (Resolver.possibleDomains (Resolver.domainName "Acme")).
Proof.
  split.
  - reflexivity.
  - apply (resolver_first_status_200 Samples.acmeProbe "Acme"). reflexivity.
Defined.

(** C8, as stated, fails: the name Acme matches no alias, its first
    candidate answers with status 204 (below 400), and the resolver returns
    the second candidate. *)
Lemma resolver_passes_over_status_204 :
  Resolver.knownWebsite "Acme" = None
  /\ find (Spec.respondsBelow400 Samples.acmeProbe)
          (Resolver.possibleDomains (Resolver.domainName "Acme"))
     = Some "https://acme.com"
  /\ Resolver.findCompanyWebsite Samples.acmeProbe "Acme"
     = Some "https://www.acme.com".
Proof. repeat split; vm_compute; reflexivity. Qed.

(* ================================================================== *)
(** * Batch research *)
(* ================================================================== *)

Section Batch.
Import Orchestrator.
Variable research : Input -> Attempt.
Variable companies : list Input.
Variable maxConcurrent : Z.
Hypothesis chunk_positive : 1 <= maxConcurrent.




End Batch.

(** A chunk size of zero or less never gets past a non-empty input: the
    loop is still running whatever the number of turns allowed. *)
Lemma chunkLoop_stuck (research : Orchestrator.Input -> Orchestrator.Attempt)
      (companies : list Orchestrator.Input) (maxConcurrent : Z) (fuel : nat) :
  maxConcurrent <= 0 ->
  forall (i : Z) (results : list Orchestrator.Entry),
    i < Z.of_nat (List.length companies) ->
    Orchestrator.chunkLoop fuel research companies maxConcurrent i results
    = None.
Proof.
  intros Hmc. induction fuel as [|fuel IH]; intros i results Hi; simpl;
    replace (i <? Z.of_nat (List.length companies)) with true
      by (symmetry; apply Z.ltb_lt; lia).
  - reflexivity.
  - apply IH. lia.
Qed.





(* ================================================================== *)
(** * Guessed addresses *)
(* ================================================================== *)

(** Whatever the source of the address, the [verified] flag of an extracted
    contact only records that there is one. *)
Lemma extracted_verified_iff_email (el : Contacts.Element) (source : string)
      (websiteUrl : option string) (c : Contacts.Contact) :
  Contacts.extractContactFromElement el source websiteUrl = Some c ->
  Contacts.verified c = Js.truthy (Contacts.email c).
Proof.
  unfold Contacts.extractContactFromElement.
  destruct (_ && _); [|discriminate].
  intros [= <-]. reflexivity.
Qed.

Lemma append_nonEmpty_r (a b : string) :
  Js.nonEmpty b = true -> Js.nonEmpty (a ++ b) = true.
Proof. intros H. destruct a; [exact H | reflexivity]. Qed.

(** A guessed address is never empty. *)
Lemma guessedEmail_truthy (name : string) (websiteUrl : option string)
      (e : string) :
  Contacts.guessedEmail name websiteUrl = Some e -> Js.truthy (Some e) = true.
Proof.
  unfold Contacts.guessedEmail.
  destruct (Nat.leb 2 _); [|discriminate].
  destruct (Js.orNull _) as [domain|]; [|discriminate].
  intros [= <-].
  assert (H : forall s, Js.truthy (Some s) = Js.nonEmpty s)
    by (intros [|? ?]; reflexivity).
  rewrite H. apply append_nonEmpty_r. reflexivity.
Qed.

(** Every contact whose address is the guess comes out marked verified. *)
Lemma guessed_contact_verified (el : Contacts.Element) (source : string)
      (websiteUrl : option string) (c : Contacts.Contact) (e : string) :
  Contacts.mailtoEmail el = None ->
  Contacts.patternEmail el = None ->
  Contacts.guessedEmail (Contacts.resolveName el) websiteUrl = Some e ->
  Contacts.extractContactFromElement el source websiteUrl = Some c ->
  Contacts.email c = Some e /\ Contacts.verified c = true.
Proof.
  intros Hm Hp Hg Hc.
  pose proof (extracted_verified_iff_email _ _ _ _ Hc) as Hv.
  assert (He : Contacts.email c = Some e).
  { unfold Contacts.extractContactFromElement in Hc.
    destruct (Js.nonEmpty (Contacts.resolveName el)) eqn:N; [|discriminate].
    destruct (Nat.ltb 2 _); [|discriminate].
    simpl in Hc. injection Hc as <-.
    cbn [Contacts.email]. unfold Contacts.resolveEmail.
    rewrite Hm, Hp, N. exact Hg. }
  split; [exact He|].
  rewrite Hv, He. eapply guessedEmail_truthy. exact Hg.
Qed.

(** C6 on a card that shows a name and a title and no address: there is no
    [mailto:] link and no address in the text, the address is the guess
    [jane.doe@acme.com], and the contact comes out with [verified = true].
    The specification wants [verified = false] here. *)
Theorem guessed_email_is_marked_verified :
  Contacts.mailtoEmail Samples.ctoCard = None
  /\ Contacts.patternEmail Samples.ctoCard = None
  /\ Contacts.guessedEmail (Contacts.resolveName Samples.ctoCard)
       (Some "https://www.acme.com/")
     = Some "jane.doe@acme.com"
  /\ option_map (fun c => (Contacts.name c, Contacts.email c,
                           Contacts.verified c))
       (Contacts.extractContactFromElement Samples.ctoCard
          "website_team_page" (Some "https://www.acme.com/"))
     = Some ("Jane Doe", Some "jane.doe@acme.com", true).
Proof. repeat split; vm_compute; reflexivity. Qed.

(* ================================================================== *)
(** * Remarks *)
(* ================================================================== *)

(** The one total at which [Math.round((total / 120) * 100)] is not the
    quotient rounded half up: 69 / 120 * 100 is 57.49999999999999 in
    binary64 and rounds to 57, one of the two integers nearest to 57.5. *)
Remark percentage_at_69 :
  FitScorer.total_score (FitScorer.scoreCompanyFit Samples.analysis69) = 69
  /\ FitScorer.percentage (FitScorer.scoreCompanyFit Samples.analysis69) = 57.
Proof. split; vm_compute; reflexivity. Qed.

(** For a quality score [s] in 0..100, [Math.round((s / 100) * 100)] is [s]:
    the quality percentage of a contact is its score. *)
Remark quality_percentage_is_score :
  forallb (fun n => JsNum.roundScaled (Z.of_nat n) 100 100 =? Z.of_nat n)
          (seq 0 101) = true.
Proof. vm_compute. reflexivity. Qed.

(** Titles are ranked by the first keyword they contain, so a title that
    contains a higher keyword inside another word takes that rank. *)
Remark rank_by_first_keyword :
  map Contacts.calculateContactPriorityScore
      ["CEO"; "Co-Founder"; "CTO"; "CPO"; "VP Sales"; "Head of Growth";
       "Product Manager"; "Engineer"; ""; "Director"]
  = [1; 2; 3; 4; 5; 7; 8; 9; 9; 3].
Proof. vm_compute. reflexivity. Qed.

(** The format pattern on a few addresses. *)
Remark email_format_samples :
  map Scoring.validateEmailFormat
      [ None; Some ""; Some "a@b.c"; Some "jane.doe@acme.com"; Some "a@b";
        Some "a b@c.d"; Some "a@b@c.d"; Some "@b.c"; Some "a@b." ]
  = [false; false; true; true; false; false; false; false; false].
Proof. vm_compute. reflexivity. Qed.

(** The specification's fourth worked example: a founder found on a team
    page moments ago, with an address on the company's domain and a LinkedIn
    link, scores 100, is low risk and is recommended. *)
Remark founder_on_team_page :
  map (fun c => (Scoring.scoreOf c, Contacts.outreachRisk c,
                 Contacts.recommendedForOutreach c))
      (Scoring.scoreAndVerifyContacts 2000
         [ {| Contacts.name := "Jane Roe"; Contacts.title := "Founder";
              Contacts.email := Some "jane@company.com";
              Contacts.linkedin := Some "https://linkedin.com/in/janeroe";
              Contacts.source := "website_team_page";
              Contacts.priority := "critical"; Contacts.verified := true;
              Contacts.note := None; Contacts.extractedAt := Some 1000;
              Contacts.qualityScore := None; Contacts.emailValidation := None;
              Contacts.recommendedForOutreach := None;
              Contacts.outreachRisk := None |} ]
         (Some "https://www.company.com"))
  = [(100, Some "low", Some true)].
Proof. vm_compute. reflexivity. Qed.

(** Every keyword of the platform table is made of letters, spaces and
    hyphens, none of which has a special meaning in a pattern: reading
    [new RegExp(keyword, 'gi')] as the literal keyword loses nothing. *)
Remark keywords_are_literal :
  forallb (fun entry =>
             forallb (Js.forallChars
                        (fun c => Js.isLowerAZ c || Regex.oneOf " -" c))
                     (snd entry))
          Analyzer.platforms = true.
Proof. vm_compute. reflexivity. Qed.

(** The matcher backtracks as the language does: the greedy domain part of
    the address pattern gives back its last label, and the lazy gap of an
    executive pattern stops at the first title. *)
Remark matcher_samples :
  option_map Regex.matched
    (Regex.search Contacts.emailPattern "write to mary@x.co.uk today")
  = Some "mary@x.co.uk"
  /\ option_map Regex.groups
       (Regex.search (Contacts.executivePattern ["ceo"; "chief executive officer"])
          "jane doe is the ceo and was ceo before")
     = Some ["jane doe"; "ceo"]
  /\ Regex.matchAll Analyzer.customerPattern
       "over 10,000 customers and 5 Users"
     = ["10,000 customers"; "5 Users"]
  /\ Contacts.domainOf "https://www.acme.com/about" = "acme.com".
Proof. repeat split; vm_compute; reflexivity. Qed.

(* ================================================================== *)
(** * Facts about the matcher *)
(* ================================================================== *)

Section MatcherFacts.
Context {A : Type}.

Lemma run_rep (a : Regex.regex) (lo : nat) (hi : option nat) (greedy : bool)
      (caps : list string) (s : string)
      (k : list string -> string -> option A) :
  Regex.run (Regex.Rep a lo hi greedy) caps s k
  = RegexSpec.repLoop (fun caps0 s0 k0 => Regex.run a caps0 s0 k0)
      lo hi greedy k (S (String.length s) + lo) 0 caps s.
Proof. reflexivity. Qed.

Lemma repLoop_cls (p : ascii -> bool) (lo : nat)
      (k : list string -> string -> option A) (s0 : string) :
  forall (fuel n : nat) (caps0 : list string),
    (String.length s0 < fuel)%nat ->
    RegexSpec.repLoop
      (fun caps1 s1 k1 => Regex.run (Regex.Cls p) caps1 s1 k1)
      lo None true k fuel n caps0 s0
    = RegexSpec.greedyCls p lo k caps0 n s0.
Proof.
  induction s0 as [|c s' IH]; intros fuel n caps0 Hfuel;
    (destruct fuel as [|fuel]; [simpl in Hfuel; lia|]).
  - simpl. destruct (Nat.ltb n lo); reflexivity.
  - simpl. destruct (p c).
    + replace (Nat.ltb (String.length s') (S (String.length s'))) with true
        by (symmetry; apply Nat.ltb_lt; lia).
      simpl. rewrite IH by (simpl in Hfuel; lia).
      destruct (Nat.ltb n lo); [|reflexivity].
      destruct (RegexSpec.greedyCls p lo k caps0 (S n) s'); reflexivity.
    + destruct (Nat.ltb n lo); reflexivity.
Qed.

Lemma run_greedy_cls (p : ascii -> bool) (lo : nat) (caps : list string)
      (s : string) (k : list string -> string -> option A) :
  Regex.run (Regex.Rep (Regex.Cls p) lo None true) caps s k
  = RegexSpec.greedyCls p lo k caps 0 s.
Proof. rewrite run_rep. apply repLoop_cls. lia. Qed.

(** A greedy class repetition succeeds exactly when the continuation
    succeeds after some admissible prefix. *)
Lemma greedyCls_some (p : ascii -> bool) (lo : nat)
      (k : list string -> string -> option A) (caps : list string)
      (s : string) :
  forall n,
    (exists x, RegexSpec.greedyCls p lo k caps n s = Some x)
    <-> exists pre rest,
          s = pre ++ rest /\ Js.forallChars p pre = true
          /\ (lo <= n + String.length pre)%nat
          /\ exists x, k caps rest = Some x.
Proof.
  induction s as [|c s' IH]; intros n.
  - simpl. split.
    + intros [x Hx]. destruct (Nat.ltb n lo) eqn:E; [discriminate|].
      apply Nat.ltb_ge in E. exists "", "". simpl. repeat split; try lia.
      exists x. exact Hx.
    + intros [pre [rest [E [Hp [Hlo [x Hx]]]]]].
      destruct pre; [|discriminate]. simpl in E. subst rest.
      simpl in Hlo. replace (Nat.ltb n lo) with false
        by (symmetry; apply Nat.ltb_ge; lia).
      exists x. exact Hx.
  - simpl. split.
    + intros [x Hx].
      assert (Hstop : (exists y, (if Nat.ltb n lo then None
                                  else k caps (String c s')) = Some y) ->
                      exists pre rest,
                        String c s' = pre ++ rest
                        /\ Js.forallChars p pre = true
                        /\ (lo <= n + String.length pre)%nat
                        /\ exists y, k caps rest = Some y).
      { intros [y Hy]. destruct (Nat.ltb n lo) eqn:E; [discriminate|].
        apply Nat.ltb_ge in E. exists "", (String c s'). simpl.
        repeat split; try lia. exists y. exact Hy. }
      destruct (p c) eqn:Pc; [|apply Hstop; exists x; exact Hx].
      destruct (RegexSpec.greedyCls p lo k caps (S n) s') as [y|] eqn:G.
      * destruct (proj1 (IH (S n)) (ex_intro _ y G))
          as [pre [rest [E [Hp [Hlo Hk]]]]].
        exists (String c pre), rest. simpl. rewrite Pc, Hp, E.
        repeat split; try lia. exact Hk.
      * apply Hstop. exists x. exact Hx.
    + intros [pre [rest [E [Hp [Hlo [x Hx]]]]]].
      destruct pre as [|c' pre].
      * simpl in E. subst rest. simpl in Hlo.
        replace (Nat.ltb n lo) with false by (symmetry; apply Nat.ltb_ge; lia).
        destruct (p c); [|exists x; exact Hx].
        destruct (RegexSpec.greedyCls p lo k caps (S n) s') as [y|];
          [exists y; reflexivity | exists x; exact Hx].
      * simpl in E. injection E as -> ->. simpl in Hp.
        apply andb_prop in Hp. destruct Hp as [Pc Hp]. rewrite Pc.
        assert (H : exists y, RegexSpec.greedyCls p lo k caps (S n)
                                (pre ++ rest) = Some y).
        { apply IH. exists pre, rest. simpl in Hlo.
          repeat split; try assumption; try lia. exists x. exact Hx. }
        destruct H as [y Hy]. rewrite Hy. exists y. reflexivity.
Qed.

End MatcherFacts.



Lemma length_pos_nonempty (s : string) :
  s <> "" <-> (1 <= String.length s)%nat.
Proof.
  destruct s; simpl; split; intros H; try lia; congruence.
Qed.

(** What is left to match after a greedy run of plain characters, then a
    given separator. *)
Lemma plain_run_then {A : Type} (sep : ascii) (rest : Regex.regex)
      (caps : list string) (s : string)
      (k : list string -> string -> option A) :
  (exists x,
      Regex.run (Regex.Seq (Regex.plus (Regex.Cls RegexSpec.plain))
                           (Regex.Seq (Regex.chr sep) rest)) caps s k = Some x)
  <-> exists a tail,
        s = a ++ String sep tail /\ a <> ""
        /\ Js.forallChars RegexSpec.plain a = true
        /\ exists x, Regex.run rest caps tail k = Some x.
Proof.
  rewrite run_seq. unfold Regex.plus. rewrite run_greedy_cls.
  rewrite greedyCls_some. split.
  - intros [a [r [E [Hp [Hlen [x Hx]]]]]].
    rewrite run_seq in Hx. unfold Regex.chr in Hx. rewrite run_cls in Hx.
    destruct r as [|d tail]; [discriminate|].
    destruct (Ascii.eqb sep d) eqn:Ed; [|discriminate].
    apply Ascii.eqb_eq in Ed. subst d.
    exists a, tail. repeat split; try assumption.
    + apply length_pos_nonempty. lia.
    + exists x. exact Hx.
  - intros [a [tail [E [Ha [Hp [x Hx]]]]]].
    exists a, (String sep tail). repeat split; try assumption.
    + apply length_pos_nonempty in Ha. lia.
    + exists x. rewrite run_seq. unfold Regex.chr. rewrite run_cls.
      rewrite Ascii.eqb_refl. exact Hx.
Qed.

Lemma plain_run_to_end {A : Type} (caps : list string) (s : string)
      (k : list string -> string -> option A) :
  (exists x,
      Regex.run (Regex.Seq (Regex.plus (Regex.Cls RegexSpec.plain)) Regex.Eos)
                caps s k = Some x)
  <-> s <> "" /\ Js.forallChars RegexSpec.plain s = true
      /\ exists x, k caps "" = Some x.
Proof.
  rewrite run_seq. unfold Regex.plus. rewrite run_greedy_cls.
  rewrite greedyCls_some. split.
  - intros [a [r [E [Hp [Hlen [x Hx]]]]]].
    destruct r; [|discriminate]. simpl in Hx.
    rewrite E. replace (a ++ "") with a
      by (clear; induction a; simpl; congruence).
    repeat split; try assumption.
    + apply length_pos_nonempty. lia.
    + exists x. exact Hx.
  - intros [Hs [Hp [x Hx]]].
    exists s, "". repeat split; try assumption.
    + clear. induction s; simpl; congruence.
    + apply length_pos_nonempty in Hs. lia.
    + exists x. exact Hx.
Qed.

Lemma emailRegex_shape (e : string) :
  Regex.testAtStart Scoring.emailRegex e = true <-> RegexSpec.emailShape e.
Proof.
  assert (T : Regex.testAtStart Scoring.emailRegex e = true
              <-> exists x,
                    Regex.run Scoring.emailRegex [] e
                              (fun caps rest => Some (caps, rest)) = Some x).
  { unfold Regex.testAtStart, Regex.exec.
    destruct (Regex.run _ _ _ _) as [x|]; split; intros H;
      try reflexivity; try discriminate.
    - exists x. reflexivity.
    - destruct H as [y Hy]. discriminate. }
  rewrite T. clear T.
  change Scoring.emailRegex
    with (Regex.Seq (Regex.plus (Regex.Cls RegexSpec.plain))
            (Regex.Seq (Regex.chr "@")
               (Regex.Seq (Regex.plus (Regex.Cls RegexSpec.plain))
                  (Regex.Seq (Regex.chr ".")
                     (Regex.Seq (Regex.plus (Regex.Cls RegexSpec.plain))
                                Regex.Eos))))).
  rewrite plain_run_then. unfold RegexSpec.emailShape. split.
  - intros [a [t1 [E1 [Ha [Pa H1]]]]].
    apply plain_run_then in H1. destruct H1 as [b [t2 [E2 [Hb [Pb H2]]]]].
    apply plain_run_to_end in H2. destruct H2 as [Hc [Pc _]].
    exists a, b, t2. subst t1 e. repeat split; assumption.
  - intros [a [b [c [E [Ha [Hb [Hc [Pa [Pb Pc]]]]]]]]].
    exists a, (b ++ "." ++ c). split; [exact E|]. split; [exact Ha|].
    split; [exact Pa|].
    apply plain_run_then. exists b, c. split; [reflexivity|].
    split; [exact Hb|]. split; [exact Pb|].
    apply plain_run_to_end. split; [exact Hc|]. split; [exact Pc|].
    eexists. reflexivity.
Qed.

(* ================================================================== *)
(** * Further properties: the contact quality scorer *)
(* ================================================================== *)

(** X1.  [validateEmailFormat] accepts exactly the addresses of the form
    [local@label.rest] in which the three parts are non-empty and hold
    neither white space nor a second [@]; null and the empty string are
    rejected. *)
Theorem valid_email_iff_shape :
  forall email : option string,
    Scoring.validateEmailFormat email = true
    <-> exists e, email = Some e /\ RegexSpec.emailShape e.
Proof.
  intros email. rewrite validateEmailFormat_spec.
  split; intros [e [E H]]; exists e; (split; [exact E|]);
    apply emailRegex_shape; exact H.
Qed.

Section QualityFacts.
Import Contacts Scoring.

Lemma titlePoints_range (r : Z) : 5 <= titlePoints r <= 40.
Proof.
  unfold titlePoints.
  repeat match goal with |- context [if ?b then _ else _] => destruct b end;
    lia.
Qed.

Lemma emailPoints_range (c : Contact) : 0 <= emailPoints c <= 25.
Proof.
  unfold emailPoints.
  repeat match goal with |- context [if ?b then _ else _] => destruct b end;
    lia.
Qed.

Lemma sourcePoints_range (c : Contact) : 5 <= sourcePoints c <= 20.
Proof.
  unfold sourcePoints.
  repeat match goal with |- context [if ?b then _ else _] => destruct b end;
    lia.
Qed.

Lemma linkedinPoints_range (c : Contact) : 0 <= linkedinPoints c <= 10.
Proof. unfold linkedinPoints. destruct (Js.truthy _); lia. Qed.

Lemma recencyPoints_range (now : Z) (c : Contact) :
  0 <= recencyPoints now c <= 5.
Proof.
  unfold recencyPoints. destruct (extractedAt c); [|lia].
  repeat match goal with |- context [if ?b then _ else _] => destruct b end;
    lia.
Qed.

(** On a score of 0..100 the percentage computed on binary64 is the score. *)
Lemma quality_percent (s : Z) :
  0 <= s <= 100 -> JsNum.roundScaled s 100 100 = s.
Proof.
  intros Hs. pose proof quality_percentage_is_score as T.
  rewrite forallb_forall in T. specialize (T (Z.to_nat s)).
  rewrite Z2Nat.id in T by lia.
  apply Z.eqb_eq, T, in_seq. lia.
Qed.

End QualityFacts.

(** X2.  A contact's quality score is the sum of its five awards (title at
    most 40, address at most 25, source at most 20, LinkedIn at most 10,
    recency at most 5); it lies in 10..100, so the cap at 100 never cuts
    anything off, and the percentage equals the score. *)
Theorem quality_score_is_sum_in_range :
  forall (now : Z) (c : Contacts.Contact),
    Contacts.score (Scoring.calculateContactQualityScore now c)
    = Scoring.titlePoints (Contacts.calculateContactPriorityScore
                             (Contacts.title c))
      + Scoring.emailPoints c + Scoring.sourcePoints c
      + Scoring.linkedinPoints c + Scoring.recencyPoints now c
    /\ 10 <= Contacts.score (Scoring.calculateContactQualityScore now c) <= 100
    /\ Contacts.percentage (Scoring.calculateContactQualityScore now c)
       = Contacts.score (Scoring.calculateContactQualityScore now c).
Proof.
  intros now c.
  pose proof (titlePoints_range
                (Contacts.calculateContactPriorityScore (Contacts.title c))).
  pose proof (emailPoints_range c). pose proof (sourcePoints_range c).
  pose proof (linkedinPoints_range c). pose proof (recencyPoints_range now c).
  unfold Scoring.calculateContactQualityScore.
  cbn [Contacts.score Contacts.percentage].
  rewrite Z.min_l by lia.
  split; [reflexivity|]. split; [lia|].
  apply quality_percent. lia.
Qed.

(** X3.  The entries of the score breakdown add up to the score exactly
    when the contact has no timestamp or was extracted at most a day ago:
    the breakdown books 5 for recency whenever a timestamp exists, while the
    score gets 3, 1 or 0 for an older contact. *)
Theorem breakdown_adds_up_iff_fresh :
  forall (now : Z) (c : Contacts.Contact),
    exists b,
      Contacts.breakdown (Scoring.calculateContactQualityScore now c) = Some b
      /\ (Contacts.title_priority b + Contacts.email_verification b
          + Contacts.source_quality b + Contacts.linkedin_profile b
          + Contacts.recency b
          = Contacts.score (Scoring.calculateContactQualityScore now c)
          <-> match Contacts.extractedAt c with
              | Some t => now - t <= Scoring.msPerDay
              | None => True
              end).
Proof.
  intros now c.
  destruct (quality_score_is_sum_in_range now c) as [E _]. rewrite E.
  pose proof (titlePoints_range
                (Contacts.calculateContactPriorityScore (Contacts.title c))).
  unfold Scoring.calculateContactQualityScore.
  cbn [Contacts.breakdown]. eexists. split; [reflexivity|].
  cbn [Contacts.title_priority Contacts.email_verification
       Contacts.source_quality Contacts.linkedin_profile Contacts.recency].
  rewrite Z.min_r by lia.
  unfold Scoring.recencyPoints, Scoring.msPerDay.
  destruct (Contacts.extractedAt c) as [t|]; [|split; [trivial | lia]].
  destruct (now - t <=? 1 * (1000 * 60 * 60 * 24)) eqn:E1.
  - apply Z.leb_le in E1. split; intros; lia.
  - apply Z.leb_gt in E1.
    repeat match goal with |- context [if ?b then _ else _] => destruct b end;
      split; intros; lia.
Qed.

(** X4.  The deliverability risk is one of high, medium and low, and it is
    high exactly when the address fails the format check; hence a contact
    that comes out recommended for outreach is never rated high risk. *)
Theorem high_risk_iff_invalid_format :
  forall (now : Z) (companyWebsite : option string) (c : Contacts.Contact),
    (Contacts.risk
       (Scoring.estimateEmailDeliverability (Contacts.email c) companyWebsite)
     = "high"
     <-> Scoring.validateEmailFormat (Contacts.email c) = false)
    /\ In (Contacts.risk
             (Scoring.estimateEmailDeliverability (Contacts.email c)
                companyWebsite))
          ["high"; "medium"; "low"]
    /\ (Contacts.recommendedForOutreach
          (Scoring.scoreContact now companyWebsite c) = Some true ->
        Contacts.outreachRisk (Scoring.scoreContact now companyWebsite c)
        <> Some "high").
Proof.
  intros now companyWebsite c.
  assert (H : (Contacts.risk
                 (Scoring.estimateEmailDeliverability (Contacts.email c)
                    companyWebsite) = "high"
               <-> Scoring.validateEmailFormat (Contacts.email c) = false)
              /\ In (Contacts.risk
                       (Scoring.estimateEmailDeliverability (Contacts.email c)
                          companyWebsite))
                    ["high"; "medium"; "low"]).
  { unfold Scoring.estimateEmailDeliverability.
    destruct (Js.orNull (Contacts.email c)) as [e|] eqn:O.
    - destruct (Scoring.validateEmailFormat (Contacts.email c)) eqn:V; simpl.
      + repeat match goal with
               | |- context [if ?b then _ else _] => destruct b
               end; simpl; split; auto; split; intros; discriminate.
      + split; auto. split; reflexivity.
    - assert (V : Scoring.validateEmailFormat (Contacts.email c) = false)
        by (unfold Scoring.validateEmailFormat; rewrite O; reflexivity).
      simpl. split; auto. split; auto. }
  destruct H as [H1 H2]. split; [exact H1|]. split; [exact H2|].
  unfold Scoring.scoreContact.
  cbn [Contacts.recommendedForOutreach Contacts.outreachRisk].
  intros R. injection R as R. apply andb_prop in R. destruct R as [_ V].
  intros E. injection E as E. apply H1 in E. congruence.
Qed.

(* ================================================================== *)
(** * Further properties: ranking and extraction of contacts *)
(* ================================================================== *)

Lemma In_firstn {A : Type} (n : nat) (l : list A) (x : A) :
  In x (firstn n l) -> In x l.
Proof.
  revert n. induction l as [|y l IH]; intros [|n]; simpl; try tauto.
  intros [E|H]; [left; exact E | right; eapply IH; exact H].
Qed.

Lemma sorted_across {A : Type} (R : A -> A -> Prop) (l1 l2 : list A) :
  StronglySorted R (l1 ++ l2) ->
  forall x y, In x l1 -> In y l2 -> R x y.
Proof.
  induction l1 as [|a l1 IH]; simpl; intros H x y Hx Hy; [contradiction|].
  inversion H as [|? ? Hs Hall]; subst.
  destruct Hx as [<-|Hx].
  - rewrite Forall_forall in Hall. apply Hall, in_or_app. right. exact Hy.
  - eapply IH; eassumption.
Qed.

(** X5.  [prioritizeContacts] keeps [min 5 n] of the [n] contacts it is
    given, and no contact it drops has a better (lower) title rank than one
    it keeps. *)
Theorem prioritize_keeps_best_ranked :
  forall contacts : list Contacts.Contact,
    List.length (Scoring.prioritizeContacts contacts)
    = Nat.min 5 (List.length contacts)
    /\ exists dropped,
         Permutation (Scoring.prioritizeContacts contacts ++ dropped) contacts
         /\ forall kept d,
              In kept (Scoring.prioritizeContacts contacts) ->
              In d dropped -> Spec.rank kept <= Spec.rank d.
Proof.
  intros contacts. unfold Scoring.prioritizeContacts, JsArray.slice0.
  set (cmp := fun a b : Contacts.Contact => _).
  split.
  - rewrite length_firstn, sort_length. reflexivity.
  - exists (skipn 5 (JsArray.sort cmp contacts)). split.
    + rewrite firstn_skipn. apply sort_perm.
    + intros kept d Hk Hd.
      assert (S : StronglySorted (fun a b => Spec.rank a <= Spec.rank b)
                    (firstn 5 (JsArray.sort cmp contacts)
                       ++ skipn 5 (JsArray.sort cmp contacts))).
      { rewrite firstn_skipn.
        eapply StronglySorted_weaken; [| apply sort_sorted].
        - unfold cmp, Spec.rank. intros a b H. lia.
        - unfold cmp. intros a b. lia.
        - unfold cmp. intros a b c. lia. }
      exact (sorted_across _ _ _ S kept d Hk Hd).
Qed.

Section ExtractionFacts.
Import Contacts.

Lemma firstWhere_cases (p : string -> bool) (l : list string) :
  firstWhere p l = "" \/ p (firstWhere p l) = true.
Proof.
  unfold firstWhere. destruct (find p l) as [s|] eqn:E.
  - right. apply find_some in E. apply E.
  - left. reflexivity.
Qed.

(** A resolved name is empty or longer than two characters. *)
Lemma resolveName_length (el : Element) :
  resolveName el = "" \/ (2 < String.length (resolveName el))%nat.
Proof.
  unfold resolveName.
  destruct (Js.nonEmpty (nameFromSelectors el)) eqn:N.
  - right. unfold nameFromSelectors in *.
    destruct (firstWhere_cases
                (fun foundName =>
                   Js.nonEmpty foundName
                   && Nat.ltb 2 (String.length foundName)
                   && Nat.ltb (String.length foundName) 50)
                (map Js.trim (nameTexts el))) as [E|E].
    + rewrite E in N. discriminate.
    + apply andb_prop in E. destruct E as [E _].
      apply andb_prop in E. destruct E as [_ E].
      apply Nat.ltb_lt. exact E.
  - unfold nameFromText, firstWhere.
    destruct (find _ _) as [s|] eqn:F; [|left; reflexivity].
    apply find_some in F. destruct F as [Hin _].
    apply filter_In in Hin. destruct Hin as [_ Hok].
    unfold nameLineOk in Hok.
    repeat (apply andb_prop in Hok; destruct Hok as [Hok ?]).
    right. apply Nat.ltb_lt. assumption.
Qed.

Lemma priority_low_iff_empty (title : string) :
  calculateContactPriority title = "low" <-> title = "".
Proof.
  unfold calculateContactPriority. destruct title as [|c t]; simpl.
  - split; reflexivity.
  - repeat match goal with |- context [if ?b then _ else _] => destruct b end;
      split; intros; discriminate.
Qed.

End ExtractionFacts.

(** X6.  [extractContactFromElement] returns null exactly when no name
    could be resolved.  A contact it returns has the cleaned name, a title
    that is never empty ("Team Member" when none was found), the source it
    was given and the clock as timestamp; its priority is "low" exactly when
    no title was found. *)
Theorem extracted_contact_shape :
  forall (el : Contacts.Element) (source : string)
         (websiteUrl : option string),
    (Contacts.extractContactFromElement el source websiteUrl = None
     <-> Contacts.resolveName el = "")
    /\ forall c,
         Contacts.extractContactFromElement el source websiteUrl = Some c ->
         Contacts.name c = Contacts.cleanName (Contacts.resolveName el)
         /\ Js.nonEmpty (Contacts.title c) = true
         /\ Contacts.source c = source
         /\ Contacts.extractedAt c = Some (Contacts.clock el)
         /\ (Contacts.priority c = "low"
             <-> Contacts.resolveTitle el (Contacts.resolveName el) = "")
         /\ (Contacts.priority c = "low" -> Contacts.title c = "Team Member").
Proof.
  intros el source websiteUrl.
  unfold Contacts.extractContactFromElement.
  destruct (resolveName_length el) as [E|L].
  - rewrite E. simpl. split; [split; reflexivity | intros c H; discriminate].
  - assert (N : Js.nonEmpty (Contacts.resolveName el) = true)
      by (destruct (Contacts.resolveName el); [simpl in L; lia | reflexivity]).
    rewrite N. apply Nat.ltb_lt in L. rewrite L. simpl. split.
    + split; [discriminate|]. intros E. rewrite E in N. discriminate.
    + intros c [= <-].
      cbn [Contacts.name Contacts.title Contacts.source Contacts.extractedAt
           Contacts.priority].
      split; [reflexivity|]. split.
      { destruct (Js.nonEmpty (Contacts.resolveTitle el _)) eqn:T;
          [exact T | reflexivity]. }
      split; [reflexivity|]. split; [reflexivity|]. split.
      { apply priority_low_iff_empty. }
      intros P. apply priority_low_iff_empty in P. rewrite P. reflexivity.
Qed.

Section SourceFacts.
Import Contacts Scoring Finder.

Lemma text_contact_fields (now : Z) (text : string) (c : Contact) :
  In c (extractContactsFromText now text) ->
  email c = None /\ verified c = false /\ linkedin c = None
  /\ source c = "text_extraction" /\ extractedAt c = Some now.
Proof.
  unfold extractContactsFromText. intros H.
  apply in_flat_map in H. destruct H as [line [_ H]].
  apply in_flat_map in H. destruct H as [pattern [_ H]].
  destruct (Regex.search pattern line) as [f|]; [|contradiction].
  unfold textContact in H. destruct (_ && _); [|contradiction].
  destruct (normalizeTitle _); [|contradiction].
  destruct H as [<-|[]]. repeat split.
Qed.

Lemma page_contact_fields (fetch : string -> option (list MailLink))
      (websiteUrl : string) (c : Contact) :
  In c (findContactInfoFromPages fetch websiteUrl) ->
  title c = "Team Member" /\ source c = "contact_page" /\ linkedin c = None
  /\ verified c = true /\ name c = "Contact from website"
  /\ exists e, email c = Some e
               /\ Regex.testAtStart genericAddress e = false.
Proof.
  unfold findContactInfoFromPages. intros H.
  destruct (firstFetched fetch _) as [links|]; [|contradiction].
  apply in_flat_map in H. destruct H as [l [_ H]].
  unfold contactOfLink in H.
  destruct (Regex.testAtStart genericAddress _) eqn:G; [contradiction|].
  destruct H as [<-|[]]. simpl. repeat split.
  eexists. split; [reflexivity | exact G].
Qed.

(** The contacts a fold over the members adds all come from an element. *)
Lemma addMember_from_element (websiteUrl : string) (els : list Element) :
  forall (st : list string * list Contact) (c : Contact),
    In c (snd (fold_left (addMember websiteUrl) els st)) ->
    In c (snd st)
    \/ exists el, In el els
                  /\ extractContactFromElement el "website_team_page"
                       (Some websiteUrl) = Some c.
Proof.
  induction els as [|el els IH]; intros st c H; simpl in H; [left; exact H|].
  apply IH in H. destruct H as [H|[el' [Hin E]]].
  - unfold addMember in H.
    destruct (extractContactFromElement el "website_team_page"
                (Some websiteUrl)) as [c0|] eqn:E; [|left; exact H].
    destruct (_ && _); [|left; exact H].
    simpl in H. apply in_app_or in H. destruct H as [H|[<-|[]]].
    + left. exact H.
    + right. exists el. split; [left; reflexivity | exact E].
  - right. exists el'. split; [right; exact Hin | exact E].
Qed.

(** Where a collected contact comes from. *)
Lemma collected_origin (site : Site) (websiteUrl : option string)
      (c : Contact) :
  In c (collectContacts site websiteUrl) ->
  source c = "website_team_page"
  \/ email c = None
  \/ (title c = "Team Member" /\ source c = "contact_page"
      /\ linkedin c = None).
Proof.
  unfold collectContacts.
  destruct (Js.orNull websiteUrl) as [url|]; [|contradiction].
  intros H. apply in_app_or in H. destruct H as [H|H].
  - revert H. generalize (map (fun p => baseUrlOf url ++ p)%string teamPaths).
    intros urls. induction urls as [|u urls IH]; simpl; [contradiction|].
    destruct (fetchTeam site u) as [page|]; [|exact IH].
    destruct (contactsOfPage url page) as [|c0 cs] eqn:P; [exact IH|].
    intros H. rewrite <- P in H. clear IH.
    unfold contactsOfPage in H.
    destruct (snd (fold_left (addMember url) (members page) ([], [])))
      as [|s0 ss] eqn:F.
    + right. left. apply text_contact_fields in H. apply H.
    + rewrite <- F in H. apply addMember_from_element in H.
      destruct H as [[]|[el [_ E]]].
      left. apply (extracted_contact_shape el "website_team_page" (Some url)).
      exact E.
  - right. right. apply page_contact_fields in H.
    destruct H as [T [S [L _]]]. repeat split; assumption.
Qed.

(** The awards of a contact-page contact that do not depend on its
    address or its age. *)
Lemma page_contact_points (c : Contact) :
  title c = "Team Member" -> source c = "contact_page" -> linkedin c = None ->
  titlePoints (calculateContactPriorityScore (title c)) + emailPoints c
  + sourcePoints c + linkedinPoints c
  = 20 + emailPoints c.
Proof.
  intros T S L. set (e := emailPoints c).
  unfold sourcePoints, linkedinPoints. rewrite T, S, L.
  replace (titlePoints (calculateContactPriorityScore "Team Member")) with 5
    by (vm_compute; reflexivity).
  replace (String.eqb "contact_page" "website_team_page") with false
    by (vm_compute; reflexivity).
  replace (String.eqb "contact_page" "contact_page") with true
    by (vm_compute; reflexivity).
  unfold Js.truthy. cbv iota. lia.
Qed.

End SourceFacts.

(** X7.  A contact recovered from the running text of a page has no
    address and is not verified; once scored it has at most 55 points and is
    not recommended for outreach. *)
Theorem text_contacts_never_recommended :
  forall (clock : Z) (text : string) (now : Z)
         (companyWebsite : option string),
    Forall
      (fun c =>
         Contacts.email c = None /\ Contacts.verified c = false
         /\ Scoring.scoreOf (Scoring.scoreContact now companyWebsite c) <= 55
         /\ Contacts.recommendedForOutreach
              (Scoring.scoreContact now companyWebsite c) = Some false)
      (Contacts.extractContactsFromText clock text).
Proof.
  intros clock text now companyWebsite.
  apply Forall_forall. intros c H.
  apply text_contact_fields in H. destruct H as [E [V [L [S _]]]].
  split; [exact E|]. split; [exact V|].
  pose proof (quality_score_is_sum_in_range now c) as [Q _].
  pose proof (titlePoints_range
                (Contacts.calculateContactPriorityScore (Contacts.title c))).
  pose proof (recencyPoints_range now c).
  unfold Scoring.scoreContact, Scoring.scoreOf.
  cbn [Contacts.qualityScore Contacts.recommendedForOutreach].
  rewrite Q.
  unfold Scoring.emailPoints, Scoring.sourcePoints, Scoring.linkedinPoints,
    Scoring.validateEmailFormat.
  rewrite E, L, S. simpl. split; [lia|].
  rewrite andb_false_r. reflexivity.
Qed.

(** X8.  The contacts [findContactInfoFromPages] returns are the [mailto:]
    targets of the first contact page that can be fetched, minus those that
    start with info@, hello@, contact@, support@ or sales@ (in any letter
    case).  Each is a verified "Team Member" contact; once scored it has at
    most 50 points and so is never recommended for outreach. *)
Theorem contact_page_contacts_never_recommended :
  forall (fetch : string -> option (list Contacts.MailLink))
         (websiteUrl : string) (now : Z) (companyWebsite : option string),
    Forall
      (fun c =>
         Contacts.source c = "contact_page" /\ Contacts.verified c = true
         /\ (exists e, Contacts.email c = Some e
                       /\ Regex.testAtStart Contacts.genericAddress e = false)
         /\ Scoring.scoreOf (Scoring.scoreContact now companyWebsite c) <= 50
         /\ Contacts.recommendedForOutreach
              (Scoring.scoreContact now companyWebsite c) = Some false)
      (Contacts.findContactInfoFromPages fetch websiteUrl).
Proof.
  intros fetch websiteUrl now companyWebsite.
  apply Forall_forall. intros c H.
  apply page_contact_fields in H. destruct H as [T [S [L [V [_ Hmail]]]]].
  split; [exact S|]. split; [exact V|]. split; [exact Hmail|].
  pose proof (quality_score_is_sum_in_range now c) as [Q [_ P]].
  pose proof (emailPoints_range c). pose proof (recencyPoints_range now c).
  assert (B : Contacts.score (Scoring.calculateContactQualityScore now c) <= 50).
  { rewrite Q, (page_contact_points c T S L). lia. }
  unfold Scoring.scoreContact, Scoring.scoreOf.
  cbn [Contacts.qualityScore Contacts.recommendedForOutreach].
  split; [exact B|].
  rewrite P. replace (60 <=? _) with false by (symmetry; apply Z.leb_gt; lia).
  reflexivity.
Qed.

(** X9.  Whatever the site serves, a contact that [findKeyContacts] returns
    as recommended for outreach was read off an element of a team page; a
    contact from the text fallback, from a contact page, or a placeholder
    never is. *)
Theorem recommended_only_from_team_page :
  forall (site : Finder.Site) (now : Z) (websiteUrl : option string),
    Forall
      (fun c =>
         Contacts.recommendedForOutreach c = Some true ->
         Contacts.source c = "website_team_page"
         /\ Scoring.validateEmailFormat (Contacts.email c) = true)
      (Finder.findKeyContacts site now websiteUrl).
Proof.
  intros site now websiteUrl. apply Forall_forall. intros c Hin R.
  unfold Finder.findKeyContacts in Hin.
  destruct (finishContacts_cases now websiteUrl
              (Finder.collectContacts site websiteUrl)) as [[_ E]|[_ E]];
    rewrite E in Hin.
  - destruct Hin as [<-|[<-|[]]]; discriminate R.
  - apply scored_In in Hin. destruct Hin as [c0 [Hin ->]].
    unfold Scoring.prioritizeContacts, JsArray.slice0 in Hin.
    apply In_firstn, sort_In in Hin.
    assert (V : Scoring.validateEmailFormat (Contacts.email c0) = true).
    { unfold Scoring.scoreContact in R.
      cbn [Contacts.recommendedForOutreach] in R.
      injection R as R. apply andb_prop in R. apply R. }
    split; [|exact V].
    change (Contacts.source (Scoring.scoreContact now websiteUrl c0))
      with (Contacts.source c0).
    destruct (collected_origin _ _ _ Hin) as [S|[N|[T [S L]]]].
    + exact S.
    + rewrite N in V. discriminate V.
    + exfalso.
      pose proof (quality_score_is_sum_in_range now c0) as [Q [_ P]].
      pose proof (emailPoints_range c0).
      pose proof (recencyPoints_range now c0).
      unfold Scoring.scoreContact in R.
      cbn [Contacts.recommendedForOutreach] in R.
      injection R as R. apply andb_prop in R. destruct R as [R _].
      apply Z.leb_le in R.
      change (60 <= Contacts.percentage
                      (Scoring.calculateContactQualityScore now c0)) in R.
      rewrite P, Q in R.
      rewrite (page_contact_points c0 T S L) in R. lia.
Qed.

(** X10.  [findKeyContacts] never returns an empty list, and every contact
    it returns carries the four computed fields; the dashboard server
    therefore always files a researched company under "Generate email",
    never under "Find contacts". *)
Theorem contacts_never_empty :
  forall (w : Orchestrator.World) (companyName : string)
         (website websiteUrl : option string),
    Finder.findKeyContacts (Orchestrator.site w) (Orchestrator.now w)
                           websiteUrl <> []
    /\ Forall
         (fun c =>
            Contacts.qualityScore c <> None
            /\ Contacts.emailValidation c <> None
            /\ Contacts.recommendedForOutreach c <> None
            /\ Contacts.outreachRisk c <> None)
         (Finder.findKeyContacts (Orchestrator.site w) (Orchestrator.now w)
                                 websiteUrl)
    /\ ApiServer.nextAction (Orchestrator.researchCompany w companyName website)
       = "Generate email".
Proof.
  intros w companyName website websiteUrl.
  assert (NE : forall url,
             Finder.findKeyContacts (Orchestrator.site w) (Orchestrator.now w)
                                    url <> []).
  { intros url. unfold Finder.findKeyContacts.
    destruct (finishContacts_cases (Orchestrator.now w) url
                (Finder.collectContacts (Orchestrator.site w) url))
      as [[_ E]|[N E]]; rewrite E; [discriminate | exact N]. }
  split; [apply NE|]. split.
  - apply Forall_forall. intros c Hin. unfold Finder.findKeyContacts in Hin.
    destruct (finishContacts_cases (Orchestrator.now w) websiteUrl
                (Finder.collectContacts (Orchestrator.site w) websiteUrl))
      as [[_ E]|[_ E]]; rewrite E in Hin.
    + destruct Hin as [<-|[<-|[]]]; repeat split; discriminate.
    + apply scored_In in Hin. destruct Hin as [c0 [_ ->]].
      repeat split; discriminate.
  - unfold ApiServer.nextAction, Orchestrator.researchCompany.
    cbn [Orchestrator.contacts].
    match goal with
    | |- context [Finder.findKeyContacts ?s ?n ?u] =>
        pose proof (NE u) as H;
        destruct (Finder.findKeyContacts s n u); [contradiction H|]
    end.
    reflexivity. reflexivity.
Qed.

Section DedupFacts.
Import Contacts Finder.

Lemma existsb_eqb_In (x : string) (l : list string) :
  existsb (String.eqb x) l = true <-> In x l.
Proof.
  rewrite existsb_exists. split.
  - intros [y [Hy E]]. apply String.eqb_eq in E. subst. exact Hy.
  - intros H. exists x. split; [exact H | apply String.eqb_refl].
Qed.

(** The set of seen keys is kept in step with the contacts collected. *)
Lemma addMember_keys (websiteUrl : string) (els : list Element) :
  forall st : list string * list Contact,
    map contactKey (snd st) = rev (fst st) -> NoDup (fst st) ->
    map contactKey (snd (fold_left (addMember websiteUrl) els st))
    = rev (fst (fold_left (addMember websiteUrl) els st))
    /\ NoDup (fst (fold_left (addMember websiteUrl) els st)).
Proof.
  induction els as [|el els IH]; intros st Hk Hn; simpl; [split; assumption|].
  apply IH.
  - unfold addMember.
    destruct (extractContactFromElement el "website_team_page"
                (Some websiteUrl)) as [c|]; [|exact Hk].
    destruct (_ && _); [|exact Hk].
    simpl. rewrite map_app, Hk. reflexivity.
  - unfold addMember.
    destruct (extractContactFromElement el "website_team_page"
                (Some websiteUrl)) as [c|]; [|exact Hn].
    destruct (Js.nonEmpty (name c) && Js.nonEmpty (title c)
              && negb (existsb (String.eqb (contactKey c)) (fst st))) eqn:E;
      [|exact Hn].
    simpl. constructor; [|exact Hn].
    apply andb_prop in E. destruct E as [_ E].
    intros Hin. apply existsb_eqb_In in Hin. rewrite Hin in E. discriminate.
Qed.

End DedupFacts.

(** X11.  No two structured contacts taken from one team page have the same
    lower-cased name and title; and when that list is not empty it is the
    page's result, the text fallback being used only for an empty one. *)
Theorem structured_contacts_distinct :
  forall (websiteUrl : string) (page : Finder.TeamPage),
    NoDup (map Finder.contactKey (Props.structuredContacts websiteUrl page))
    /\ (Props.structuredContacts websiteUrl page <> [] ->
        Finder.contactsOfPage websiteUrl page
        = Props.structuredContacts websiteUrl page)
    /\ (Props.structuredContacts websiteUrl page = [] ->
        Finder.contactsOfPage websiteUrl page
        = Contacts.extractContactsFromText (Finder.textClock page)
            (Js.toLowerCase (Finder.pageText page))).
Proof.
  intros websiteUrl page. unfold Props.structuredContacts.
  destruct (addMember_keys websiteUrl (Finder.members page) ([], []))
    as [Hk Hn]; [reflexivity | constructor |].
  split.
  - rewrite Hk. apply NoDup_rev. exact Hn.
  - unfold Finder.contactsOfPage.
    destruct (snd (fold_left (Finder.addMember websiteUrl)
                     (Finder.members page) ([], []))) as [|c cs].
    + split; [intros H; contradiction H; reflexivity | reflexivity].
    + split; [reflexivity | discriminate].
Qed.

(* ================================================================== *)
(** * Further properties: analysis, fit score and insights *)
(* ================================================================== *)

(** X12.  Tiers are monotone in the score: of two research results, the
    one with the higher [total_score] never has the less qualified
    recommendation. *)
Theorem tier_monotone :
  forall (w1 w2 : Orchestrator.World) (name1 name2 : string)
         (site1 site2 : option string),
    FitScorer.total_score
      (Orchestrator.scoring (Orchestrator.researchCompany w1 name1 site1))
    <= FitScorer.total_score
         (Orchestrator.scoring (Orchestrator.researchCompany w2 name2 site2)) ->
    Props.tierRank
      (Orchestrator.recommendation
         (Orchestrator.researchCompany w1 name1 site1))
    <= Props.tierRank
         (Orchestrator.recommendation
            (Orchestrator.researchCompany w2 name2 site2)).
Proof.
  intros w1 w2 name1 name2 site1 site2.
  unfold Orchestrator.researchCompany.
  cbn [Orchestrator.recommendation Orchestrator.scoring].
  set (s1 := FitScorer.total_score _). set (s2 := FitScorer.total_score _).
  intros H.
  destruct (80 <=? s1) eqn:A1, (60 <=? s1) eqn:B1, (40 <=? s1) eqn:C1,
           (80 <=? s2) eqn:A2, (60 <=? s2) eqn:B2, (40 <=? s2) eqn:C2;
    try (vm_compute; discriminate);
    repeat match goal with
           | E : (_ <=? _) = true |- _ => apply Z.leb_le in E
           | E : (_ <=? _) = false |- _ => apply Z.leb_gt in E
           end; lia.
Qed.

Lemma tier_monotone_witness :
  FitScorer.total_score
    (Orchestrator.scoring
       (Orchestrator.researchCompany Samples.silentWorld "Acme" None)) = 0
  /\ FitScorer.total_score
       (Orchestrator.scoring
          (Orchestrator.researchCompany Cases.chatterWorld "Chatter" None))
     = 69
  /\ Orchestrator.recommendation
       (Orchestrator.researchCompany Samples.silentWorld "Acme" None)
     = "NOT_QUALIFIED"
  /\ Orchestrator.recommendation
       (Orchestrator.researchCompany Cases.chatterWorld "Chatter" None)
     = "WARM_PROSPECT"
  /\ Props.tierRank
       (Orchestrator.recommendation
          (Orchestrator.researchCompany Samples.silentWorld "Acme" None))
     <= Props.tierRank
          (Orchestrator.recommendation
             (Orchestrator.researchCompany Cases.chatterWorld "Chatter"
                None)).
Proof.
  repeat (split; [vm_compute; reflexivity|]).
  apply (tier_monotone Samples.silentWorld Cases.chatterWorld
           "Acme" "Chatter" None None).
  vm_compute. discriminate.
Defined.

(** X13.  The priority line of the insights always agrees with the
    recommendation: "HIGH PRIORITY" exactly for HOT_PROSPECT, "MEDIUM
    PRIORITY" exactly for WARM_PROSPECT, and "LOW PRIORITY" for both
    COLD_PROSPECT and NOT_QUALIFIED. *)
Theorem insights_agree_with_tier :
  forall (w : Orchestrator.World) (companyName : string)
         (website : option string),
    (hd "" (Orchestrator.recommendations
              (Orchestrator.insights
                 (Orchestrator.researchCompany w companyName website)))
     = "HIGH PRIORITY: Immediate outreach recommended"
     <-> Orchestrator.recommendation
           (Orchestrator.researchCompany w companyName website)
         = "HOT_PROSPECT")
    /\ (hd "" (Orchestrator.recommendations
                 (Orchestrator.insights
                    (Orchestrator.researchCompany w companyName website)))
        = "MEDIUM PRIORITY: Research more before outreach"
        <-> Orchestrator.recommendation
              (Orchestrator.researchCompany w companyName website)
            = "WARM_PROSPECT")
    /\ (hd "" (Orchestrator.recommendations
                 (Orchestrator.insights
                    (Orchestrator.researchCompany w companyName website)))
        = "LOW PRIORITY: Consider for nurture campaign"
        <-> Orchestrator.recommendation
              (Orchestrator.researchCompany w companyName website)
            = "COLD_PROSPECT"
            \/ Orchestrator.recommendation
                 (Orchestrator.researchCompany w companyName website)
               = "NOT_QUALIFIED").
Proof.
  intros w companyName website.
  unfold Orchestrator.researchCompany, Orchestrator.generateCompanyInsights.
  cbn [Orchestrator.recommendation Orchestrator.insights
       Orchestrator.recommendations].
  set (s := FitScorer.total_score _).
  destruct (80 <=? s), (60 <=? s), (40 <=? s); simpl;
    repeat split; intros; try discriminate; try reflexivity;
    try (left; reflexivity); try (right; reflexivity);
    repeat match goal with H : _ \/ _ |- _ => destruct H end;
    discriminate.
Qed.

Section InsightFacts.
Import FitScorer.

Lemma pushIf_In (cond : bool) (tag x : string) (xs : list string) :
  In x (Analyzer.pushIf cond tag xs) <-> In x xs \/ (cond = true /\ x = tag).
Proof.
  unfold Analyzer.pushIf. destruct cond.
  - rewrite in_app_iff. simpl. intuition congruence.
  - intuition discriminate.
Qed.

Lemma technical_fit_low_iff (a : Analyzer.Analysis) :
  Z.min (techScore a) 20 < 10
  <-> flag (Analyzer.content_analysis a) Analyzer.has_api = false
      /\ flag (Analyzer.content_analysis a) Analyzer.has_developers = false.
Proof.
  unfold techScore.
  destruct (flag (Analyzer.content_analysis a) Analyzer.has_api),
           (flag (Analyzer.content_analysis a) Analyzer.has_developers),
           (flag (Analyzer.content_analysis a) Analyzer.has_enterprise);
    simpl; split; intros; try lia; try (split; reflexivity);
    destruct H; discriminate.
Qed.

End InsightFacts.

(** X14.  The concern "Limited technical integration capabilities" is
    raised exactly when the analysis shows neither an API nor a developer
    signal (an enterprise signal alone does not lift it), and the concern
    "No clear funding/growth indicators" exactly when no funding language
    was found. *)
Theorem concerns_iff_signals_missing :
  forall a : Analyzer.Analysis,
    (In "Limited technical integration capabilities"
        (Orchestrator.concerns
           (Orchestrator.generateCompanyInsights a
              (FitScorer.scoreCompanyFit a)))
     <-> FitScorer.flag (Analyzer.content_analysis a) Analyzer.has_api = false
         /\ FitScorer.flag (Analyzer.content_analysis a)
                           Analyzer.has_developers = false)
    /\ (In "No clear funding/growth indicators"
           (Orchestrator.concerns
              (Orchestrator.generateCompanyInsights a
                 (FitScorer.scoreCompanyFit a)))
        <-> FitScorer.flag (Analyzer.business_indicators a)
                           Analyzer.has_funding = false).
Proof.
  intros a.
  unfold Orchestrator.generateCompanyInsights, FitScorer.scoreCompanyFit.
  cbn [Orchestrator.concerns FitScorer.breakdown FitScorer.technical_fit].
  rewrite !pushIf_In. simpl In. split.
  - rewrite <- technical_fit_low_iff. rewrite Z.ltb_lt.
    split.
    + intros [[[]|[H _]]|[_ H]]; [exact H | discriminate H].
    + intros H. left. right. split; [exact H | reflexivity].
  - split.
    + intros [[[]|[_ H]]|[H _]]; [discriminate H|].
      apply negb_true_iff in H. exact H.
    + intros H. right. split; [rewrite H; reflexivity | reflexivity].
Qed.

(** The total is at least the award for the platform type. *)
Lemma fit_total_at_least_type (a : Analyzer.Analysis) :
  match Analyzer.platform_type a with
  | Some p => FitScorer.typeScore p
  | None => 0
  end <= FitScorer.total_score (FitScorer.scoreCompanyFit a).
Proof.
  pose proof (recognitionBoost_bounds a). pose proof (businessScore_nonneg a).
  pose proof (techScore_nonneg a). pose proof (pricingScore_nonneg a).
  pose proof (growthScore_bounds a).
  unfold FitScorer.scoreCompanyFit. cbn [FitScorer.total_score].
  destruct (Analyzer.platform_type a); simpl option_map; cbv iota; lia.
Qed.

(** X15.  The fit score of a website analysis is 0 exactly when the
    analysis is the empty object, that is when there was no URL or the page
    could not be fetched; an analysed page always scores at least 5, because
    its platform type, even "unknown", earns points. *)
Theorem score_zero_iff_no_analysis :
  forall (fetch : string -> option Analyzer.Page)
         (websiteUrl : option string),
    (FitScorer.total_score
       (FitScorer.scoreCompanyFit
          (Analyzer.analyzeCompanyWebsite fetch websiteUrl)) = 0
     <-> Analyzer.analyzeCompanyWebsite fetch websiteUrl
         = Analyzer.emptyAnalysis)
    /\ (Analyzer.analyzeCompanyWebsite fetch websiteUrl
        <> Analyzer.emptyAnalysis ->
        5 <= FitScorer.total_score
               (FitScorer.scoreCompanyFit
                  (Analyzer.analyzeCompanyWebsite fetch websiteUrl))).
Proof.
  intros fetch websiteUrl.
  assert (Hempty : FitScorer.total_score
                     (FitScorer.scoreCompanyFit Analyzer.emptyAnalysis) = 0)
    by (vm_compute; reflexivity).
  assert (Hpage : forall p,
             5 <= FitScorer.total_score
                    (FitScorer.scoreCompanyFit (Analyzer.analyzePage p))
             /\ Analyzer.analyzePage p <> Analyzer.emptyAnalysis).
  { intros p. split; [|discriminate].
    pose proof (fit_total_at_least_type (Analyzer.analyzePage p)) as H.
    cbn [Analyzer.analyzePage Analyzer.platform_type] in H.
    match type of H with
    | context [FitScorer.typeScore ?x] => pose proof (typeScore_bounds x)
    end.
    lia. }
  unfold Analyzer.analyzeCompanyWebsite.
  destruct (Js.orNull websiteUrl) as [url|].
  - destruct (fetch url) as [p|].
    + destruct (Hpage p) as [H5 Hne]. split; [|intros _; exact H5].
      split; intros H; [lia | contradiction].
    + split; [split; intros; [reflexivity | exact Hempty]|].
      intros H. contradiction H. reflexivity.
  - split; [split; intros; [reflexivity | exact Hempty]|].
    intros H. contradiction H. reflexivity.
Qed.

(** X16.  When no website is supplied and the resolver finds none,
    [researchCompany] still returns a result: an empty analysis, a total
    score of 0 (0 percent), the recommendation NOT_QUALIFIED, the low
    priority advice, and the two research-needed placeholder contacts. *)
Theorem research_without_website :
  forall (w : Orchestrator.World) (companyName : string)
         (website : option string),
    Js.orNull website = None ->
    Resolver.findCompanyWebsite (Orchestrator.get w) companyName = None ->
    Orchestrator.website
      (Orchestrator.company
         (Orchestrator.researchCompany w companyName website)) = None
    /\ Orchestrator.analysis
         (Orchestrator.company
            (Orchestrator.researchCompany w companyName website))
       = Analyzer.emptyAnalysis
    /\ FitScorer.total_score
         (Orchestrator.scoring
            (Orchestrator.researchCompany w companyName website)) = 0
    /\ FitScorer.percentage
         (Orchestrator.scoring
            (Orchestrator.researchCompany w companyName website)) = 0
    /\ Orchestrator.recommendation
         (Orchestrator.researchCompany w companyName website)
       = "NOT_QUALIFIED"
    /\ Orchestrator.recommendations
         (Orchestrator.insights
            (Orchestrator.researchCompany w companyName website))
       = ["LOW PRIORITY: Consider for nurture campaign"]
    /\ Orchestrator.contacts
         (Orchestrator.researchCompany w companyName website)
       = [Finder.ceoPlaceholder; Finder.ctoPlaceholder].
Proof.
  intros w companyName website Hsite Hfind.
  unfold Orchestrator.researchCompany. rewrite Hsite, Hfind.
  repeat split; vm_compute; reflexivity.
Qed.

Lemma research_without_website_witness :
  Js.orNull None = None
  /\ Resolver.findCompanyWebsite
       (Orchestrator.get Samples.silentWorld) "Acme" = None
  /\ Orchestrator.contacts
       (Orchestrator.researchCompany Samples.silentWorld "Acme" None)
     = [Finder.ceoPlaceholder; Finder.ctoPlaceholder].
Proof.
  split; [reflexivity|]. split; [reflexivity|].
  apply (research_without_website Samples.silentWorld "Acme" None);
    reflexivity.
Defined.

(** X17.  In the business indicators of a page every growth tag mirrors its
    flag: "funding", "hiring", "press" and "case_studies" are in the list
    exactly when [has_funding], [has_careers], [has_press] and
    [has_case_studies] are set.  The list has no duplicates, so its length
    is the number of flags set (at most 4); [has_team_page] is never set and
    a customer count is recorded exactly when [has_customers] is. *)
Theorem growth_tags_mirror_flags :
  forall (content : string) (p : Analyzer.Page),
    (In "funding"
        (Analyzer.growth_indicators
           (Analyzer.extractBusinessIndicators content p))
     <-> Analyzer.has_funding
           (Analyzer.extractBusinessIndicators content p) = true)
    /\ (In "hiring"
           (Analyzer.growth_indicators
              (Analyzer.extractBusinessIndicators content p))
        <-> Analyzer.has_careers
              (Analyzer.extractBusinessIndicators content p) = true)
    /\ (In "press"
           (Analyzer.growth_indicators
              (Analyzer.extractBusinessIndicators content p))
        <-> Analyzer.has_press
              (Analyzer.extractBusinessIndicators content p) = true)
    /\ (In "case_studies"
           (Analyzer.growth_indicators
              (Analyzer.extractBusinessIndicators content p))
        <-> Analyzer.has_case_studies
              (Analyzer.extractBusinessIndicators content p) = true)
    /\ NoDup (Analyzer.growth_indicators
                (Analyzer.extractBusinessIndicators content p))
    /\ Z.of_nat (List.length
                   (Analyzer.growth_indicators
                      (Analyzer.extractBusinessIndicators content p)))
       = Props.b2z (Analyzer.has_funding
                      (Analyzer.extractBusinessIndicators content p))
         + Props.b2z (Analyzer.has_careers
                        (Analyzer.extractBusinessIndicators content p))
         + Props.b2z (Analyzer.has_press
                        (Analyzer.extractBusinessIndicators content p))
         + Props.b2z (Analyzer.has_case_studies
                        (Analyzer.extractBusinessIndicators content p))
    /\ Analyzer.has_team_page
         (Analyzer.extractBusinessIndicators content p) = false
    /\ (Analyzer.customer_count
          (Analyzer.extractBusinessIndicators content p) <> None
        <-> Analyzer.has_customers
              (Analyzer.extractBusinessIndicators content p) = true).
Proof.
  intros content p. unfold Analyzer.extractBusinessIndicators.
  cbn [Analyzer.growth_indicators Analyzer.has_funding Analyzer.has_careers
       Analyzer.has_press Analyzer.has_case_studies Analyzer.has_team_page
       Analyzer.customer_count Analyzer.has_customers].
  assert (Hlist :
            forall f c pr cs,
              (In "funding" (Analyzer.pushIf cs "case_studies"
                 (Analyzer.pushIf pr "press"
                    (Analyzer.pushIf c "hiring"
                       (Analyzer.pushIf f "funding" [])))) <-> f = true)
              /\ (In "hiring" (Analyzer.pushIf cs "case_studies"
                    (Analyzer.pushIf pr "press"
                       (Analyzer.pushIf c "hiring"
                          (Analyzer.pushIf f "funding" [])))) <-> c = true)
              /\ (In "press" (Analyzer.pushIf cs "case_studies"
                    (Analyzer.pushIf pr "press"
                       (Analyzer.pushIf c "hiring"
                          (Analyzer.pushIf f "funding" [])))) <-> pr = true)
              /\ (In "case_studies" (Analyzer.pushIf cs "case_studies"
                    (Analyzer.pushIf pr "press"
                       (Analyzer.pushIf c "hiring"
                          (Analyzer.pushIf f "funding" [])))) <-> cs = true)
              /\ NoDup (Analyzer.pushIf cs "case_studies"
                    (Analyzer.pushIf pr "press"
                       (Analyzer.pushIf c "hiring"
                          (Analyzer.pushIf f "funding" []))))
              /\ Z.of_nat (List.length (Analyzer.pushIf cs "case_studies"
                    (Analyzer.pushIf pr "press"
                       (Analyzer.pushIf c "hiring"
                          (Analyzer.pushIf f "funding" [])))))
                 = Props.b2z f + Props.b2z c + Props.b2z pr + Props.b2z cs).
  { intros [] [] [] []; simpl;
      repeat split; intros;
      repeat match goal with
             | H : _ \/ _ |- _ => destruct H
             | H : False |- _ => contradiction
             | H : _ = _ |- _ => discriminate H
             end;
      try reflexivity; try tauto;
      repeat constructor; simpl; intuition discriminate. }
  match goal with
  | |- context [Analyzer.pushIf ?cs "case_studies"
                  (Analyzer.pushIf ?pr "press"
                     (Analyzer.pushIf ?c "hiring"
                        (Analyzer.pushIf ?f "funding" [])))] =>
      destruct (Hlist f c pr cs) as [A [B [C [D [E F]]]]]
  end.
  split; [exact A|]. split; [exact B|]. split; [exact C|]. split; [exact D|].
  split; [exact E|]. split; [exact F|]. split; [reflexivity|].
  destruct (Regex.matchAll Analyzer.customerPattern content); simpl;
    split; intros; try discriminate; try reflexivity.
  contradiction H. reflexivity.
Qed.

(** X18.  A page that mentions per-user (or per-seat) prices gets the
    pricing model "per_user" even when it also mentions monthly prices;
    "subscription" is recorded only for monthly prices without per-user
    ones.  The fit scorer therefore awards its 5 subscription points only
    in that case: the pricing score of an analysed page is 10 for a pricing
    link, plus 5 for monthly-but-not-per-user, plus 10 for enterprise
    pricing, capped later at 15. *)
Theorem per_user_overrides_subscription :
  forall p : Analyzer.Page,
    let content := Js.toLowerCase (Analyzer.bodyText p) in
    let monthly := Js.includes content "per month"
                   || Js.includes content "monthly" in
    let perUser := Js.includes content "per user"
                   || Js.includes content "per seat" in
    let enterprise := Js.includes content "enterprise"
                      && Js.includes content "contact" in
    (Analyzer.pricing_model (Analyzer.extractPricingInfo content p)
     = Some "per_user" <-> perUser = true)
    /\ (Analyzer.pricing_model (Analyzer.extractPricingInfo content p)
        = Some "subscription" <-> monthly = true /\ perUser = false)
    /\ (In "monthly_subscription"
           (Analyzer.price_indicators (Analyzer.extractPricingInfo content p))
        <-> monthly = true)
    /\ FitScorer.pricingScore (Analyzer.analyzePage p)
       = FitScorer.pts (Nat.ltb 0 (Analyzer.pricingLinks p)) 10
         + FitScorer.pts (monthly && negb perUser) 5
         + FitScorer.pts enterprise 10.
Proof.
  intros p content monthly perUser enterprise.
  unfold FitScorer.pricingScore, Analyzer.analyzePage.
  cbn [Analyzer.pricing_info FitScorer.flag].
  unfold Analyzer.extractPricingInfo.
  cbn [Analyzer.pricing_model Analyzer.price_indicators Analyzer.has_pricing].
  fold content. fold monthly. fold perUser. fold enterprise.
  destruct monthly, perUser, enterprise,
    (Nat.ltb 0 (Analyzer.pricingLinks p)); simpl;
    repeat split; intros;
    repeat match goal with
           | H : _ /\ _ |- _ => destruct H
           | H : _ \/ _ |- _ => destruct H
           | H : False |- _ => contradiction
           end;
    try discriminate; try reflexivity; tauto.
Qed.

(* ================================================================== *)
(** * Further properties: the resolver and the classifier *)
(* ================================================================== *)

Section ReplaceFacts.

Lemma consumed_one (c : ascii) (s : string) :
  Regex.consumed (String c s) s = 1%nat.
Proof.
  unfold Regex.consumed.
  change (String.length (String c s)) with (S (String.length s)). lia.
Qed.

(** Replacing a one-character class everywhere is a substitution of
    characters. *)
Lemma replaceAll_cls (q : ascii -> bool) (rep s : string) :
  Regex.replaceAll (Regex.Cls q) rep s = RegexSpec.substChars q rep s.
Proof.
  unfold Regex.replaceAll. induction s as [|c s IH]; [reflexivity|].
  change (Regex.replaceAllFrom (Regex.Cls q) rep (String c s) 0)
    with (match Regex.exec (Regex.Cls q) (String c s) with
          | Some (_, rest) =>
              let len := Regex.consumed (String c s) rest in
              rep ++ (if Nat.eqb len 0
                      then String c (Regex.replaceAllFrom (Regex.Cls q) rep s 0)
                      else Regex.replaceAllFrom (Regex.Cls q) rep s (len - 1))
          | None => String c (Regex.replaceAllFrom (Regex.Cls q) rep s 0)
          end).
  unfold Regex.exec. rewrite run_cls. simpl RegexSpec.substChars.
  destruct (q c).
  - cbv zeta. rewrite consumed_one. simpl. rewrite IH. reflexivity.
  - rewrite IH. reflexivity.
Qed.

Lemma substChars_empty (q : ascii -> bool) (s : string) :
  RegexSpec.substChars q "" s = Js.filterChars (fun c => negb (q c)) s.
Proof.
  induction s as [|c s IH]; simpl; [reflexivity|].
  rewrite IH. destruct (q c); reflexivity.
Qed.

(** A run of white space does not start at a character that is not one. *)
Lemma no_space_run_here (s : string) :
  match s with
  | String c _ => Js.isSpace c = false
  | EmptyString => True
  end ->
  Regex.exec (Regex.plus (Regex.Cls Js.isSpace)) s = None.
Proof.
  intros H. unfold Regex.exec, Regex.plus. rewrite run_greedy_cls.
  destruct s as [|c s]; simpl; [reflexivity|]. rewrite H. reflexivity.
Qed.

Lemma replace_spaces_noop (s : string) :
  Js.forallChars (fun c => negb (Js.isSpace c)) s = true ->
  Regex.replaceAll (Regex.plus (Regex.Cls Js.isSpace)) "" s = s.
Proof.
  unfold Regex.replaceAll. induction s as [|c s IH]; intros H.
  - change (Regex.replaceAllFrom (Regex.plus (Regex.Cls Js.isSpace)) "" "" 0)
      with (match Regex.exec (Regex.plus (Regex.Cls Js.isSpace)) "" with
            | Some _ => "" ++ ""
            | None => ""
            end).
    destruct (Regex.exec _ _); reflexivity.
  - simpl in H. apply andb_prop in H. destruct H as [Hc Hs].
    apply negb_true_iff in Hc.
    change (Regex.replaceAllFrom (Regex.plus (Regex.Cls Js.isSpace)) ""
              (String c s) 0)
      with (match Regex.exec (Regex.plus (Regex.Cls Js.isSpace)) (String c s)
            with
            | Some (_, rest) =>
                let len := Regex.consumed (String c s) rest in
                "" ++ (if Nat.eqb len 0
                       then String c
                              (Regex.replaceAllFrom
                                 (Regex.plus (Regex.Cls Js.isSpace)) "" s 0)
                       else Regex.replaceAllFrom
                              (Regex.plus (Regex.Cls Js.isSpace)) "" s
                              (len - 1))
            | None =>
                String c
                  (Regex.replaceAllFrom
                     (Regex.plus (Regex.Cls Js.isSpace)) "" s 0)
            end).
    rewrite (no_space_run_here (String c s)) by exact Hc.
    rewrite IH by exact Hs. reflexivity.
Qed.

Lemma tokenChar_not_space (c : ascii) :
  Props.tokenChar c = true -> Js.isSpace c = false.
Proof.
  destruct c as [[] [] [] [] [] [] [] []]; vm_compute; congruence.
Qed.

Lemma filterChars_forall (p : ascii -> bool) (s : string) :
  Js.forallChars p (Js.filterChars p s) = true.
Proof.
  induction s as [|c s IH]; simpl; [reflexivity|].
  destruct (p c) eqn:E; simpl; [rewrite E|]; exact IH.
Qed.

Lemma forallChars_impl (p q : ascii -> bool) (s : string) :
  (forall c, p c = true -> q c = true) ->
  Js.forallChars p s = true -> Js.forallChars q s = true.
Proof.
  intros H. induction s as [|c s IH]; simpl; [reflexivity|].
  intros E. apply andb_prop in E. destruct E as [Ec Es].
  rewrite (H c Ec), (IH Es). reflexivity.
Qed.

End ReplaceFacts.

(** X19.  The domain token the resolver builds from a company name is the
    lower-cased name with every character but [a-z] and [0-9] removed, so
    the four candidate URLs hold nothing else between their fixed prefix
    and suffix; the second replacement in the source, of white space, never
    changes anything. *)
Theorem domain_token_is_alphanumeric :
  forall companyName : string,
    Resolver.domainName companyName
    = Js.filterChars Props.tokenChar (Js.toLowerCase companyName)
    /\ Js.forallChars Props.tokenChar (Resolver.domainName companyName) = true.
Proof.
  intros companyName.
  assert (E : Resolver.domainName companyName
              = Js.filterChars Props.tokenChar (Js.toLowerCase companyName)).
  { unfold Resolver.domainName.
    rewrite replaceAll_cls, substChars_empty.
    assert (F : forall s,
               Js.filterChars
                 (fun c => negb (negb (Js.isLowerAZ c || Js.isDigit c))) s
               = Js.filterChars Props.tokenChar s).
    { induction s as [|c s IH]; simpl; [reflexivity|].
      rewrite negb_involutive, IH. reflexivity. }
    rewrite F. apply replace_spaces_noop.
    eapply forallChars_impl; [|apply filterChars_forall].
    intros c H. rewrite (tokenChar_not_space c H). reflexivity. }
  split; [exact E|]. rewrite E. apply filterChars_forall.
Qed.

Section CaseFacts.


Lemma upper_of_lower (c : ascii) :
  Js.toUpperChar (Js.toLowerChar c) = Js.toUpperChar c.
Proof. destruct c as [[] [] [] [] [] [] [] []]; vm_compute; reflexivity. Qed.

Lemma istartsWith_lower (kw s : string) :
  RegexSpec.istartsWith kw (Js.toLowerCase s) = RegexSpec.istartsWith kw s.
Proof.
  revert s. induction kw as [|c kw IH]; intros s; [reflexivity|].
  destruct s as [|d s]; [reflexivity|]. simpl.
  rewrite upper_of_lower, IH. reflexivity.
Qed.

Lemma length_lower (s : string) :
  String.length (Js.toLowerCase s) = String.length s.
Proof. unfold Js.toLowerCase. induction s; simpl; congruence. Qed.

Lemma drop_lower (n : nat) (s : string) :
  Js.drop n (Js.toLowerCase s) = Js.toLowerCase (Js.drop n s).
Proof.
  revert s. induction n as [|n IH]; intros s; [reflexivity|].
  destruct s as [|c s]; [reflexivity|]. simpl. apply IH.
Qed.


(** The matches of a keyword, counted from any point of the scan, do not
    change in number when the text is lower-cased. *)
Lemma matchAll_lower (kw : string) (s : string) :
  forall skip,
    List.length (Regex.matchAllFrom (Regex.ilit kw) (Js.toLowerCase s) skip)
    = List.length (Regex.matchAllFrom (Regex.ilit kw) s skip).
Proof.
  assert (X : forall t,
             Regex.exec (Regex.ilit kw) t
             = if RegexSpec.istartsWith kw t
               then Some ([], Js.drop (String.length kw) t) else None).
  { intros t. unfold Regex.exec. apply run_ilit. }
  induction s as [|c s IH]; intros skip.
  - destruct skip; [|reflexivity].
    change (Js.toLowerCase "") with "".
    reflexivity.
  - destruct skip as [|skip].
    + change (Js.toLowerCase (String c s))
        with (String (Js.toLowerChar c) (Js.toLowerCase s)).
      change (Regex.matchAllFrom (Regex.ilit kw)
                (String (Js.toLowerChar c) (Js.toLowerCase s)) 0)
        with (match Regex.exec (Regex.ilit kw)
                      (String (Js.toLowerChar c) (Js.toLowerCase s)) with
              | Some (_, rest) =>
                  Js.take (Regex.consumed
                             (String (Js.toLowerChar c) (Js.toLowerCase s))
                             rest)
                          (String (Js.toLowerChar c) (Js.toLowerCase s))
                  :: Regex.matchAllFrom (Regex.ilit kw) (Js.toLowerCase s)
                       (Regex.consumed
                          (String (Js.toLowerChar c) (Js.toLowerCase s)) rest
                        - 1)
              | None => Regex.matchAllFrom (Regex.ilit kw) (Js.toLowerCase s) 0
              end).
      change (Regex.matchAllFrom (Regex.ilit kw) (String c s) 0)
        with (match Regex.exec (Regex.ilit kw) (String c s) with
              | Some (_, rest) =>
                  Js.take (Regex.consumed (String c s) rest) (String c s)
                  :: Regex.matchAllFrom (Regex.ilit kw) s
                       (Regex.consumed (String c s) rest - 1)
              | None => Regex.matchAllFrom (Regex.ilit kw) s 0
              end).
      rewrite !X.
      change (String (Js.toLowerChar c) (Js.toLowerCase s))
        with (Js.toLowerCase (String c s)).
      rewrite istartsWith_lower.
      destruct (RegexSpec.istartsWith kw (String c s)); [|apply IH].
      simpl List.length. f_equal.
      unfold Regex.consumed.
      rewrite drop_lower, !length_lower. apply IH.
    + apply IH.
Qed.

Lemma keywordMatches_lower (text keyword : string) :
  Analyzer.keywordMatches (Js.toLowerCase text) keyword
  = Analyzer.keywordMatches text keyword.
Proof.
  unfold Analyzer.keywordMatches, Regex.matchAll.
  rewrite matchAll_lower. reflexivity.
Qed.

Lemma categoryScore_lower (text : string) (keywords : list string) :
  Analyzer.categoryScore (Js.toLowerCase text) keywords
  = Analyzer.categoryScore text keywords.
Proof.
  unfold Analyzer.categoryScore. generalize 0.
  induction keywords as [|kw kws IH]; intros acc; simpl; [reflexivity|].
  rewrite keywordMatches_lower. apply IH.
Qed.

Lemma lower_app (a b : string) :
  Js.toLowerCase (a ++ b) = Js.toLowerCase a ++ Js.toLowerCase b.
Proof. unfold Js.toLowerCase. induction a; simpl; congruence. Qed.

End CaseFacts.

(** X20.  The platform classification does not depend on letter case: for a
    page of 7-bit text, lower-casing the body, the title and the
    description changes neither the detected type nor the confidence. *)
Theorem classification_ignores_case :
  forall content title description : string,
    Props.asciiText content = true ->
    Props.asciiText title = true ->
    Props.asciiText description = true ->
    Analyzer.detectPlatformType (Js.toLowerCase content)
      (Js.toLowerCase title) (Js.toLowerCase description)
    = Analyzer.detectPlatformType content title description.
Proof.
  intros content title description _ _ _.
  unfold Analyzer.detectPlatformType.
  assert (T : Analyzer.allTextOf (Js.toLowerCase content)
                (Js.toLowerCase title) (Js.toLowerCase description)
              = Js.toLowerCase (Analyzer.allTextOf content title description)).
  { unfold Analyzer.allTextOf. rewrite !lower_app. reflexivity. }
  rewrite T.
  assert (F : forall l st,
             fold_left (Analyzer.detectStep
                          (Js.toLowerCase
                             (Analyzer.allTextOf content title description)))
                       l st
             = fold_left (Analyzer.detectStep
                            (Analyzer.allTextOf content title description))
                         l st).
  { induction l as [|e l IH]; intros st; simpl; [reflexivity|].
    rewrite IH. unfold Analyzer.detectStep.
    rewrite categoryScore_lower. reflexivity. }
  rewrite F. reflexivity.
Qed.

Lemma classification_ignores_case_witness :
  Analyzer.detectPlatformType (Js.toLowerCase "A CRM for Sales Pipeline teams")
    (Js.toLowerCase "Acme CRM") (Js.toLowerCase "Lead Management")
  = Analyzer.detectPlatformType "A CRM for Sales Pipeline teams" "Acme CRM"
      "Lead Management".
Proof.
  apply (classification_ignores_case "A CRM for Sales Pipeline teams"
           "Acme CRM" "Lead Management"); reflexivity.
Defined.

(* ================================================================== *)
(** * Further properties: the batch loop *)
(* ================================================================== *)

(** X21.  With [maxConcurrent] at 0 or below, [batchResearch] does not
    return on a non-empty list: its loop is still running after any number
    of turns.  On the empty list it returns the empty list at once, whatever
    [maxConcurrent] is. *)
Theorem batch_needs_positive_chunk :
  forall (research : Orchestrator.Input -> Orchestrator.Attempt)
         (companies : list Orchestrator.Input) (maxConcurrent : Z)
         (fuel : nat),
    (maxConcurrent <= 0 -> companies <> [] ->
     Orchestrator.batchResearch fuel research companies maxConcurrent = None)
    /\ Orchestrator.batchResearch fuel research [] maxConcurrent = Some [].
Proof.
  intros research companies maxConcurrent fuel. split.
  - intros Hmc Hne. unfold Orchestrator.batchResearch.
    rewrite chunkLoop_stuck; [reflexivity | exact Hmc |].
    destruct companies; [contradiction Hne; reflexivity | simpl; lia].
  - destruct fuel; reflexivity.
Qed.

(* ================================================================== *)
(** * What the executive patterns capture *)
(* ================================================================== *)

Section Captures.
Context {A : Type}.

(** A repetition hands its continuation the captures it was given when its
    body does. *)
Lemma repLoop_passes
      (runBody : list string -> string ->
                 (list string -> string -> option A) -> option A)
      (lo : nat) (hi : option nat) (greedy : bool)
      (k : list string -> string -> option A) :
  (forall caps s k' x, runBody caps s k' = Some x ->
                       exists s', k' caps s' = Some x) ->
  forall (fuel n : nat) (caps0 : list string) (s0 : string) (x : A),
    RegexSpec.repLoop runBody lo hi greedy k fuel n caps0 s0 = Some x ->
    exists s', k caps0 s' = Some x.
Proof.
  intros Hbody. induction fuel as [|fuel IH]; intros n caps0 s0 x H;
    [discriminate H|].
  simpl in H.
  assert (Again : forall (below : bool) (y : A),
             (if Regex.under hi n
              then runBody caps0 s0
                     (fun caps1 s1 =>
                        if Nat.ltb (String.length s1) (String.length s0)
                           || below
                        then RegexSpec.repLoop runBody lo hi greedy k fuel
                               (S n) caps1 s1
                        else None)
              else None) = Some y ->
             exists s', k caps0 s' = Some y).
  { intros below y Hy. destruct (Regex.under hi n); [|discriminate Hy].
    apply Hbody in Hy. destruct Hy as [s1 Hy].
    destruct (_ || _); [|discriminate Hy].
    exact (IH _ _ _ _ Hy). }
  destruct (Nat.ltb n lo).
  - exact (Again _ _ H).
  - destruct greedy.
    + destruct (if Regex.under hi n then _ else None) as [y|] eqn:E.
      * injection H as <-. exact (Again _ _ E).
      * exists s0. exact H.
    + destruct (k caps0 s0) as [y|] eqn:E.
      * injection H as <-. exists s0. exact E.
      * exact (Again _ _ H).
Qed.

(** A pattern without groups hands on the captures it was given. *)
Lemma run_groupFree (r : Regex.regex) :
  RegexSpec.groupFree r = true ->
  forall (caps : list string) (s : string)
         (k : list string -> string -> option A) (x : A),
    Regex.run r caps s k = Some x -> exists s', k caps s' = Some x.
Proof.
  induction r as [| p | a IHa b IHb | a IHa b IHb | a IHa lo hi greedy
                  | a IHa |]; intros G caps s k x H.
  - exists s. exact H.
  - rewrite run_cls in H. destruct s as [|c s]; [discriminate H|].
    destruct (p c); [|discriminate H]. exists s. exact H.
  - simpl in G. apply andb_prop in G. destruct G as [Ga Gb].
    rewrite run_seq in H.
    destruct (IHa Ga _ _ _ _ H) as [s1 H1].
    exact (IHb Gb _ _ _ _ H1).
  - simpl in G. apply andb_prop in G. destruct G as [Ga Gb].
    simpl in H. destruct (Regex.run a caps s k) as [y|] eqn:E.
    + injection H as <-. exact (IHa Ga _ _ _ _ E).
    + exact (IHb Gb _ _ _ _ H).
  - simpl in G. rewrite run_rep in H.
    eapply repLoop_passes; [|exact H].
    intros caps1 s1 k' y Hy. exact (IHa G _ _ _ _ Hy).
  - discriminate G.
  - simpl in H. destruct s; [|discriminate H]. exists "". exact H.
Qed.

(** An alternation of keywords matches one of them at the front. *)
Lemma run_keywords (titles : list string) (caps : list string) (s : string)
      (k : list string -> string -> option A) (x : A) :
  Regex.run (Regex.alts (map Regex.ilit titles)) caps s k = Some x ->
  exists t, In t titles /\ RegexSpec.istartsWith t s = true
            /\ k caps (Js.drop (String.length t) s) = Some x.
Proof.
  induction titles as [|t ts IH]; intros H.
  - simpl in H. destruct s; discriminate H.
  - destruct ts as [|t2 ts].
    + change (Regex.alts (map Regex.ilit [t])) with (Regex.ilit t) in H.
      rewrite run_ilit in H.
      destruct (RegexSpec.istartsWith t s) eqn:E; [|discriminate H].
      exists t. split; [left; reflexivity|]. split; [exact E | exact H].
    + change (Regex.alts (map Regex.ilit (t :: t2 :: ts)))
        with (Regex.Alt (Regex.ilit t)
                        (Regex.alts (map Regex.ilit (t2 :: ts)))) in H.
      simpl Regex.run in H.
      change (Regex.run (Regex.ilit t) caps s k) with
        (Regex.run (Regex.ilit t) caps s k) in H.
      destruct (Regex.run (Regex.ilit t) caps s k) as [y|] eqn:E.
      * injection H as <-. rewrite run_ilit in E.
        destruct (RegexSpec.istartsWith t s) eqn:E2; [|discriminate E].
        exists t. split; [left; reflexivity|]. split; [exact E2 | exact E].
      * destruct (IH H) as [u [Hu R]]. exists u.
        split; [right; exact Hu | exact R].
Qed.

End Captures.

Section CapturedTitles.
Import Contacts.

(** The second capture of an executive pattern is one of its titles in
    some letter case. *)
Lemma exec_executivePattern (titles : list string) (s : string)
      (caps : list string) (rest : string) :
  Regex.exec (executivePattern titles) s = Some (caps, rest) ->
  exists t s2, In t titles /\ RegexSpec.istartsWith t s2 = true
               /\ nth 1 caps "" = Js.take (String.length t) s2.
Proof.
  unfold Regex.exec, executivePattern. intros H.
  change (Regex.seqs
            [Regex.Grp
               (Regex.seqs
                  [Regex.plus (Regex.Cls Js.isWord);
                   Regex.plus (Regex.Cls Js.isSpace);
                   Regex.plus (Regex.Cls Js.isWord)]);
             Regex.lazyStar Regex.dot;
             Regex.Grp (Regex.alts (map Regex.ilit titles))])
    with (Regex.Seq
            (Regex.Grp
               (Regex.seqs
                  [Regex.plus (Regex.Cls Js.isWord);
                   Regex.plus (Regex.Cls Js.isSpace);
                   Regex.plus (Regex.Cls Js.isWord)]))
            (Regex.Seq (Regex.lazyStar Regex.dot)
                       (Regex.Grp (Regex.alts (map Regex.ilit titles)))))
    in H.
  rewrite run_seq in H.
  change (Regex.run (Regex.Grp ?a) ?c ?t ?k) with
    (Regex.run a c t
       (fun caps1 s1 =>
          k (caps1 ++ [Js.take (Regex.consumed t s1) t])%list s1)) in H.
  apply run_groupFree in H; [|reflexivity].
  destruct H as [s1 H]. cbv beta in H. rewrite run_seq in H.
  apply run_groupFree in H; [|reflexivity].
  destruct H as [s2 H]. cbv beta in H.
  change (Regex.run (Regex.Grp ?a) ?c ?t ?k) with
    (Regex.run a c t
       (fun caps1 s1 =>
          k (caps1 ++ [Js.take (Regex.consumed t s1) t])%list s1)) in H.
  apply run_keywords in H. destruct H as [t [Ht [E H]]].
  cbv beta in H. injection H as <- _.
  exists t, s2. split; [exact Ht|]. split; [exact E|].
  apply istartsWith_length in E.
  unfold Regex.consumed. rewrite length_drop.
  replace (String.length s2 - (String.length s2 - String.length t))%nat
    with (String.length t) by lia.
  reflexivity.
Qed.

Lemma searchFrom_exec (r : Regex.regex) (s : string) :
  forall (i : nat) (f : Regex.found),
    Regex.searchFrom r i s = Some f ->
    exists s' rest, Regex.exec r s' = Some (Regex.groups f, rest).
Proof.
  induction s as [|c s IH]; intros i f H.
  - simpl in H. destruct (Regex.exec r "") as [[caps rest]|] eqn:E;
      [|discriminate H].
    injection H as <-. exists "", rest. exact E.
  - change (Regex.searchFrom r i (String c s))
      with (match Regex.exec r (String c s) with
            | Some (caps, rest) =>
                Some (Regex.Found i
                        (Js.take (Regex.consumed (String c s) rest)
                                 (String c s)) caps)
            | None => Regex.searchFrom r (S i) s
            end) in H.
    destruct (Regex.exec r (String c s)) as [[caps rest]|] eqn:E.
    + injection H as <-. exists (String c s), rest. exact E.
    + exact (IH _ _ H).
Qed.

Lemma lower_of_upper (c : ascii) :
  Js.toLowerChar (Js.toUpperChar c) = Js.toLowerChar c.
Proof. destruct c as [[] [] [] [] [] [] [] []]; vm_compute; reflexivity. Qed.

(** A text that starts with a keyword, letter case apart, starts with its
    letters. *)
Lemma istartsWith_lower_take (t s : string) :
  RegexSpec.istartsWith t s = true ->
  Js.toLowerCase (Js.take (String.length t) s) = Js.toLowerCase t.
Proof.
  revert s. induction t as [|a t IH]; intros s H; [destruct s; reflexivity|].
  destruct s as [|b s]; [discriminate H|].
  simpl in H. apply andb_prop in H. destruct H as [Hc Hs].
  apply Ascii.eqb_eq in Hc.
  change (Js.toLowerCase (Js.take (String.length (String a t)) (String b s)))
    with (String (Js.toLowerChar b)
                 (Js.toLowerCase (Js.take (String.length t) s))).
  change (Js.toLowerCase (String a t))
    with (String (Js.toLowerChar a) (Js.toLowerCase t)).
  rewrite (IH s Hs).
  rewrite <- (lower_of_upper b), Hc, lower_of_upper. reflexivity.
Qed.

Lemma space_lower (c : ascii) : Js.isSpace (Js.toLowerChar c) = Js.isSpace c.
Proof. destruct c as [[] [] [] [] [] [] [] []]; vm_compute; reflexivity. Qed.

Lemma lower_trimStart (s : string) :
  Js.toLowerCase (Js.trimStart s) = Js.trimStart (Js.toLowerCase s).
Proof.
  unfold Js.toLowerCase. induction s as [|c s IH]; [reflexivity|].
  simpl. rewrite space_lower. destruct (Js.isSpace c); [exact IH | reflexivity].
Qed.

Lemma lower_trimEnd (s : string) :
  Js.toLowerCase (Js.trimEnd s) = Js.trimEnd (Js.toLowerCase s).
Proof.
  unfold Js.toLowerCase. induction s as [|c s IH]; [reflexivity|].
  simpl. rewrite <- IH, space_lower.
  destruct (Js.trimEnd s); simpl; [destruct (Js.isSpace c)|]; reflexivity.
Qed.

Lemma lower_trim (s : string) :
  Js.toLowerCase (Js.trim s) = Js.trim (Js.toLowerCase s).
Proof. unfold Js.trim. rewrite lower_trimEnd, lower_trimStart. reflexivity. Qed.

(** The title an executive pattern captures is, lower-cased and trimmed,
    one of the nine titles the patterns name. *)
Lemma captured_title_is_keyword (pattern : Regex.regex) (line : string)
      (f : Regex.found) :
  In pattern executivePatterns ->
  Regex.search pattern line = Some f ->
  In (Js.toLowerCase (Js.trim (nth 1 (Regex.groups f) "")))
     RegexSpec.executiveTitles.
Proof.
  intros Hp Hs. unfold Regex.search in Hs.
  apply searchFrom_exec in Hs. destruct Hs as [s' [rest E]].
  assert (T : exists titles,
             pattern = executivePattern titles
             /\ forall t, In t titles ->
                          In (Js.trim (Js.toLowerCase t))
                             RegexSpec.executiveTitles).
  { unfold executivePatterns in Hp. simpl in Hp.
    destruct Hp as [<-|[<-|[<-|[<-|[<-|[]]]]]]; eexists;
      (split; [reflexivity|]); intros t Ht; simpl in Ht;
      repeat (destruct Ht as [<-|Ht]; [vm_compute; tauto|]);
      contradiction. }
  destruct T as [titles [-> Ht]].
  apply exec_executivePattern in E. destruct E as [t [s2 [Hin [Hst Hn]]]].
  rewrite Hn, lower_trim, (istartsWith_lower_take _ _ Hst).
  exact (Ht t Hin).
Qed.

(** So [normalizeTitle] always finds a string for it. *)
Lemma captured_title_normalizes (pattern : Regex.regex) (line : string)
      (f : Regex.found) :
  In pattern executivePatterns ->
  Regex.search pattern line = Some f ->
  normalizeTitle (Js.trim (nth 1 (Regex.groups f) "")) <> None.
Proof.
  intros Hp Hs. pose proof (captured_title_is_keyword _ _ _ Hp Hs) as K.
  unfold normalizeTitle. cbv zeta.
  destruct (find _ titleMap); [discriminate|].
  destruct (existsb _ inheritedKeys) eqn:E; [|discriminate].
  exfalso. apply existsb_exists in E. destruct E as [k [Hk E]].
  apply String.eqb_eq in E. rewrite E in K.
  simpl in Hk. destruct Hk as [<-|[<-|[]]];
    simpl in K; intuition discriminate.
Qed.

End CapturedTitles.

(* ================================================================== *)
(** * Further properties: titles *)
(* ================================================================== *)

(** X22.  The three classifiers of a job title agree on the top ranks: the
    e-mail tool's contact quality is decided by the sort rank
    (executive for 1-2, senior for 3-5, management for 6-7, mid-level for 8,
    unknown for 9), the priority is critical exactly for ranks 1-2, and a
    title of rank 3-5 has priority high. *)
Theorem title_classifiers_agree :
  forall title : string,
    let rank := Contacts.calculateContactPriorityScore title in
    let quality := EmailTool.determineContactQuality title in
    let priority := Contacts.calculateContactPriority title in
    (quality = "executive" <-> rank <= 2)
    /\ (quality = "senior" <-> 3 <= rank <= 5)
    /\ (quality = "management" <-> 6 <= rank <= 7)
    /\ (quality = "mid-level" <-> rank = 8)
    /\ (quality = "unknown" <-> rank = 9)
    /\ (priority = "critical" <-> rank <= 2)
    /\ (3 <= rank <= 5 -> priority = "high").
Proof.
  intros title. cbv zeta.
  destruct title as [|c t].
  - change (Contacts.calculateContactPriorityScore "") with 9.
    change (EmailTool.determineContactQuality "") with "unknown".
    change (Contacts.calculateContactPriority "") with "low".
    repeat split; intros; try lia; try discriminate; try reflexivity.
  - unfold Contacts.calculateContactPriorityScore,
      EmailTool.determineContactQuality, Contacts.calculateContactPriority.
    change (Js.nonEmpty (String c t)) with true. cbv iota beta.
    change (negb true) with false. cbv iota.
    generalize (Js.toLowerCase (String c t)). intros tl.
    set (ceo := Js.includes tl "ceo").
    set (founder := Js.includes tl "founder").
    set (cto := Js.includes tl "cto").
    set (cpo := Js.includes tl "cpo").
    set (vp := Js.includes tl "vp").
    set (vice := Js.includes tl "vice president").
    set (director := Js.includes tl "director").
    set (headof := Js.includes tl "head of").
    set (head := Js.includes tl "head").
    set (manager := Js.includes tl "manager").
    clearbody ceo founder cto cpo vp vice director headof head manager.
    destruct ceo, founder, cto, cpo, vp, director, head, manager;
      cbn [orb]; cbv iota;
      repeat split; intros; try lia; try discriminate; try reflexivity;
      destruct vice, headof; discriminate.
Qed.

(** X23.  [normalizeTitle] spells out the bare titles ceo, cto, cpo and vp
    (in any letter case), and the spelled-out title no longer contains the
    keyword the ranking looks for: such a title has rank 5 or better before
    it is normalised and rank 9 after, where the quality score gives it the
    lowest title award.  Under one of the two lower-case names every object
    inherits (constructor, __proto__) the lookup finds something that is not
    a string.  Every other title comes back as a string of the same rank. *)
Theorem normalised_title_loses_rank :
  forall title : string,
    (In (Js.toLowerCase title) ["ceo"; "cto"; "cpo"; "vp"] ->
     Contacts.calculateContactPriorityScore title <= 5
     /\ exists spelled,
          Contacts.normalizeTitle title = Some spelled
          /\ Contacts.calculateContactPriorityScore spelled = 9
          /\ Scoring.titlePoints
               (Contacts.calculateContactPriorityScore spelled) = 5)
    /\ (In (Js.toLowerCase title) Contacts.inheritedKeys ->
        Contacts.normalizeTitle title = None)
    /\ (~ In (Js.toLowerCase title) ["ceo"; "cto"; "cpo"; "vp"] ->
        ~ In (Js.toLowerCase title) Contacts.inheritedKeys ->
        exists kept,
          Contacts.normalizeTitle title = Some kept
          /\ Contacts.calculateContactPriorityScore kept
             = Contacts.calculateContactPriorityScore title).
Proof.
  intros title. split; [|split].
  - intros H.
    assert (N : Js.nonEmpty title = true).
    { destruct title; [|reflexivity].
      simpl in H. intuition discriminate. }
    unfold Contacts.normalizeTitle, Contacts.calculateContactPriorityScore at 1.
    rewrite N. cbv zeta.
    simpl in H.
    destruct H as [H|[H|[H|[H|[]]]]]; rewrite <- H;
      (split; [vm_compute; discriminate|]);
      eexists; (split; [reflexivity|]); split; vm_compute; reflexivity.
  - intros H. unfold Contacts.normalizeTitle. cbv zeta.
    simpl in H. destruct H as [H|[H|[]]]; rewrite <- H; reflexivity.
  - intros H I.
    assert (K : forall k, In k ["ceo"; "cto"; "cpo"; "vp"] ->
                          String.eqb k (Js.toLowerCase title) = false).
    { intros k Hk. apply String.eqb_neq. intros E. apply H.
      rewrite <- E. exact Hk. }
    assert (J : existsb (String.eqb (Js.toLowerCase title))
                        Contacts.inheritedKeys = false).
    { destruct (existsb _ _) eqn:E; [|reflexivity].
      apply existsb_exists in E. destruct E as [k [Hk E]].
      apply String.eqb_eq in E. rewrite <- E in Hk. contradiction. }
    unfold Contacts.normalizeTitle. cbv zeta.
    unfold Contacts.titleMap.
    cbn [find fst snd].
    rewrite !K by (simpl; tauto).
    destruct (String.eqb_spec "founder" (Js.toLowerCase title)) as [E|E].
    + cbn [snd]. eexists. split; [reflexivity|].
      unfold Contacts.calculateContactPriorityScore at 2.
      destruct title as [|c t]; [discriminate E|].
      change (Js.nonEmpty (String c t)) with true.
      rewrite <- E. reflexivity.
    + rewrite K by (simpl; tauto). rewrite J.
      eexists. split; reflexivity.
Qed.

(* ================================================================== *)
(** * Further properties: names *)
(* ================================================================== *)

Section NameFacts.

Lemma forallChars_app (p : ascii -> bool) (a b : string) :
  Js.forallChars p (a ++ b) = (Js.forallChars p a && Js.forallChars p b)%bool.
Proof.
  induction a as [|c a IH]; simpl; [reflexivity|].
  rewrite IH, andb_assoc. reflexivity.
Qed.

(** A replacement introduces no character outside the text and the
    replacement string. *)
Lemma replaceAllFrom_chars (p : ascii -> bool) (r : Regex.regex)
      (rep s : string) :
  Js.forallChars p rep = true -> Js.forallChars p s = true ->
  forall skip, Js.forallChars p (Regex.replaceAllFrom r rep s skip) = true.
Proof.
  intros Hrep. induction s as [|c s IH]; intros Hs skip.
  - destruct skip; [|reflexivity].
    change (Regex.replaceAllFrom r rep "" 0)
      with (match Regex.exec r "" with
            | Some (_, _) => rep ++ ""
            | None => ""
            end).
    destruct (Regex.exec r "") as [[caps rest]|]; [|reflexivity].
    rewrite forallChars_app, Hrep. reflexivity.
  - simpl in Hs. apply andb_prop in Hs. destruct Hs as [Hc Hs].
    destruct skip as [|skip]; [|exact (IH Hs skip)].
    change (Regex.replaceAllFrom r rep (String c s) 0)
      with (match Regex.exec r (String c s) with
            | Some (_, rest) =>
                let len := Regex.consumed (String c s) rest in
                rep ++ (if Nat.eqb len 0
                        then String c (Regex.replaceAllFrom r rep s 0)
                        else Regex.replaceAllFrom r rep s (len - 1))
            | None => String c (Regex.replaceAllFrom r rep s 0)
            end).
    destruct (Regex.exec r (String c s)) as [[caps rest]|].
    + cbv zeta. rewrite forallChars_app, Hrep.
      destruct (Nat.eqb (Regex.consumed (String c s) rest) 0).
      * simpl. rewrite Hc. exact (IH Hs 0%nat).
      * exact (IH Hs _).
    + simpl. rewrite Hc. exact (IH Hs 0%nat).
Qed.

(** A greedy run that may stop where it stands does stop somewhere, and
    leaves a suffix of the input. *)
Lemma greedyCls_total (p : ascii -> bool) (lo : nat) (caps : list string)
      (s : string) :
  forall n, (lo <= n)%nat ->
    exists rest,
      RegexSpec.greedyCls p lo (fun caps0 rest0 => Some (caps0, rest0))
                          caps n s = Some (caps, rest)
      /\ (String.length rest <= String.length s)%nat.
Proof.
  induction s as [|c s IH]; intros n Hn.
  - simpl. replace (Nat.ltb n lo) with false
      by (symmetry; apply Nat.ltb_ge; lia).
    exists "". split; [reflexivity | simpl; lia].
  - simpl. replace (Nat.ltb n lo) with false
      by (symmetry; apply Nat.ltb_ge; lia).
    destruct (p c).
    + destruct (IH (S n)) as [rest [E L]]; [lia|].
      rewrite E. exists rest. split; [reflexivity | lia].
    + exists (String c s). split; [reflexivity | simpl; lia].
Qed.

(** Where white space stands, a run of it is found and is at least one
    character long. *)
Lemma space_run_here (c : ascii) (s : string) :
  Js.isSpace c = true ->
  exists caps rest,
    Regex.exec (Regex.plus (Regex.Cls Js.isSpace)) (String c s)
    = Some (caps, rest)
    /\ (1 <= Regex.consumed (String c s) rest)%nat.
Proof.
  intros Hc. unfold Regex.exec, Regex.plus. rewrite run_greedy_cls.
  simpl. rewrite Hc.
  destruct (greedyCls_total Js.isSpace 1 [] s 1) as [rest [E L]]; [lia|].
  rewrite E. exists [], rest. split; [reflexivity|].
  unfold Regex.consumed.
  change (String.length (String c s)) with (S (String.length s)). lia.
Qed.

(** After white-space runs are replaced by one space, the only white space
    left is the space character. *)
Lemma collapse_spaces (s : string) :
  forall skip,
    Js.forallChars Props.singleSpaced
      (Regex.replaceAllFrom (Regex.plus (Regex.Cls Js.isSpace)) " " s skip)
    = true.
Proof.
  induction s as [|c s IH]; intros skip.
  - destruct skip; [|reflexivity].
    change (Regex.replaceAllFrom (Regex.plus (Regex.Cls Js.isSpace)) " " "" 0)
      with (match Regex.exec (Regex.plus (Regex.Cls Js.isSpace)) "" with
            | Some (_, _) => " " ++ ""
            | None => ""
            end).
    destruct (Regex.exec _ _) as [[caps rest]|]; reflexivity.
  - destruct skip as [|skip]; [|exact (IH skip)].
    change (Regex.replaceAllFrom (Regex.plus (Regex.Cls Js.isSpace)) " "
              (String c s) 0)
      with (match Regex.exec (Regex.plus (Regex.Cls Js.isSpace)) (String c s)
            with
            | Some (_, rest) =>
                let len := Regex.consumed (String c s) rest in
                " " ++ (if Nat.eqb len 0
                        then String c
                               (Regex.replaceAllFrom
                                  (Regex.plus (Regex.Cls Js.isSpace)) " " s 0)
                        else Regex.replaceAllFrom
                               (Regex.plus (Regex.Cls Js.isSpace)) " " s
                               (len - 1))
            | None =>
                String c
                  (Regex.replaceAllFrom
                     (Regex.plus (Regex.Cls Js.isSpace)) " " s 0)
            end).
    destruct (Js.isSpace c) eqn:Hc.
    + destruct (space_run_here c s Hc) as [caps [rest [E L]]].
      rewrite E. cbv zeta.
      replace (Nat.eqb (Regex.consumed (String c s) rest) 0) with false
        by (symmetry; apply Nat.eqb_neq; lia).
      rewrite forallChars_app. rewrite IH. reflexivity.
    + rewrite (no_space_run_here (String c s)) by exact Hc.
      simpl. unfold Props.singleSpaced at 1. rewrite Hc. simpl. apply IH.
Qed.

Lemma trimStart_chars (p : ascii -> bool) (s : string) :
  Js.forallChars p s = true -> Js.forallChars p (Js.trimStart s) = true.
Proof.
  induction s as [|c s IH]; simpl; [reflexivity|]. intros H.
  destruct (Js.isSpace c); [|exact H].
  apply andb_prop in H. apply IH. apply H.
Qed.

Lemma trimEnd_chars (p : ascii -> bool) (s : string) :
  Js.forallChars p s = true -> Js.forallChars p (Js.trimEnd s) = true.
Proof.
  induction s as [|c s IH]; simpl; [reflexivity|]. intros H.
  apply andb_prop in H. destruct H as [Hc Hs]. specialize (IH Hs).
  destruct (Js.trimEnd s).
  - destruct (Js.isSpace c); simpl; [reflexivity | rewrite Hc; reflexivity].
  - change (Js.forallChars p (String c (String a s0)))
      with (p c && Js.forallChars p (String a s0))%bool.
    rewrite Hc, IH. reflexivity.
Qed.

Lemma trim_chars (p : ascii -> bool) (s : string) :
  Js.forallChars p s = true -> Js.forallChars p (Js.trim s) = true.
Proof. intros H. apply trimEnd_chars, trimStart_chars, H. Qed.

(** The pieces of a split hold the characters of the text, the separator
    apart. *)
Lemma split_chars (p : ascii -> bool) (sep : ascii) (s : string) :
  Js.forallChars p s = true ->
  Forall (fun w => Js.forallChars
                     (fun c => p c && negb (Ascii.eqb c sep)) w = true)
         (Js.split sep s).
Proof.
  induction s as [|c s IH]; simpl; intros H.
  - constructor; [reflexivity | constructor].
  - apply andb_prop in H. destruct H as [Hc Hs]. specialize (IH Hs).
    destruct (Ascii.eqb c sep) eqn:E.
    + constructor; [reflexivity | exact IH].
    + destruct (Js.split sep s) as [|w ws].
      * constructor; [|constructor]. simpl. rewrite Hc, E. reflexivity.
      * inversion IH as [|? ? Hw Hws]; subst.
        constructor; [|exact Hws]. simpl. rewrite Hc, E, Hw. reflexivity.
Qed.

Lemma join_chars (p : ascii -> bool) (sep : string) (ws : list string) :
  Js.forallChars p sep = true ->
  Forall (fun w => Js.forallChars p w = true) ws ->
  Js.forallChars p (Js.join sep ws) = true.
Proof.
  intros Hsep. induction ws as [|w ws IH]; intros H; [reflexivity|].
  inversion H as [|? ? Hw Hws]; subst.
  destruct ws as [|w2 ws]; [exact Hw|].
  change (Js.join sep (w :: w2 :: ws))
    with (w ++ sep ++ Js.join sep (w2 :: ws)).
  rewrite !forallChars_app, Hw, Hsep, (IH Hws). reflexivity.
Qed.

Lemma mapChars_chars (p q : ascii -> bool) (f : ascii -> ascii) (s : string) :
  (forall c, p c = true -> q (f c) = true) ->
  Js.forallChars p s = true -> Js.forallChars q (Js.mapChars f s) = true.
Proof.
  intros H. induction s as [|c s IH]; simpl; [reflexivity|]. intros E.
  apply andb_prop in E. destruct E as [Ec Es].
  rewrite (H c Ec), (IH Es). reflexivity.
Qed.

Lemma forallChars_and (p q : ascii -> bool) (s : string) :
  Js.forallChars p s = true -> Js.forallChars q s = true ->
  Js.forallChars (fun c => p c && q c) s = true.
Proof.
  induction s as [|c s IH]; simpl; [reflexivity|]. intros Hp Hq.
  apply andb_prop in Hp. apply andb_prop in Hq.
  destruct Hp as [Pc Ps], Hq as [Qc Qs].
  rewrite Pc, Qc, (IH Ps Qs). reflexivity.
Qed.

Lemma substChars_chars (p : ascii -> bool) (rep s : string) :
  Js.forallChars p rep = true ->
  Js.forallChars p (RegexSpec.substChars (fun c => negb (p c)) rep s) = true.
Proof.
  intros Hrep. induction s as [|c s IH]; simpl; [reflexivity|].
  destruct (p c) eqn:E; simpl.
  - rewrite E. exact IH.
  - rewrite forallChars_app, Hrep. exact IH.
Qed.

(** A text without the separator is one piece. *)
Lemma split_one (sep : ascii) (w : string) :
  Js.forallChars (fun c => negb (Ascii.eqb c sep)) w = true ->
  Js.split sep w = [w].
Proof.
  induction w as [|c w IH]; simpl; [reflexivity|]. intros H.
  apply andb_prop in H. destruct H as [Hc Hw].
  apply negb_true_iff in Hc. rewrite Hc, (IH Hw). reflexivity.
Qed.

Lemma split_app (sep : ascii) (w rest : string) :
  Js.forallChars (fun c => negb (Ascii.eqb c sep)) w = true ->
  Js.split sep (w ++ String sep rest) = w :: Js.split sep rest.
Proof.
  induction w as [|c w IH]; simpl; intros H.
  - rewrite Ascii.eqb_refl. reflexivity.
  - apply andb_prop in H. destruct H as [Hc Hw].
    apply negb_true_iff in Hc. rewrite Hc, (IH Hw). reflexivity.
Qed.

(** Splitting undoes joining, for pieces that do not hold the separator. *)
Lemma split_join (sep : ascii) (ws : list string) :
  ws <> [] ->
  Forall (fun w => Js.forallChars (fun c => negb (Ascii.eqb c sep)) w = true)
         ws ->
  Js.split sep (Js.join (String sep "") ws) = ws.
Proof.
  induction ws as [|w ws IH]; intros Hne H; [contradiction Hne; reflexivity|].
  inversion H as [|? ? Hw Hws]; subst.
  destruct ws as [|w2 ws]; [exact (split_one sep w Hw)|].
  change (Js.join (String sep "") (w :: w2 :: ws))
    with (w ++ String sep (Js.join (String sep "") (w2 :: ws))).
  rewrite split_app by exact Hw.
  rewrite IH; [reflexivity | discriminate | exact Hws].
Qed.

Lemma split_nonempty (sep : ascii) (s : string) : Js.split sep s <> [].
Proof.
  destruct s as [|c s]; simpl; [discriminate|].
  destruct (Ascii.eqb c sep); [discriminate|].
  destruct (Js.split sep s); discriminate.
Qed.

(** What capitalising does to one character of a word. *)
Lemma word_char_cases (c : ascii) :
  let keep := Js.isWord c || Js.isSpace c || Regex.oneOf "-'." c in
  (keep && Props.singleSpaced c) && negb (Ascii.eqb c " ") = true ->
  Props.nameChar (Js.toUpperChar c) = true
  /\ Props.nameChar (Js.toLowerChar c) = true
  /\ Ascii.eqb (Js.toUpperChar c) " " = false
  /\ Ascii.eqb (Js.toLowerChar c) " " = false
  /\ Js.isLowerAZ (Js.toUpperChar c) = false
  /\ Js.isUpperAZ (Js.toLowerChar c) = false.
Proof.
  destruct c as [[] [] [] [] [] [] [] []]; vm_compute; intros H;
    try discriminate H; repeat split.
Qed.

End NameFacts.

(** X24.  A cleaned name holds only letters, digits, underscores, hyphens,
    apostrophes, dots and single spaces, and each of its words is
    capitalised: no lower-case letter in front, no upper-case letter
    behind. *)
Theorem clean_name_shape :
  forall name : string,
    Js.forallChars Props.nameChar (Contacts.cleanName name) = true
    /\ Forall (fun w => Props.capitalised w = true)
              (Js.split " " (Contacts.cleanName name)).
Proof.
  intros name. unfold Contacts.cleanName. cbv zeta.
  set (keep := fun c => Js.isWord c || Js.isSpace c || Regex.oneOf "-'." c).
  set (s1 := Regex.replaceAll (Regex.Cls (fun c => negb (keep c))) " " name).
  set (s2 := Regex.replaceAll (Regex.plus (Regex.Cls Js.isSpace)) " " s1).
  assert (K1 : Js.forallChars keep s1 = true).
  { unfold s1. rewrite replaceAll_cls. apply substChars_chars. reflexivity. }
  assert (K2 : Js.forallChars
                 (fun c => keep c && Props.singleSpaced c) (Js.trim s2)
               = true).
  { apply trim_chars. apply forallChars_and.
    - apply replaceAllFrom_chars; [reflexivity | exact K1].
    - apply collapse_spaces. }
  pose proof (split_chars _ " "%char _ K2) as W.
  set (words := Js.split " " (Js.trim s2)) in *.
  assert (C : Forall (fun w =>
                        Js.forallChars Props.nameChar w = true
                        /\ Js.forallChars
                             (fun c => negb (Ascii.eqb c " ")) w = true
                        /\ Props.capitalised w = true)
                     (map Contacts.capitalize words)).
  { apply Forall_map. eapply Forall_impl; [|exact W].
    intros w Hw. destruct w as [|c rest]; [repeat split|].
    simpl in Hw. apply andb_prop in Hw. destruct Hw as [Hc Hrest].
    destruct (word_char_cases c Hc) as [U1 [_ [U2 [_ [U3 _]]]]].
    unfold Contacts.capitalize, Props.capitalised. simpl Js.forallChars.
    rewrite U1, U2, U3. simpl.
    repeat split.
    - unfold Js.toLowerCase. eapply mapChars_chars; [|exact Hrest].
      intros d Hd. apply (word_char_cases d Hd).
    - unfold Js.toLowerCase. eapply mapChars_chars; [|exact Hrest].
      intros d Hd. destruct (word_char_cases d Hd) as [_ [_ [_ [L _]]]].
      rewrite L. reflexivity.
    - unfold Js.toLowerCase. eapply mapChars_chars; [|exact Hrest].
      intros d Hd. destruct (word_char_cases d Hd) as [_ [_ [_ [_ [_ L]]]]].
      rewrite L. reflexivity. }
  split.
  - apply join_chars; [reflexivity|].
    eapply Forall_impl; [|exact C]. intros w Hw. apply Hw.
  - rewrite split_join.
    + eapply Forall_impl; [|exact C]. intros w Hw. apply Hw.
    + unfold words. intros E. apply map_eq_nil in E.
      exact (split_nonempty _ _ E).
    + eapply Forall_impl; [|exact C]. intros w Hw. apply Hw.
Qed.

(* ================================================================== *)
(** * Further properties: the e-mail tool *)
(* ================================================================== *)

Section TrimFacts.

Lemma trimEnd_nonEmpty (s : string) :
  Js.nonEmpty (Js.trimEnd s) = negb (Js.forallChars Js.isSpace s).
Proof.
  induction s as [|c s IH]; simpl; [reflexivity|].
  destruct (Js.trimEnd s) as [|d t].
  - simpl in IH. apply (f_equal negb) in IH. rewrite negb_involutive in IH.
    simpl in IH. rewrite <- IH, andb_true_r.
    destruct (Js.isSpace c); reflexivity.
  - simpl in IH. apply (f_equal negb) in IH. rewrite negb_involutive in IH.
    simpl in IH. rewrite <- IH, andb_false_r. reflexivity.
Qed.

Lemma trimStart_spaces (s : string) :
  Js.forallChars Js.isSpace (Js.trimStart s) = Js.forallChars Js.isSpace s.
Proof.
  induction s as [|c s IH]; simpl; [reflexivity|].
  destruct (Js.isSpace c) eqn:E; simpl; [exact IH | rewrite E; reflexivity].
Qed.

(** [s.trim() === ''] holds exactly of white space. *)
Lemma trim_nonEmpty (s : string) :
  Js.nonEmpty (Js.trim s) = negb (Js.forallChars Js.isSpace s).
Proof.
  unfold Js.trim. rewrite trimEnd_nonEmpty, trimStart_spaces. reflexivity.
Qed.

Lemma trimStart_blank (s : string) :
  Js.forallChars Js.isSpace s = true -> Js.trimStart s = "".
Proof.
  induction s as [|c s IH]; simpl; [reflexivity|]. intros H.
  apply andb_prop in H. destruct H as [Hc Hs]. rewrite Hc. exact (IH Hs).
Qed.

Lemma trimEnd_blank (s : string) :
  Js.forallChars Js.isSpace s = true -> Js.trimEnd s = "".
Proof.
  induction s as [|c s IH]; simpl; [reflexivity|]. intros H.
  apply andb_prop in H. destruct H as [Hc Hs].
  rewrite (IH Hs), Hc. reflexivity.
Qed.

Lemma trimEnd_app_blank (s y : string) :
  Js.forallChars Js.isSpace y = true -> Js.trimEnd (s ++ y) = Js.trimEnd s.
Proof.
  intros Hy. induction s as [|c s IH]; simpl.
  - apply trimEnd_blank, Hy.
  - rewrite IH. reflexivity.
Qed.

(** White space added behind a text is trimmed away with the rest. *)
Lemma trim_app_blank (s y : string) :
  Js.forallChars Js.isSpace y = true -> Js.trim (s ++ y) = Js.trim s.
Proof.
  intros Hy. unfold Js.trim. induction s as [|c s IH].
  - simpl. rewrite (trimStart_blank y Hy). reflexivity.
  - change (String c s ++ y) with (String c (s ++ y)).
    simpl Js.trimStart. destruct (Js.isSpace c); [exact IH|].
    change (String c (s ++ y)) with (String c s ++ y).
    apply trimEnd_app_blank, Hy.
Qed.

End TrimFacts.

Section ParseFacts.
Import EmailTool.

Lemma append_assoc (a b c : string) : (a ++ b) ++ c = a ++ b ++ c.
Proof. induction a; simpl; congruence. Qed.

Lemma append_empty_r (a : string) : a ++ "" = a.
Proof. induction a; simpl; congruence. Qed.

Lemma parse_keeps_subject (lines : list string) :
  Forall (fun l => Js.startsWith "Subject:" l = false) lines ->
  forall st, st_subject (fold_left parseLine lines st) = st_subject st.
Proof.
  induction 1 as [|l lines Hl _ IH]; intros st; [reflexivity|].
  simpl. rewrite IH. unfold parseLine. rewrite Hl.
  destruct (negb (Js.nonEmpty (Js.trim l))); [reflexivity|].
  destruct (st_inBody st); reflexivity.
Qed.

Lemma parse_stays_in_header (lines : list string) :
  Forall (fun l => Js.nonEmpty (Js.trim l) = true) lines ->
  forall st, st_inBody st = false ->
    st_body (fold_left parseLine lines st) = st_body st.
Proof.
  induction 1 as [|l lines Hl _ IH]; intros st Hst; [reflexivity|].
  simpl.
  assert (E : st_body (parseLine st l) = st_body st
              /\ st_inBody (parseLine st l) = false).
  { unfold parseLine. rewrite Hl, Hst.
    destruct (Js.startsWith "Subject:" l); simpl; split;
      try reflexivity; exact Hst. }
  destruct E as [Eb Ei]. rewrite (IH _ Ei). exact Eb.
Qed.

(** The lines of a body, once the parser is in the body: each is appended
    with a line feed. *)
Lemma parse_body_lines (lines : list string) :
  Forall (fun l => Props.bodyLine l = true) lines ->
  forall st, st_inBody st = true ->
    fold_left parseLine lines st
    = {| st_subject := st_subject st;
         st_body := st_body st
                    ++ String.concat "" (map (fun l => l ++ newline) lines);
         st_inBody := true |}.
Proof.
  induction 1 as [|l lines Hl _ IH]; intros st Hst.
  - simpl. destruct st as [sj b i]. simpl in *. subst i.
    rewrite append_empty_r. reflexivity.
  - unfold Props.bodyLine in Hl.
    apply andb_prop in Hl. destruct Hl as [Hl Hsub].
    apply andb_prop in Hl. destruct Hl as [_ Hblank].
    apply negb_true_iff in Hsub.
    assert (E : parseLine st l
                = {| st_subject := st_subject st;
                     st_body := st_body st ++ l ++ newline;
                     st_inBody := true |}).
    { unfold parseLine. rewrite Hsub, Hblank, Hst. reflexivity. }
    change (fold_left parseLine (l :: lines) st)
      with (fold_left parseLine lines (parseLine st l)).
    rewrite E, IH by reflexivity. simpl st_subject. simpl st_body.
    f_equal.
    change (map (fun l0 => l0 ++ newline) (l :: lines))
      with ((l ++ newline) :: map (fun l0 => l0 ++ newline) lines).
    assert (C : forall x xs, String.concat "" (x :: xs)
                             = x ++ String.concat "" xs).
    { intros x xs. destruct xs as [|y ys]; simpl; [|reflexivity].
      rewrite append_empty_r. reflexivity. }
    rewrite C. rewrite !append_assoc. reflexivity.
Qed.

(** The appended lines are the joined lines and one more line feed. *)
Lemma concat_lines (lines : list string) :
  lines <> [] ->
  String.concat "" (map (fun l => l ++ newline) lines)
  = Js.join newline lines ++ newline.
Proof.
  induction lines as [|l lines IH]; intros Hne; [contradiction Hne; reflexivity|].
  destruct lines as [|l2 lines]; [reflexivity|].
  change (Js.join newline (l :: l2 :: lines))
    with (l ++ newline ++ Js.join newline (l2 :: lines)).
  change (map (fun l0 => l0 ++ newline) (l :: l2 :: lines))
    with ((l ++ newline) :: map (fun l0 => l0 ++ newline) (l2 :: lines)).
  change (String.concat "" ((l ++ newline)
                              :: map (fun l0 => l0 ++ newline) (l2 :: lines)))
    with ((l ++ newline) ++ ""
          ++ String.concat "" (map (fun l0 => l0 ++ newline) (l2 :: lines))).
  rewrite IH by discriminate.
  change ("" ++ (Js.join newline (l2 :: lines) ++ newline))
    with (Js.join newline (l2 :: lines) ++ newline).
  rewrite !append_assoc. reflexivity.
Qed.

End ParseFacts.

(** X25.  A reply in the format the prompt asks for is read back as
    written: a [Subject:] line, one blank line and a paragraph of body
    lines give that subject and those lines, joined by line feeds and
    trimmed. *)
Theorem parse_round_trip :
  forall (subj : string) (paragraph : list string),
    Js.trim subj = subj -> subj <> "" ->
    Js.forallChars (fun c => negb (Ascii.eqb c Contacts.lf)) subj = true ->
    paragraph <> [] ->
    Forall (fun l => Props.bodyLine l = true) paragraph ->
    EmailTool.parseEmailResponse
      ("Subject: " ++ subj ++ EmailTool.newline ++ EmailTool.newline
       ++ Js.join EmailTool.newline paragraph)
    = {| EmailTool.subject := subj;
         EmailTool.body := Js.trim (Js.join EmailTool.newline paragraph) |}.
Proof.
  intros subj paragraph Htrim Hne Hlf Hpar Hlines.
  assert (Hnolf : Forall (fun w => Js.forallChars
                                     (fun c => negb (Ascii.eqb c Contacts.lf))
                                     w = true) paragraph).
  { eapply Forall_impl; [|exact Hlines]. intros l Hl.
    unfold Props.bodyLine in Hl.
    apply andb_prop in Hl. destruct Hl as [Hl _].
    apply andb_prop in Hl. apply Hl. }
  assert (L : Js.split Contacts.lf
                ("Subject: " ++ subj ++ EmailTool.newline ++ EmailTool.newline
                 ++ Js.join EmailTool.newline paragraph)
              = ("Subject: " ++ subj) :: "" :: paragraph).
  { change ("Subject: " ++ subj ++ EmailTool.newline ++ EmailTool.newline
            ++ Js.join EmailTool.newline paragraph)
      with ("Subject: " ++ subj
            ++ String Contacts.lf
                 ("" ++ String Contacts.lf
                          (Js.join (String Contacts.lf "") paragraph))).
    rewrite <- append_assoc.
    rewrite split_app
      by (rewrite forallChars_app, Hlf; reflexivity).
    rewrite split_app by reflexivity.
    rewrite split_join by assumption. reflexivity. }
  unfold EmailTool.parseEmailResponse. cbv zeta. rewrite L.
  unfold EmailTool.parseLines.
  assert (S1 : EmailTool.parseLine
                 (EmailTool.parseLine
                    {| EmailTool.st_subject := ""; EmailTool.st_body := "";
                       EmailTool.st_inBody := false |}
                    ("Subject: " ++ subj)) ""
               = {| EmailTool.st_subject := subj; EmailTool.st_body := "";
                    EmailTool.st_inBody := true |}).
  { unfold EmailTool.parseLine.
    change (Js.startsWith "Subject:" ("Subject: " ++ subj)) with true.
    cbv iota.
    change (Js.replaceFirst "Subject:" "" ("Subject: " ++ subj))
      with (String " " subj).
    change (Js.trim (String " " subj)) with (Js.trim subj).
    rewrite Htrim. reflexivity. }
  change (fold_left EmailTool.parseLine
            (("Subject: " ++ subj) :: "" :: paragraph)
            {| EmailTool.st_subject := ""; EmailTool.st_body := "";
               EmailTool.st_inBody := false |})
    with (fold_left EmailTool.parseLine paragraph
            (EmailTool.parseLine
               (EmailTool.parseLine
                  {| EmailTool.st_subject := ""; EmailTool.st_body := "";
                     EmailTool.st_inBody := false |}
                  ("Subject: " ++ subj)) "")).
  rewrite S1, (parse_body_lines paragraph Hlines) by reflexivity.
  simpl EmailTool.st_subject. simpl EmailTool.st_body.
  change ("" ++ String.concat ""
                  (map (fun l => l ++ EmailTool.newline) paragraph))
    with (String.concat "" (map (fun l => l ++ EmailTool.newline) paragraph)).
  rewrite concat_lines by exact Hpar.
  rewrite trim_app_blank by reflexivity.
  assert (B : Js.nonEmpty (Js.trim (Js.join EmailTool.newline paragraph))
              = true).
  { rewrite trim_nonEmpty. apply negb_true_iff.
    destruct paragraph as [|l ls]; [contradiction Hpar; reflexivity|].
    inversion Hlines as [|? ? Hl _]; subst.
    unfold Props.bodyLine in Hl.
    apply andb_prop in Hl. destruct Hl as [Hl _].
    apply andb_prop in Hl. destruct Hl as [_ Hl].
    rewrite trim_nonEmpty in Hl. apply negb_true_iff in Hl.
    destruct ls as [|l2 ls]; [exact Hl|].
    change (Js.join EmailTool.newline (l :: l2 :: ls))
      with (l ++ EmailTool.newline ++ Js.join EmailTool.newline (l2 :: ls)).
    rewrite forallChars_app, Hl. reflexivity. }
  rewrite B.
  destruct subj as [|c subj]; [contradiction Hne; reflexivity|].
  simpl Js.nonEmpty. cbv iota.
  rewrite trim_app_blank by reflexivity. reflexivity.
Qed.

Lemma parse_round_trip_witness :
  EmailTool.parseEmailResponse
    ("Subject: " ++ "Hello" ++ EmailTool.newline ++ EmailTool.newline
     ++ Js.join EmailTool.newline ["Hi Ann,"; "Shall we talk?"])
  = {| EmailTool.subject := "Hello";
       EmailTool.body :=
         Js.trim (Js.join EmailTool.newline ["Hi Ann,"; "Shall we talk?"]) |}.
Proof.
  apply (parse_round_trip "Hello" ["Hi Ann,"; "Shall we talk?"]).
  - reflexivity.
  - discriminate.
  - reflexivity.
  - discriminate.
  - repeat constructor.
Defined.

(** X26.  What the parser falls back on.  The subject it returns is never
    empty; when no line of the reply starts with [Subject:] it is the stock
    subject; and when no line of the reply is blank the body is the whole
    reply, trimmed, its subject line included. *)
Theorem parse_fallbacks :
  forall emailContent : string,
    let lines := Js.split Contacts.lf emailContent in
    let parsed := EmailTool.parseEmailResponse emailContent in
    EmailTool.subject parsed <> ""
    /\ (Forall (fun l => Js.startsWith "Subject:" l = false) lines ->
        EmailTool.subject parsed = EmailTool.fallbackSubject)
    /\ (Forall (fun l => Js.nonEmpty (Js.trim l) = true) lines ->
        EmailTool.body parsed = Js.trim emailContent).
Proof.
  intros emailContent lines parsed. unfold parsed, lines.
  unfold EmailTool.parseEmailResponse. cbv zeta.
  simpl EmailTool.subject. simpl EmailTool.body.
  unfold EmailTool.parseLines.
  repeat split.
  - destruct (EmailTool.st_subject _) eqn:E; simpl; discriminate.
  - intros H. rewrite (parse_keeps_subject _ H). reflexivity.
  - intros H. rewrite (parse_stays_in_header _ H) by reflexivity.
    reflexivity.
Qed.

(** X27.  The personalisation score is the plain sum of its eight awards:
    these add up to 100 at most, so the cap at 100 never cuts anything off;
    the score is 100 exactly when all eight signals are present and 0
    exactly when none is. *)
Theorem personalization_score_is_uncapped_sum :
  forall insights : EmailTool.EmailInsights,
    let signals :=
      [ (EmailTool.known (EmailTool.platform_type insights), 10);
        (EmailTool.known (EmailTool.company_size insights), 10);
        (EmailTool.known (EmailTool.growth_stage insights), 10);
        (EmailTool.someOf (EmailTool.pain_points insights), 15);
        (EmailTool.someOf (EmailTool.opportunities insights), 10);
        (EmailTool.known (EmailTool.technical_fit insights), 20);
        (EmailTool.known (EmailTool.contact_quality insights), 15);
        (Js.nonEmpty (EmailTool.value_proposition insights), 10) ] in
    let score := EmailTool.calculatePersonalizationScore insights in
    score = fold_right (fun s acc => FitScorer.pts (fst s) (snd s) + acc)
                       0 signals
    /\ 0 <= score <= 100
    /\ (score = 100 <-> forallb fst signals = true)
    /\ (score = 0 <-> existsb fst signals = false).
Proof.
  intros insights. cbv zeta.
  unfold EmailTool.calculatePersonalizationScore.
  cbn [fold_right fst snd forallb existsb].
  destruct (EmailTool.known (EmailTool.platform_type insights)),
    (EmailTool.known (EmailTool.company_size insights)),
    (EmailTool.known (EmailTool.growth_stage insights)),
    (EmailTool.someOf (EmailTool.pain_points insights)),
    (EmailTool.someOf (EmailTool.opportunities insights)),
    (EmailTool.known (EmailTool.technical_fit insights)),
    (EmailTool.known (EmailTool.contact_quality insights)),
    (Js.nonEmpty (EmailTool.value_proposition insights));
    vm_compute; repeat split; intros; congruence.
Qed.

Section FileNameFacts.

Lemma substChars_within (r p q : ascii -> bool) (rep s : string) :
  (forall c, r c = true -> q c = false -> p c = true) ->
  Js.forallChars p rep = true ->
  Js.forallChars r s = true ->
  Js.forallChars p (RegexSpec.substChars q rep s) = true.
Proof.
  intros H Hrep. induction s as [|c s IH]; simpl; [reflexivity|]. intros Hs.
  apply andb_prop in Hs. destruct Hs as [Hc Hs].
  destruct (q c) eqn:E.
  - rewrite forallChars_app, Hrep. exact (IH Hs).
  - simpl. rewrite (H c Hc E). exact (IH Hs).
Qed.

Lemma forallChars_true (s : string) : Js.forallChars (fun _ => true) s = true.
Proof. induction s as [|c s IH]; simpl; [reflexivity | exact IH]. Qed.

Lemma fileNamePart_chars (s : string) :
  Js.forallChars Props.fileChar (EmailTool.fileNamePart s) = true.
Proof.
  unfold EmailTool.fileNamePart, Js.toLowerCase. rewrite replaceAll_cls.
  apply mapChars_chars
    with (p := fun c => Js.isAlpha c || Js.isDigit c || Regex.oneOf "_" c).
  - intros c. destruct c as [[] [] [] [] [] [] [] []]; vm_compute; congruence.
  - apply substChars_within with (r := fun _ => true).
    + intros c _ E. apply negb_false_iff in E. rewrite E. reflexivity.
    + reflexivity.
    + apply forallChars_true.
Qed.

Lemma fileChar_stemChar (c : ascii) :
  Props.fileChar c = true -> Props.stemChar c = true.
Proof. destruct c as [[] [] [] [] [] [] [] []]; vm_compute; congruence. Qed.

Lemma isoChar_stemChar (c : ascii) :
  Props.isoChar c = true -> Regex.oneOf ":." c = false ->
  Props.stemChar c = true.
Proof. destruct c as [[] [] [] [] [] [] [] []]; vm_compute; congruence. Qed.

End FileNameFacts.

(** X28.  The name of a draft file is safe whatever the company and the
    recipient are called: for a timestamp in ISO 8601 form it is a stem of
    letters, digits, underscores, hyphens and plus signs followed by
    [.json], so it holds no path separator, no dot but the one of the
    extension, and no white space. *)
Theorem draft_file_name_is_safe :
  forall (company : string) (recipient_name : option string)
         (isoTimestamp : string),
    Js.forallChars Props.isoChar isoTimestamp = true ->
    exists stem,
      EmailTool.getDraftFileName company recipient_name isoTimestamp
      = stem ++ ".json"
      /\ Js.forallChars Props.stemChar stem = true.
Proof.
  intros company recipient_name isoTimestamp Hiso.
  unfold EmailTool.getDraftFileName. cbv zeta.
  set (c := EmailTool.fileNamePart company).
  set (r := EmailTool.fileNamePart _).
  set (t := Regex.replaceAll _ "-" isoTimestamp).
  exists (c ++ "__" ++ r ++ "__" ++ t). split.
  - rewrite !append_assoc. reflexivity.
  - rewrite !forallChars_app.
    assert (Hc : Js.forallChars Props.stemChar c = true).
    { eapply forallChars_impl; [exact fileChar_stemChar|].
      apply fileNamePart_chars. }
    assert (Hr : Js.forallChars Props.stemChar r = true).
    { eapply forallChars_impl; [exact fileChar_stemChar|].
      apply fileNamePart_chars. }
    assert (Ht : Js.forallChars Props.stemChar t = true).
    { unfold t. rewrite replaceAll_cls.
      apply substChars_within with (r := Props.isoChar);
        [exact isoChar_stemChar | reflexivity | exact Hiso]. }
    rewrite Hc, Hr, Ht. reflexivity.
Qed.

Lemma draft_file_name_is_safe_witness :
  exists stem,
    EmailTool.getDraftFileName "../Acme, Inc." None "2024-05-01T09:30:00.000Z"
    = stem ++ ".json"
    /\ Js.forallChars Props.stemChar stem = true.
Proof.
  apply (draft_file_name_is_safe "../Acme, Inc." None
                                 "2024-05-01T09:30:00.000Z").
  reflexivity.
Defined.

(* ================================================================== *)
(** * Further properties: the server's qualification score *)
(* ================================================================== *)

Section QualifierFacts.
Import Qualifier.

Lemma determinePlatformType_cases (d : CompanyData) :
  In (determinePlatformType d)
     ["no-code"; "crm"; "project-management"; "e-commerce"; "automation";
      "other"].
Proof.
  unfold determinePlatformType.
  destruct (find _ TARGET_PLATFORMS) as [pc|] eqn:F.
  - apply find_some in F. destruct F as [F _].
    unfold TARGET_PLATFORMS in F. simpl in F.
    destruct F as [F|[F|[F|[F|[F|[]]]]]]; subst pc; simpl; tauto.
  - simpl. tauto.
Qed.

Lemma sizeScore_range (revenue employees : option Z) :
  0 <= sizeScore revenue employees <= 25.
Proof.
  assert (R : 0 <= revenueScore revenue <= 25).
  { unfold revenueScore.
    repeat match goal with
           | |- context [if ?b then _ else _] => destruct b
           end; lia. }
  unfold sizeScore.
  repeat match goal with
         | |- context [if ?b then _ else _] => destruct b
         end; lia.
Qed.

Lemma tierOf_cases (s : Z) :
  (tierOf s = "hot" <-> 80 <= s)
  /\ (tierOf s = "warm" <-> 60 <= s < 80)
  /\ (tierOf s = "cold" <-> 40 <= s < 60)
  /\ (tierOf s = "not_qualified" <-> s < 40).
Proof.
  unfold tierOf, QUALIFICATION_TIERS. cbn [find fst snd].
  destruct (Z.leb_spec 80 s); [|destruct (Z.leb_spec 60 s);
    [|destruct (Z.leb_spec 40 s); [|destruct (Z.leb_spec 0 s)]]];
    cbn [fst]; repeat split; intros; try lia; try discriminate;
    reflexivity.
Qed.

End QualifierFacts.

(** X29.  The qualification score the server computes once it has filled in
    the platform type.  The parts stay within 5..30, 0..25, 0..47 and 0..37,
    so the total lies between 5 and 139 and can exceed 100; a recognised
    platform is worth at least 25 points, an unrecognised one contributes
    5; and the tier is read off the total at 80, 60 and 40. *)
Theorem qualification_score_range_and_tier :
  forall d : Qualifier.CompanyData,
    let r := Qualifier.calculateQualificationScore
               (Qualifier.withPlatformType d) in
    let b := Qualifier.breakdown r in
    Qualifier.score r
    = Qualifier.b_platformType b + Qualifier.b_companySize b
      + Qualifier.b_growthIndicators b + Qualifier.b_technicalFit b
    /\ 5 <= Qualifier.b_platformType b <= 30
    /\ 0 <= Qualifier.b_companySize b <= 25
    /\ 0 <= Qualifier.b_growthIndicators b <= 47
    /\ 0 <= Qualifier.b_technicalFit b <= 37
    /\ 5 <= Qualifier.score r <= 139
    /\ (Qualifier.determinePlatformType d <> "other" ->
        25 <= Qualifier.score r)
    /\ (Qualifier.determinePlatformType d = "other" ->
        Qualifier.b_platformType b = 5 /\ Qualifier.score r <= 104)
    /\ (Qualifier.tier r = "hot" <-> 80 <= Qualifier.score r)
    /\ (Qualifier.tier r = "warm" <-> 60 <= Qualifier.score r < 80)
    /\ (Qualifier.tier r = "cold" <-> 40 <= Qualifier.score r < 60)
    /\ (Qualifier.tier r = "not_qualified" <-> Qualifier.score r < 40).
Proof.
  intros d. cbv zeta.
  unfold Qualifier.calculateQualificationScore.
  cbn [Qualifier.score Qualifier.tier Qualifier.breakdown
       Qualifier.b_platformType Qualifier.b_companySize
       Qualifier.b_growthIndicators Qualifier.b_technicalFit].
  cbn [Qualifier.withPlatformType Qualifier.platformType Qualifier.revenue
       Qualifier.employees].
  pose proof (sizeScore_range (Qualifier.revenue d) (Qualifier.employees d))
    as S.
  set (size := Qualifier.sizeScore _ _) in *.
  assert (G : 0 <= Qualifier.growthScore (Qualifier.withPlatformType d)
              <= 47).
  { unfold Qualifier.growthScore, FitScorer.pts.
    repeat match goal with
           | |- context [if ?b then _ else _] => destruct b
           end; lia. }
  set (growth := Qualifier.growthScore _) in *.
  assert (T : 0 <= Qualifier.techScore (Qualifier.withPlatformType d) <= 37
              /\ (Qualifier.determinePlatformType d <> "other" ->
                  10 <= Qualifier.techScore (Qualifier.withPlatformType d))
              /\ (Qualifier.determinePlatformType d = "other" ->
                  Qualifier.techScore (Qualifier.withPlatformType d) <= 27)).
  { unfold Qualifier.techScore, FitScorer.pts.
    cbn [Qualifier.withPlatformType Qualifier.platformType
         Qualifier.techStack].
    destruct (String.eqb_spec (Qualifier.determinePlatformType d) "other")
      as [E|E]; cbn [negb];
      repeat match goal with
             | |- context [if ?b then _ else _] => destruct b
             end; repeat split; intros; try lia; congruence. }
  set (tech := Qualifier.techScore _) in *.
  assert (P : 5 <= Qualifier.platformScore (Qualifier.determinePlatformType d)
              <= 30
              /\ (Qualifier.determinePlatformType d <> "other" ->
                  15 <= Qualifier.platformScore
                          (Qualifier.determinePlatformType d))
              /\ (Qualifier.determinePlatformType d = "other" ->
                  Qualifier.platformScore
                    (Qualifier.determinePlatformType d) = 5)).
  { pose proof (determinePlatformType_cases d) as C. simpl in C.
    destruct C as [C|[C|[C|[C|[C|[C|[]]]]]]]; rewrite <- C; vm_compute;
      repeat split; intros; congruence. }
  set (platform := Qualifier.platformScore _) in *.
  destruct T as [T1 [T2 T3]], P as [P1 [P2 P3]].
  pose proof (tierOf_cases (platform + size + growth + tech))
    as [H1 [H2 [H3 H4]]].
  repeat split; try lia; try tauto.
  - intros Hp. specialize (T2 Hp). specialize (P2 Hp). lia.
  - match goal with
    | Hp : _ = "other" |- _ => specialize (T3 Hp); specialize (P3 Hp)
    end. lia.
Qed.

(** X30.  The size and growth labels of the e-mail tool follow the head
    count when it is known (zero counts as unknown): the revenue is not
    looked at, and without a funding stage the growth stage is the label
    that goes with the size; with neither head count nor revenue the size
    is unknown. *)
Theorem headcount_decides_size_and_stage :
  forall (employees revenue : option Z),
    (EmailTool.given employees = true ->
     EmailTool.determineCompanySize employees revenue
     = EmailTool.determineCompanySize employees None
     /\ In (EmailTool.determineCompanySize employees revenue,
            EmailTool.determineGrowthStage None employees)
           [ ("enterprise", "mature"); ("mid-market", "growth");
             ("small-business", "early-growth"); ("startup", "startup") ])
    /\ (EmailTool.determineCompanySize employees revenue = "unknown"
        <-> EmailTool.given employees = false
            /\ EmailTool.given revenue = false).
Proof.
  intros employees revenue. split.
  - intros H. unfold EmailTool.determineCompanySize,
      EmailTool.determineGrowthStage. rewrite H.
    cbn [Js.orNull Js.truthy].
    split; [reflexivity|].
    destruct (500 <=? EmailTool.valueOf employees); [simpl; tauto|].
    destruct (100 <=? EmailTool.valueOf employees); [simpl; tauto|].
    destruct (25 <=? EmailTool.valueOf employees); simpl; tauto.
  - unfold EmailTool.determineCompanySize.
    destruct (EmailTool.given employees), (EmailTool.given revenue);
      repeat match goal with
             | |- context [if ?b then _ else _] => destruct b
             end;
      split; intros; try discriminate; try tauto;
      try (destruct H; discriminate).
Qed.
